(** * Academic Performance Analytics: the cleaning, transformation and
      aggregation pipeline of [main.py]

    The development embeds [AcademicPerformanceAnalyzer] (main.py), the
    fragment of pandas it calls, and the data preparation and the filters
    of [DashboardApp] (dashboard.py).

    Modelling conventions.
    - A score is an exact rational ([Q]); pandas' NaN, which stands both for
      a missing cell and for the mean of no values, is [None].
    - A [Series] carries its dtype: [Float64] for numeric columns, [Object]
      for columns of strings.
    - A [DataFrame] is an ordered list of named columns over [nrows] rows.
    - The analyzer holds references to DataFrame objects; objects live in a
      store, so that [self.cleaned_data[col] = ...] is an update in place
      seen through every alias.
    - pandas behaves as version 2 does: a numeric reduction over a column
      of strings raises TypeError, [str.replace] is literal, [idxmax]
      over a row of NaN gives NaN, and the mean of a column without any
      value is the Python float NaN, which has no method [round].
    - Arithmetic is exact where numpy's is binary64. The two agree, up to
      the choice between the two neighbours at a tie, on the frames
      called [gradebook] below (scores between 0 and 100 with at most
      four decimals, at most 10000 rows); what is stated of a mean is
      stated for those frames, and through [nearest_tenth], which admits
      either neighbour at a tie.
    - Strings are strings of bytes; [strip] and [lower] are those of
      Python on ASCII strings ([ascii_only]).
    - [print], [to_csv] and the plotting code have no effect on the values
      studied here and are left out. *)

From Stdlib Require Import QArith Qround ZArith String Ascii List Lqa.
From stdpp Require Import gmap strings list fin_maps.

Local Open Scope string_scope.
#[local] Set Warnings "-clear-no-such-hyp".

(** ** Numbers *)

Module Num.

(** A numeric cell: [None] is NaN. *)
Definition cell : Type := option Q.

(** [numpy.rint]: nearest integer, ties to the even one. *)
Definition rint (q : Q) : Z :=
  let f := Qfloor q in
  match Qcompare (q - inject_Z f) (1 # 2) with
  | Lt => f
  | Gt => (f + 1)%Z
  | Eq => if Z.even f then f else (f + 1)%Z
  end.

(** [round(x, 1)] on a float: scale by ten, [rint], scale back; here
    without the rounding errors of the two scalings. *)
Definition round1 (q : Q) : Q := Qmake (rint (q * 10)) 10.

(** [.round(1)] on a scalar that may be NaN. *)
Definition round1_cell (c : cell) : cell := round1 <$> c.

(** The values that are not NaN, in order. *)
Definition present (xs : list cell) : list Q := omap id xs.

Definition Qsum (qs : list Q) : Q := foldr Qplus 0%Q qs.

(** [nanmean]: mean of the values that are not NaN; NaN when there are
    none. The sum and the quotient are exact, where numpy rounds each to
    the nearest binary64 number. *)
Definition nanmean (xs : list cell) : cell :=
  match present xs with
  | [] => None
  | q :: qs => Some (Qsum (q :: qs) / inject_Z (Z.of_nat (length (q :: qs))))%Q
  end.

Definition Qmaxl (q : Q) (qs : list Q) : Q :=
  foldl (λ m x, if Qle_bool x m then m else x) q qs.

Definition Qminl (q : Q) (qs : list Q) : Q :=
  foldl (λ m x, if Qle_bool m x then m else x) q qs.

(** [nanmax] and [nanmin]. *)
Definition nanmax (xs : list cell) : cell :=
  match present xs with
  | [] => None
  | q :: qs => Some (Qmaxl q qs)
  end.

Definition nanmin (xs : list cell) : cell :=
  match present xs with
  | [] => None
  | q :: qs => Some (Qminl q qs)
  end.

(** [score >= t] on floats: false as soon as [score] is NaN. *)
Definition ge (score : cell) (t : Q) : bool :=
  match score with
  | Some q => Qle_bool t q
  | None => false
  end.

(** A value with at most one decimal digit. *)
Definition one_decimal (q : Q) : Prop := ∃ z : Z, q = Qmake z 10.

End Num.

(** ** Strings *)

Module Str.

(** [str.isspace] on the ASCII range. *)
Definition is_space (a : ascii) : bool :=
  let n := nat_of_ascii a in
  (((9 <=? n) && (n <=? 13)) || ((28 <=? n) && (n <=? 32)))%nat.

Fixpoint lstrip (s : string) : string :=
  match s with
  | EmptyString => EmptyString
  | String a s' => if is_space a then lstrip s' else s
  end.

Definition rstrip (s : string) : string :=
  String.rev (lstrip (String.rev s)).

(** [str.strip()] *)
Definition strip (s : string) : string := rstrip (lstrip s).

Definition lower_ascii (a : ascii) : ascii :=
  let n := nat_of_ascii a in
  if ((65 <=? n) && (n <=? 90))%nat then ascii_of_nat (n + 32) else a.

(** [str.lower()] on the ASCII range. *)
Fixpoint lower (s : string) : string :=
  match s with
  | EmptyString => EmptyString
  | String a s' => String (lower_ascii a) (lower s')
  end.

(** [str.replace(old, new)] for a non-empty [old]: occurrences are
    replaced from the left and do not overlap; [skip] counts the
    characters of a match still to be dropped. *)
Fixpoint replace_from (old new : string) (skip : nat) (s : string) : string :=
  match s with
  | EmptyString => EmptyString
  | String a s' =>
      match skip with
      | S k => replace_from old new k s'
      | O =>
          if String.prefix old s
          then new +:+ replace_from old new (String.length old - 1) s'
          else String a (replace_from old new 0 s')
      end
  end.

Definition replace (old new s : string) : string := replace_from old new 0 s.

End Str.

(** ** Exceptions and the state-and-exception monad *)

Inductive exn : Type :=
  | KeyError (key : string)
  | TypeError
  | AttributeError.

Inductive outcome (A : Type) : Type :=
  | Returns (a : A)
  | Raises (e : exn).
Arguments Returns {A} a.
Arguments Raises {A} e.

(** A computation over a mutable state [S]: the state it leaves is kept
    also when it raises, as for a Python object mutated before the
    exception. *)
Definition M (S A : Type) : Type := S → outcome A * S.

Global Instance M_ret {S} : MRet (M S) := λ A a s, (Returns a, s).

Global Instance M_bind {S} : MBind (M S) := λ A B k m s,
  match m s with
  | (Returns a, s') => k a s'
  | (Raises e, s') => (Raises e, s')
  end.

Definition raise {S A} (e : exn) : M S A := λ s, (Raises e, s).

Definition get {S} : M S S := λ s, (Returns s, s).

Definition modify {S} (f : S → S) : M S unit := λ s, (Returns tt, f s).

(** A pure step that may raise. *)
Definition lift {S A} (o : outcome A) : M S A := λ s, (o, s).

(** [for x in l: body(x)] *)
Fixpoint for_ {S A} (l : list A) (body : A → M S unit) : M S unit :=
  match l with
  | [] => mret tt
  | x :: l' => body x ;; for_ l' body
  end.

(** [if b: body] *)
Definition when {S} (b : bool) (body : M S unit) : M S unit :=
  if b then body else mret tt.

(** ** The pandas fragment *)

(** A key of a [value_counts] or [groupby] result. *)
Inductive label : Type :=
  | LStr (s : string)
  | LNum (n : Z) (d : positive).

Global Instance label_eq_dec : EqDecision label.
Proof. solve_decision. Defined.

Global Instance label_countable : Countable label.
Proof.
  refine (inj_countable'
    (λ l, match l with LStr s => inl s | LNum n d => inr (n, d) end)
    (λ x, match x with inl s => LStr s | inr (n, d) => LNum n d end) _).
  by intros [].
Defined.

(** A float key, in lowest terms so that equal numbers give one key. *)
Definition label_of_Q (q : Q) : label :=
  let r := Qred q in LNum (Qnum r) (Qden r).

Inductive Series : Type :=
  | Float64 (xs : list Num.cell)
  | Object (xs : list (option string)).

(** [s.astype(str)]: NaN becomes the string ['nan']; [repr] is Python's
    conversion of a float to a string. *)
Definition astype_str (repr : Q → string) (s : Series) : Series :=
  match s with
  | Float64 xs => Object ((λ c, Some (from_option repr "nan" c)) <$> xs)
  | Object xs => Object ((λ c, Some (default "nan" c)) <$> xs)
  end.

(** The [.str] accessor: only on a series of strings; NaN stays NaN. *)
Definition str_method (f : string → string) (s : Series) : outcome Series :=
  match s with
  | Float64 _ => Raises AttributeError
  | Object xs => Returns (Object ((λ c : option string, f <$> c) <$> xs))
  end.

(** [s.mean()] *)
Definition series_mean (s : Series) : outcome Num.cell :=
  match s with
  | Float64 xs => Returns (Num.nanmean xs)
  | Object _ => Raises TypeError
  end.

(** [s.max()] and [s.min()] *)
Definition series_max (s : Series) : outcome Num.cell :=
  match s with
  | Float64 xs => Returns (Num.nanmax xs)
  | Object _ => Raises TypeError
  end.

Definition series_min (s : Series) : outcome Num.cell :=
  match s with
  | Float64 xs => Returns (Num.nanmin xs)
  | Object _ => Raises TypeError
  end.

(** [x.round(1)] on the scalar a reduction returns: a numpy float has the
    method; the Python float NaN that the mean of no value is has not. *)
Definition scalar_round1 (x : Num.cell) : outcome Num.cell :=
  match x with
  | Some q => Returns (Some (Num.round1 q))
  | None => Raises AttributeError
  end.

(** [s.fillna(value)]: every NaN cell takes [value]; filling with NaN
    changes nothing. *)
Definition fillna_cell (value c : Num.cell) : Num.cell :=
  match c with
  | Some q => Some q
  | None => value
  end.

Definition series_fillna (value : Num.cell) (s : Series) : Series :=
  match s with
  | Float64 xs => Float64 (fillna_cell value <$> xs)
  | Object xs => Object xs
  end.

(** [s.round(1)] *)
Definition series_round1 (s : Series) : outcome Series :=
  match s with
  | Float64 xs => Returns (Float64 (Num.round1_cell <$> xs))
  | Object _ => Raises TypeError
  end.

(** [s.apply(f)] for an [f] that compares its argument with numbers and
    returns a string. *)
Definition series_apply (f : Num.cell → string) (s : Series) : outcome Series :=
  match s with
  | Float64 xs => Returns (Object ((λ c, Some (f c)) <$> xs))
  | Object _ => Raises TypeError
  end.

(** [s.isnull().sum()] *)
Definition count_null (s : Series) : nat :=
  match s with
  | Float64 xs => length (filter (λ c, c = None) xs)
  | Object xs => length (filter (λ c, c = None) xs)
  end.

(** [s.value_counts().to_dict()]: occurrences of each value, NaN left
    out. *)
Definition count_label (m : gmap label nat) (k : label) : gmap label nat :=
  <[k := S (default 0 (m !! k))]> m.

Definition series_labels (s : Series) : list (option label) :=
  match s with
  | Float64 xs => (λ c : Num.cell, label_of_Q <$> c) <$> xs
  | Object xs => (λ c : option string, LStr <$> c) <$> xs
  end.

Definition value_counts (s : Series) : gmap label nat :=
  foldl count_label ∅ (omap id (series_labels s)).

(** The sum of the values of a dict of counts. *)
Definition sum_counts (m : gmap label nat) : nat :=
  map_fold (λ _ c acc, c + acc) 0 m.

(** *** Data frames *)

Record DataFrame : Type := mkDataFrame {
  nrows : nat;
  columns : list (string * Series)
}.

Global Instance DataFrame_inhabited : Inhabited DataFrame :=
  populate (mkDataFrame 0 []).

(** [df.columns] *)
Definition column_names (df : DataFrame) : list string := (columns df).*1.

(** [col in df.columns] *)
Definition has_column (col : string) (df : DataFrame) : bool :=
  bool_decide (col ∈ column_names df).

Fixpoint lookup_column (col : string) (cs : list (string * Series)) : option Series :=
  match cs with
  | [] => None
  | (name, s) :: cs' => if decide (name = col) then Some s else lookup_column col cs'
  end.

(** [df[col] = s] on the list of columns: an existing column is replaced
    where it stands, a new one is appended. *)
Fixpoint assign_column (col : string) (s : Series) (cs : list (string * Series))
  : list (string * Series) :=
  match cs with
  | [] => [(col, s)]
  | (name, s0) :: cs' =>
      if decide (name = col) then (name, s) :: cs'
      else (name, s0) :: assign_column col s cs'
  end.

Definition set_column (col : string) (s : Series) (df : DataFrame) : DataFrame :=
  mkDataFrame (nrows df) (assign_column col s (columns df)).

(** [df[col]] *)
Definition getitem (col : string) : M DataFrame Series :=
  λ df, match lookup_column col (columns df) with
        | Some s => (Returns s, df)
        | None => (Raises (KeyError col), df)
        end.

(** [df[col] = s] *)
Definition setitem (col : string) (s : Series) : M DataFrame unit :=
  modify (set_column col s).

(** [df[cols]] for a list of column names. *)
Fixpoint getitems (cols : list string) : M DataFrame (list (string * Series)) :=
  match cols with
  | [] => mret []
  | col :: cols' =>
      s ← getitem col;
      rest ← getitems cols';
      mret ((col, s) :: rest)
  end.

(** The columns of a numeric reduction along the rows: a column of strings
    makes it raise. *)
Fixpoint float_columns (cs : list (string * Series))
  : outcome (list (string * list Num.cell)) :=
  match cs with
  | [] => Returns []
  | (name, Float64 xs) :: cs' =>
      match float_columns cs' with
      | Returns r => Returns ((name, xs) :: r)
      | Raises e => Raises e
      end
  | (_, Object _) :: _ => Raises TypeError
  end.

(** Row [i] of the selected columns, each cell with its column name. *)
Definition row_at (cs : list (string * list Num.cell)) (i : nat)
  : list (string * Num.cell) :=
  (λ c : string * list Num.cell, (c.1, mjoin (c.2 !! i))) <$> cs.

(** [df[cols].mean(axis=1)]: for each row the mean of its cells that are
    not NaN. *)
Definition mean_axis1 (cols : list string) : M DataFrame Series :=
  sel ← getitems cols;
  cs ← lift (float_columns sel);
  df ← get;
  mret (Float64 ((λ i, Num.nanmean ((row_at cs i).*2)) <$> seq 0 (nrows df))).

(** The name of the first column whose cell beats every cell before it;
    NaN cells are skipped, and a row of NaN gives NaN. *)
Definition idx_extreme (beats : Q → Q → bool) (row : list (string * Num.cell))
  : option string :=
  fst <$> foldl (λ (acc : option (string * Q)) (c : string * Num.cell),
                   match c.2, acc with
                   | None, _ => acc
                   | Some q, None => Some (c.1, q)
                   | Some q, Some (_, q0) => if beats q q0 then Some (c.1, q) else acc
                   end) None row.

Definition Qgt_bool (x y : Q) : bool := negb (Qle_bool x y).
Definition Qlt_bool (x y : Q) : bool := negb (Qle_bool y x).

Definition idx_axis1 (beats : Q → Q → bool) (cols : list string) : M DataFrame Series :=
  sel ← getitems cols;
  cs ← lift (float_columns sel);
  df ← get;
  mret (Object ((λ i, idx_extreme beats (row_at cs i)) <$> seq 0 (nrows df))).

(** [df[cols].idxmax(axis=1)] and [df[cols].idxmin(axis=1)] *)
Definition idxmax_axis1 : list string → M DataFrame Series := idx_axis1 Qgt_bool.
Definition idxmin_axis1 : list string → M DataFrame Series := idx_axis1 Qlt_bool.

(** [df[cols].isnull().sum().sum()] *)
Definition count_null_columns (cols : list string) : M DataFrame nat :=
  sel ← getitems cols;
  mret (foldr (λ c acc, count_null c.2 + acc) 0 sel).

(** [df.groupby(key)[val].mean().round(1).to_dict()]: the rows are grouped
    by the value of column [key] (rows whose key is NaN are dropped), and
    each group gives the mean of its [val] cells. *)
Definition group_cell (m : gmap label (list Num.cell)) (kv : option label * Num.cell)
  : gmap label (list Num.cell) :=
  match kv.1 with
  | Some k => <[k := (default [] (m !! k) ++ [kv.2])%list]> m
  | None => m
  end.

Definition groupby_mean_round1 (key val : string) : M DataFrame (gmap label Num.cell) :=
  ks ← getitem key;
  vs ← getitem val;
  match vs with
  | Float64 xs =>
      let groups := foldl group_cell ∅ (zip (series_labels ks) xs) in
      mret ((λ g, Num.round1_cell (Num.nanmean g)) <$> groups)
  | Object _ => raise TypeError
  end.

(** ** The analyzer (main.py, class AcademicPerformanceAnalyzer) *)

(** A reference to a DataFrame object. *)
Definition loc : Type := nat.

Record BasicStats : Type := mkBasicStats {
  total_students : nat;
  average_overall_grade : Num.cell;
  highest_grade : Num.cell;
  lowest_grade : Num.cell
}.

(** [self.results]: a dict filled key by key; a field is [None] until its
    key is assigned. *)
Record Results : Type := mkResults {
  basic_stats : option BasicStats;
  subject_averages : option (gmap string Num.cell);
  grade_distribution : option (gmap label nat);
  performance_by_grade : option (gmap label Num.cell);
  gender_performance : option (gmap label Num.cell)
}.

Record Analyzer : Type := mkAnalyzer {
  store : gmap loc DataFrame;
  raw_data : option loc;
  cleaned_data : option loc;
  results : Results
}.

Definition set_store (h : gmap loc DataFrame) (st : Analyzer) : Analyzer :=
  mkAnalyzer h (raw_data st) (cleaned_data st) (results st).

Definition set_results (f : Results → Results) (st : Analyzer) : Analyzer :=
  mkAnalyzer (store st) (raw_data st) (cleaned_data st) (f (results st)).

(** [__init__] *)
Definition init (h : gmap loc DataFrame) : Analyzer :=
  mkAnalyzer h None None (mkResults None None None None None).

(** [self.raw_data = pd.read_csv(file_path)], for a file that exists and
    parses to [file]: the frame read is a new object. *)
Definition load_data (file : DataFrame) : M Analyzer loc :=
  λ st, let l := fresh (dom (store st)) in
        (Returns l,
         mkAnalyzer (<[l := file]> (store st)) (Some l) (cleaned_data st) (results st)).

(** [self.cleaned_data = self.raw_data.copy()]: the copy is a new
    object. *)
Definition copy_raw (r : loc) : M Analyzer unit :=
  λ st, let l := fresh (dom (store st)) in
        (Returns tt,
         mkAnalyzer (<[l := store st !!! r]> (store st)) (raw_data st) (Some l)
                    (results st)).

(** Statements on the object [self.cleaned_data] refers to: they read and
    update that object in the store. Subscripting [None] is a TypeError. *)
Definition on_cleaned {A} (m : M DataFrame A) : M Analyzer A :=
  λ st, match cleaned_data st with
        | None => (Raises TypeError, st)
        | Some l =>
            let r := m (store st !!! l) in
            (r.1, set_store (<[l := r.2]> (store st)) st)
        end.

Definition text_columns : list string := ["name"; "grade_level"; "gender"].

Definition grade_columns : list string :=
  ["Math"; "Science"; "English"; "History"; "Art"].

(** [[col for col in grade_columns if col in df.columns]] *)
Definition existing_grade_columns (df : DataFrame) : list string :=
  List.filter (λ col, has_column col df) grade_columns.

(** *** clean_data *)

(** Step 1, loop body: [df[col] = df[col].astype(str).str.strip()] for a
    text column that exists. *)
Definition strip_column (repr : Q → string) (col : string) : M DataFrame unit :=
  df ← get;
  when (has_column col df) (
    s ← getitem col;
    s' ← lift (str_method Str.strip (astype_str repr s));
    setitem col s').

(** Step 2: [df['grade_level'].str.lower().str.replace('TH', 'th')]. *)
Definition standardize_grade_level : M DataFrame unit :=
  df ← get;
  when (has_column "grade_level" df) (
    s ← getitem "grade_level";
    s1 ← lift (str_method Str.lower s);
    s2 ← lift (str_method (Str.replace "TH" "th") s1);
    setitem "grade_level" s2).

(** Step 3, loop body: the mean is taken from the column as it stands,
    then the column is filled with it. *)
Definition fill_column (col : string) : M DataFrame unit :=
  s ← getitem col;
  avg_grade ← lift (series_mean s);
  s0 ← getitem col;
  setitem col (series_fillna avg_grade s0).

(** Step 4, loop body. *)
Definition round_column (col : string) : M DataFrame unit :=
  s ← getitem col;
  s' ← lift (series_round1 s);
  setitem col s'.

(** Steps 3 and 4, under [if existing_grade_columns:]. *)
Definition impute_and_round : M DataFrame unit :=
  df ← get;
  let existing := existing_grade_columns df in
  when (bool_decide (existing ≠ [])) (
    missing_before ← count_null_columns existing;
    for_ existing fill_column;;
    missing_after ← count_null_columns existing;
    for_ existing round_column).

(** main.py lines 98-129, on the frame [self.cleaned_data]. *)
Definition clean_frame (repr : Q → string) : M DataFrame unit :=
  for_ text_columns (strip_column repr);;
  standardize_grade_level;;
  impute_and_round.

Definition clean_data (repr : Q → string) : M Analyzer (option loc) :=
  st ← get;
  match raw_data st with
  | None => mret None
  | Some r =>
      copy_raw r;;
      on_cleaned (clean_frame repr);;
      st' ← get;
      mret (cleaned_data st')
  end.

(** *** transform_data *)

Definition get_letter_grade (score : Num.cell) : string :=
  if Num.ge score 90 then "A"
  else if Num.ge score 80 then "B"
  else if Num.ge score 70 then "C"
  else if Num.ge score 60 then "D"
  else "F".

Definition get_performance_category (score : Num.cell) : string :=
  if Num.ge score 85 then "Excellent"
  else if Num.ge score 75 then "Good"
  else if Num.ge score 65 then "Average"
  else "Needs Improvement".

(** main.py lines 149-189, on the frame [self.cleaned_data]; the result
    is [false] where the method returns [None] for want of grade
    columns. *)
Definition transform_frame : M DataFrame bool :=
  df ← get;
  let existing := existing_grade_columns df in
  if bool_decide (existing ≠ []) then
    avg ← mean_axis1 existing;
    avg' ← lift (series_round1 avg);
    setitem "overall_average" avg';;
    oa ← getitem "overall_average";
    lg ← lift (series_apply get_letter_grade oa);
    setitem "letter_grade" lg;;
    oa' ← getitem "overall_average";
    pf ← lift (series_apply get_performance_category oa');
    setitem "performance" pf;;
    when (bool_decide (existing ≠ [])) (
      best ← idxmax_axis1 existing;
      setitem "best_subject" best;;
      worst ← idxmin_axis1 existing;
      setitem "worst_subject" worst);;
    mret true
  else mret false.

Definition transform_data : M Analyzer (option loc) :=
  st ← get;
  match cleaned_data st with
  | None => mret None
  | Some _ =>
      ok ← on_cleaned transform_frame;
      if ok : bool then st' ← get; mret (cleaned_data st')
      else mret None
  end.

(** *** analyze_data *)

Definition set_basic_stats (b : BasicStats) (r : Results) : Results :=
  mkResults (Some b) (subject_averages r) (grade_distribution r)
            (performance_by_grade r) (gender_performance r).

Definition set_subject_averages (m : gmap string Num.cell) (r : Results) : Results :=
  mkResults (basic_stats r) (Some m) (grade_distribution r)
            (performance_by_grade r) (gender_performance r).

(** [self.results['subject_averages'][subject] = v] *)
Definition add_subject_average (subject : string) (v : Num.cell) (r : Results) : Results :=
  set_subject_averages (<[subject := v]> (default ∅ (subject_averages r))) r.

Definition set_grade_distribution (m : gmap label nat) (r : Results) : Results :=
  mkResults (basic_stats r) (subject_averages r) (Some m)
            (performance_by_grade r) (gender_performance r).

Definition set_performance_by_grade (m : gmap label Num.cell) (r : Results) : Results :=
  mkResults (basic_stats r) (subject_averages r) (grade_distribution r)
            (Some m) (gender_performance r).

Definition set_gender_performance (m : gmap label Num.cell) (r : Results) : Results :=
  mkResults (basic_stats r) (subject_averages r) (grade_distribution r)
            (performance_by_grade r) (Some m).

(** The dict literal of main.py lines 210-215; its entries are evaluated
    in order. *)
Definition basic_stats_frame : M DataFrame BasicStats :=
  df ← get;
  let total := nrows df in
  oa ← getitem "overall_average";
  m ← lift (series_mean oa);
  avg ← lift (scalar_round1 m);
  oa1 ← getitem "overall_average";
  hi ← lift (series_max oa1);
  oa2 ← getitem "overall_average";
  lo ← lift (series_min oa2);
  mret (mkBasicStats total avg hi lo).

(** Loop body of main.py lines 219-220. *)
Definition subject_average (subject : string) : M Analyzer unit :=
  v ← on_cleaned (s ← getitem subject; m ← lift (series_mean s);
                  lift (scalar_round1 m));
  modify (set_results (add_subject_average subject v)).

Definition analyze_data : M Analyzer (option Results) :=
  st ← get;
  match cleaned_data st with
  | None => mret None
  | Some _ =>
      existing ← on_cleaned (df ← get; mret (existing_grade_columns df));
      if bool_decide (existing = []) then mret None
      else
        (* Basic statistics *)
        b ← on_cleaned basic_stats_frame;
        modify (set_results (set_basic_stats b));;
        (* Subject averages *)
        modify (set_results (set_subject_averages ∅));;
        for_ existing subject_average;;
        (* Grade distribution *)
        gd ← on_cleaned (s ← getitem "letter_grade"; mret (value_counts s));
        modify (set_results (set_grade_distribution gd));;
        (* Performance by grade level *)
        pg ← on_cleaned (groupby_mean_round1 "grade_level" "overall_average");
        modify (set_results (set_performance_by_grade pg));;
        (* Gender performance comparison *)
        has_gender ← on_cleaned (df ← get; mret (has_column "gender" df));
        (if has_gender : bool then
           gp ← on_cleaned (groupby_mean_round1 "gender" "overall_average");
           modify (set_results (set_gender_performance gp))
         else modify (set_results (set_gender_performance ∅)));;
        st' ← get;
        mret (Some (results st'))
  end.

(** *** run_full_analysis, up to the aggregation *)

Definition run_pipeline (repr : Q → string) (file : DataFrame)
  : M Analyzer (option Results) :=
  load_data file;;
  clean_data repr;;
  transform_data;;
  analyze_data.

(** ** Specification vocabulary *)



(** The columns [transform_data] derives. *)
Definition derived_columns : list string :=
  ["overall_average"; "letter_grade"; "performance"; "best_subject"; "worst_subject"].

(** Cell [i] of a numeric column [col] of a frame. *)
Definition float_cell (df : DataFrame) (col : string) (i : nat) : option Num.cell :=
  match lookup_column col (columns df) with
  | Some (Float64 xs) => xs !! i
  | _ => None
  end.

(** Cell [i] of a column of strings [col] of a frame. *)
Definition object_cell (df : DataFrame) (col : string) (i : nat) : option (option string) :=
  match lookup_column col (columns df) with
  | Some (Object xs) => xs !! i
  | _ => None
  end.

(** Every recognized subject column of the frame is numeric. *)
Definition numeric_column (df : DataFrame) (col : string) : bool :=
  match lookup_column col (columns df) with
  | Some (Object _) => false
  | _ => true
  end.

Definition numeric_subjects (df : DataFrame) : Prop :=
  forallb (numeric_column df) grade_columns = true.

(** [df[cols]] as a pure selection. *)
Definition selection (cols : list string) (cs : list (string * Series))
  : list (string * Series) :=
  omap (λ c, (λ s, (c, s)) <$> lookup_column c cs) cols.

(** What one round of the imputation loop does to a column. *)
Definition fill_series (s : Series) : outcome Series :=
  match series_mean s with
  | Returns avg => Returns (series_fillna avg s)
  | Raises e => Raises e
  end.

(** [df[col] = f(df[col])] *)
Definition col_update (f : Series → outcome Series) (col : string) : M DataFrame unit :=
  s ← getitem col;
  s' ← lift (f s);
  setitem col s'.

(** A cleaned score: the raw score, or the column mean where it was
    missing, rounded to one decimal. *)
Definition cleaned_cell (mean c : Num.cell) : Num.cell :=
  Num.round1_cell (fillna_cell mean c).

(** The subject columns [transform_data] reads, as numeric columns. *)
Definition subject_cells (df : DataFrame) : outcome (list (string * list Num.cell)) :=
  float_columns (selection (existing_grade_columns df) (columns df)).

(** The five derived columns, from the subject columns [cs] of a frame of
    [n] rows. *)
Definition overall_average_of (cs : list (string * list Num.cell)) (n : nat)
  : list Num.cell :=
  Num.round1_cell <$> ((λ i, Num.nanmean (row_at cs i).*2) <$> seq 0 n).

Definition letter_grade_of (cs : list (string * list Num.cell)) (n : nat)
  : list (option string) :=
  (λ c, Some (get_letter_grade c)) <$> overall_average_of cs n.

Definition performance_of_cells (cs : list (string * list Num.cell)) (n : nat)
  : list (option string) :=
  (λ c, Some (get_performance_category c)) <$> overall_average_of cs n.

Definition best_subject_of (cs : list (string * list Num.cell)) (n : nat)
  : list (option string) :=
  (λ i, idx_extreme Qgt_bool (row_at cs i)) <$> seq 0 n.

Definition worst_subject_of (cs : list (string * list Num.cell)) (n : nat)
  : list (option string) :=
  (λ i, idx_extreme Qlt_bool (row_at cs i)) <$> seq 0 n.

(** The frame [transform_data] leaves when it succeeds. *)
Definition transformed (df : DataFrame) (cs : list (string * list Num.cell))
  : DataFrame :=
  let n := nrows df in
  set_column "worst_subject" (Object (worst_subject_of cs n))
    (set_column "best_subject" (Object (best_subject_of cs n))
      (set_column "performance" (Object (performance_of_cells cs n))
        (set_column "letter_grade" (Object (letter_grade_of cs n))
          (set_column "overall_average" (Float64 (overall_average_of cs n)) df)))).

(** The analyzer with [self.results] replaced. *)
Definition with_results (rs : Results) (st : Analyzer) : Analyzer :=
  mkAnalyzer (store st) (raw_data st) (cleaned_data st) rs.

(** [df'] differs from [df] at most in the contents of the columns
    [cols]. *)
Definition same_outside (cols : list string) (df df' : DataFrame) : Prop :=
  nrows df' = nrows df
  ∧ column_names df' = column_names df
  ∧ ∀ c, c ∉ cols → lookup_column c (columns df') = lookup_column c (columns df).

(** A frame ready for analysis: it has a subject column, its subject
    columns and its overall average are numeric, and it has letter
    grades. *)
Record analyzable (df : DataFrame) (oa : list Num.cell) (lg : Series) : Prop := {
  analyzable_subjects : existing_grade_columns df ≠ [];
  analyzable_numeric : ∀ s, s ∈ existing_grade_columns df →
                         ∃ xs, lookup_column s (columns df) = Some (Float64 xs);
  analyzable_average : lookup_column "overall_average" (columns df)
                       = Some (Float64 oa);
  analyzable_letters : lookup_column "letter_grade" (columns df) = Some lg
}.

(** Two results that differ at most in the subject averages. *)
Definition same_but_subjects (rs rs' : Results) : Prop :=
  basic_stats rs' = basic_stats rs
  ∧ grade_distribution rs' = grade_distribution rs
  ∧ performance_by_grade rs' = performance_by_grade rs
  ∧ gender_performance rs' = gender_performance rs.

(** *** Sample data *)

(** A float-to-string conversion for the examples, none of which has a
    numeric text column. *)
Definition const_repr : Q → string := λ _, "0.0".

(** An analyzer that has loaded [raw] as object 0. *)
Definition loaded (raw : DataFrame) : Analyzer :=
  mkAnalyzer {[0 := raw]} (Some 0) None (mkResults None None None None None).

(** Three students, one Math score missing. *)
Definition math_frame : DataFrame :=
  mkDataFrame 3
    [("student_id", Object [Some "STU001"; Some "STU002"; Some "STU003"]);
     ("name", Object [Some "  Student 1  "; Some "Student 2"; Some "Student 3"]);
     ("grade_level", Object [Some "10TH"; Some "9th"; Some "9th"]);
     ("gender", Object [Some "Male"; Some "Female"; Some "Female"]);
     ("Math", Float64 [Some 80%Q; None; Some 100%Q])].

(** Two students and no subject column. *)
Definition no_subject_frame : DataFrame :=
  mkDataFrame 2
    [("student_id", Object [Some "STU001"; Some "STU002"]);
     ("name", Object [Some "Student 1"; Some "Student 2"]);
     ("grade_level", Object [Some "9th"; Some "10th"])].

(** Two students whose Math score is missing, both. *)
Definition all_missing_frame : DataFrame :=
  mkDataFrame 2
    [("student_id", Object [Some "STU001"; Some "STU002"]);
     ("Math", Float64 [None; None]);
     ("Science", Float64 [Some 70%Q; Some 90%Q])].

(** One student with a score that has two decimals. *)
Definition two_decimals_frame : DataFrame :=
  mkDataFrame 1 [("Math", Float64 [Some (8525 # 100)])].

(** Two students, scores but no grade level. *)
Definition no_grade_level_frame : DataFrame :=
  mkDataFrame 2
    [("student_id", Object [Some "STU001"; Some "STU002"]);
     ("gender", Object [Some "Male"; Some "Female"]);
     ("Math", Float64 [Some 100%Q; Some 60%Q]);
     ("Science", Float64 [Some 100%Q; Some 60%Q])].

(** Two students, scores and grade level but no gender. *)
Definition no_gender_frame : DataFrame :=
  mkDataFrame 2
    [("student_id", Object [Some "STU001"; Some "STU002"]);
     ("grade_level", Object [Some "9th"; Some "10th"]);
     ("Math", Float64 [Some 100%Q; Some 60%Q]);
     ("Science", Float64 [Some 100%Q; Some 60%Q])].

(** The analyzer after [clean_data] and after [transform_data] on a
    sample. *)
Definition cleaned (raw : DataFrame) : Analyzer :=
  (clean_data const_repr (loaded raw)).2.

Definition transformed_state (raw : DataFrame) : Analyzer :=
  (transform_data (cleaned raw)).2.

(** ** Further vocabulary *)

(** *** Strings *)

(** The first, respectively last, character is white space. *)
Definition starts_with_space (s : string) : bool :=
  match s with
  | EmptyString => false
  | String a _ => Str.is_space a
  end.

Fixpoint ends_with_space (s : string) : bool :=
  match s with
  | EmptyString => false
  | String a EmptyString => Str.is_space a
  | String _ s' => ends_with_space s'
  end.

(** No white space at either end. *)
Definition trimmed (s : string) : Prop :=
  starts_with_space s = false ∧ ends_with_space s = false.

Definition is_upper (a : ascii) : bool :=
  let n := nat_of_ascii a in ((65 <=? n) && (n <=? 90))%nat.

(** No capital letter. *)
Fixpoint no_upper (s : string) : bool :=
  match s with
  | EmptyString => true
  | String a s' => negb (is_upper a) && no_upper s'
  end.

(** What is left of [s] after its first [k] characters. *)
Fixpoint drop_chars (k : nat) (s : string) : string :=
  match k, s with
  | O, _ => s
  | S _, EmptyString => EmptyString
  | S k', String _ s' => drop_chars k' s'
  end.

(** The noise [create_sample_data] adds (main.py lines 62 and 65):
    [lambda x: f"  {x}  "] on names, [.str.replace('th', 'TH')] on grade
    levels. *)
Definition pad_name (x : string) : string := "  " +:+ x +:+ "  ".

Definition upper_th (x : string) : string := Str.replace "th" "TH" x.

(** What steps 1 and 2 of [clean_data] make of one grade level. *)
Definition normalize_level (x : string) : string :=
  Str.replace "TH" "th" (Str.lower (Str.strip x)).

(** *** Scores *)

(** A score between 0 and 100. *)
Definition in_range (q : Q) : Prop := (0 <= q)%Q ∧ (q <= 100)%Q.

Definition cell_in_range (c : Num.cell) : Prop :=
  ∀ q, c = Some q → in_range q.

(** The score of column [col] at row [i]; NaN when there is none. *)
Definition score (df : DataFrame) (col : string) (i : nat) : Num.cell :=
  mjoin (float_cell df col i).

(** Row [i] of the subject columns that exist. *)
Definition subject_row (df : DataFrame) (i : nat) : list (string * Num.cell) :=
  (λ col, (col, score df col i)) <$> existing_grade_columns df.

(** Every score of every subject column is between 0 and 100. *)
Definition scores_in_range (df : DataFrame) : Prop :=
  ∀ col i, col ∈ grade_columns → cell_in_range (score df col i).

(** *** Text columns *)

(** The strings of [s.astype(str)]. *)
Definition astype_strings (repr : Q → string) (s : Series) : list string :=
  match s with
  | Float64 xs => from_option repr "nan" <$> xs
  | Object xs => default "nan" <$> xs
  end.

(** A text column after steps 1 and 2 of [clean_data]: the grade level is
    stripped and normalised, the other text columns are stripped. *)
Definition cleaned_text (repr : Q → string) (col : string) (s : Series) : Series :=
  Object ((λ x, Some (if decide (col = "grade_level") then normalize_level x
                      else Str.strip x)) <$> astype_strings repr s).

(** Step 1 of [clean_data] on one column, in closed form. *)
Definition stripped (repr : Q → string) (col : string) (df : DataFrame) : DataFrame :=
  match lookup_column col (columns df) with
  | Some s =>
      set_column col (Object ((λ x, Some (Str.strip x)) <$> astype_strings repr s)) df
  | None => df
  end.

(** The cells of a numeric column; none for any other column. *)
Definition cells_of (df : DataFrame) (col : string) : list Num.cell :=
  match lookup_column col (columns df) with
  | Some (Float64 xs) => xs
  | _ => []
  end.

(** All columns have as many cells as the frame has rows. *)
Definition well_formed (df : DataFrame) : Prop :=
  Forall (λ c : string * Series,
            match c.2 with
            | Float64 xs => length xs
            | Object xs => length xs
            end = nrows df) (columns df).

(** [len(s)] *)
Definition series_length (s : Series) : nat :=
  match s with
  | Float64 xs => length xs
  | Object xs => length xs
  end.

(** *** Best and worst subject *)

(** In a row of named scores, [(n, q)] is the first entry that is extreme
    for the order [leq]: the entries before it are strictly inside, the
    entries after it are not outside. *)
Definition extreme_at (leq : Q → Q → bool) (row : list (string * Num.cell))
    (n : string) (q : Q) : Prop :=
  ∃ pre post, row = (pre ++ (n, Some q) :: post)%list
    ∧ (∀ n' q', (n', Some q') ∈ pre → leq q q' = false)
    ∧ (∀ n' q', (n', Some q') ∈ post → leq q' q = true).

(** One step of the scan of [idx_extreme], for the comparison "not
    [leq]", and what the scan has found after the entries [seen]. *)
Definition extreme_pick (leq : Q → Q → bool) (acc : option (string * Q))
    (c : string * Num.cell) : option (string * Q) :=
  match c.2, acc with
  | None, _ => acc
  | Some q, None => Some (c.1, q)
  | Some q, Some (_, q0) => if negb (leq q q0) then Some (c.1, q) else acc
  end.

Definition extreme_found (leq : Q → Q → bool) (seen : list (string * Num.cell))
    (acc : option (string * Q)) : Prop :=
  match acc with
  | None => ∀ n q, (n, Some q) ∉ seen
  | Some (n, q) => extreme_at leq seen n q
  end.

(** *** Aggregates *)

(** The values of the rows whose key is [k]. *)
Definition rows_with (k : label) (kvs : list (option label * Num.cell))
  : list Num.cell :=
  omap (λ kv : option label * Num.cell,
          if decide (kv.1 = Some k) then Some kv.2 else None) kvs.

(** [df.groupby(key)[val].mean().round(1).to_dict()] for the key column
    [ks] and the numeric cells [xs]. *)
Definition groupby_map (ks : Series) (xs : list Num.cell) : gmap label Num.cell :=
  (λ g, Num.round1_cell (Num.nanmean g))
    <$> foldl group_cell ∅ (zip (series_labels ks) xs).

(** The subject averages of a frame, for the subjects [cols]. *)
Definition subject_average_of (df : DataFrame) (col : string) : Num.cell :=
  Num.round1_cell (Num.nanmean (cells_of df col)).

Definition subject_averages_of (df : DataFrame) (m : gmap string Num.cell)
    (cols : list string) : gmap string Num.cell :=
  foldl (λ m col, <[col := subject_average_of df col]> m) m cols.

(** The number of cells of a column that hold the string [g]. *)
Definition count_string (g : string) (xs : list (option string)) : nat :=
  length (filter (λ c, c = Some g) xs).

(** What [analyze_data] assigns to [self.results] and returns, for a frame
    with the overall averages [oa], the letter grades [lg] and the grade
    levels [ks]. *)
Definition analysis_of (df : DataFrame) (oa : list Num.cell) (lg ks : Series)
  : Results :=
  mkResults
    (Some (mkBasicStats (nrows df) (Num.round1_cell (Num.nanmean oa))
                        (Num.nanmax oa) (Num.nanmin oa)))
    (Some (subject_averages_of df ∅ (existing_grade_columns df)))
    (Some (value_counts lg))
    (Some (groupby_map ks oa))
    (Some (match lookup_column "gender" (columns df) with
           | Some gs => groupby_map gs oa
           | None => ∅
           end)).

(** ** The dashboard (dashboard.py, class DashboardApp) *)

Module Dashboard.

(** dashboard.py lines 57-62 and 90-95. *)
Definition get_letter_grade (score : Num.cell) : string :=
  if Num.ge score 90 then "A"
  else if Num.ge score 80 then "B"
  else if Num.ge score 70 then "C"
  else if Num.ge score 60 then "D"
  else "F".

(** dashboard.py lines 67-71 and 101-105. *)
Definition get_performance_category (score : Num.cell) : string :=
  if Num.ge score 85 then "Excellent"
  else if Num.ge score 75 then "Good"
  else if Num.ge score 65 then "Average"
  else "Needs Improvement".

(** Statements on the frame [self.data]; subscripting [None] is a
    TypeError. *)
Definition on_data {A} (m : M DataFrame A) : M (option DataFrame) A :=
  λ d, match d with
       | None => (Raises TypeError, None)
       | Some df => let r := m df in (r.1, Some r.2)
       end.

(** dashboard.py lines 46-75, on the frame [self.data]. *)
Definition process_raw_frame : M DataFrame unit :=
  df ← get;
  let existing := existing_grade_columns df in
  if bool_decide (existing ≠ []) then
    avg ← mean_axis1 existing;
    avg' ← lift (series_round1 avg);
    setitem "overall_average" avg';;
    oa ← getitem "overall_average";
    lg ← lift (series_apply get_letter_grade oa);
    setitem "letter_grade" lg;;
    oa' ← getitem "overall_average";
    pf ← lift (series_apply get_performance_category oa');
    setitem "performance" pf
  else mret tt.

Definition process_raw_data : M (option DataFrame) unit :=
  d ← get;
  match d with
  | Some _ => on_data process_raw_frame
  | None => mret tt
  end.

(** dashboard.py lines 81-86: the overall average, if it is not there. *)
Definition ensure_overall_average : M DataFrame unit :=
  df ← get;
  when (negb (has_column "overall_average" df)) (
    let existing := existing_grade_columns df in
    when (bool_decide (existing ≠ [])) (
      avg ← mean_axis1 existing;
      avg' ← lift (series_round1 avg);
      setitem "overall_average" avg')).

(** dashboard.py lines 89-97: the letter grade, if it is not there and the
    overall average is. *)
Definition ensure_letter_grade : M DataFrame unit :=
  df ← get;
  when (negb (has_column "letter_grade" df) && has_column "overall_average" df) (
    oa ← getitem "overall_average";
    lg ← lift (series_apply get_letter_grade oa);
    setitem "letter_grade" lg).

(** dashboard.py lines 100-107: the performance, likewise. *)
Definition ensure_performance : M DataFrame unit :=
  df ← get;
  when (negb (has_column "performance" df) && has_column "overall_average" df) (
    oa ← getitem "overall_average";
    pf ← lift (series_apply get_performance_category oa);
    setitem "performance" pf).

(** dashboard.py lines 80-107, on the frame [self.data]. *)
Definition ensure_processed_frame : M DataFrame unit :=
  ensure_overall_average;;
  ensure_letter_grade;;
  ensure_performance.

Definition ensure_processed_columns : M (option DataFrame) unit :=
  d ← get;
  match d with
  | Some _ => on_data ensure_processed_frame
  | None => mret tt
  end.

(** A value a select box of the sidebar returns: a string, a number, or
    NaN ([None]). *)
Definition choice : Type := option label.

(** [selected != 'All'] *)
Definition chosen (selected : choice) : bool :=
  negb (bool_decide (selected = Some (LStr "All"))).

(** [s == selected], cell by cell; NaN equals nothing. *)
Definition series_eq (s : Series) (selected : choice) : list bool :=
  match s with
  | Object xs =>
      (λ c : option string,
         match c, selected with
         | Some x, Some (LStr y) => bool_decide (x = y)
         | _, _ => false
         end) <$> xs
  | Float64 xs =>
      (λ c : Num.cell,
         match c, selected with
         | Some q, Some (LNum n d) => Qeq_bool q (Qmake n d)
         | _, _ => false
         end) <$> xs
  end.

(** The entries of [xs] at the rows where [mask] is true. *)
Fixpoint select {A} (mask : list bool) (xs : list A) : list A :=
  match mask, xs with
  | b :: mask', x :: xs' => if b then x :: select mask' xs' else select mask' xs'
  | _, _ => []
  end.

Definition select_series (mask : list bool) (s : Series) : Series :=
  match s with
  | Float64 xs => Float64 (select mask xs)
  | Object xs => Object (select mask xs)
  end.

(** [df[mask]] for a boolean mask with one entry per row. *)
Definition filter_rows (mask : list bool) (df : DataFrame) : DataFrame :=
  mkDataFrame (length (select mask (seq 0 (nrows df))))
              ((λ c : string * Series, (c.1, select_series mask c.2)) <$> columns df).

(** One filter of dashboard.py lines 181-188:
    [if selected != 'All' and col in filtered_data.columns:
       filtered_data = filtered_data[filtered_data[col] == selected]]. *)
Definition filter_step (col : string) (selected : choice) : M DataFrame unit :=
  df ← get;
  when (chosen selected && has_column col df) (
    s ← getitem col;
    modify (filter_rows (series_eq s selected))).

(** dashboard.py lines 179-193: the filters applied to a copy of
    [self.data], for the selections of the three select boxes; the state
    is the local variable [filtered_data]. *)
Definition apply_filters (selected_grade selected_letter selected_performance : choice)
  : M DataFrame unit :=
  filter_step "grade_level" selected_grade;;
  filter_step "letter_grade" selected_letter;;
  filter_step "performance" selected_performance.

End Dashboard.

(** The mask of one filter on the frame [df]: the comparison when the
    filter applies, every row otherwise. *)
Definition mask_of (col : string) (selected : Dashboard.choice) (df : DataFrame)
  : list bool :=
  match lookup_column col (columns df) with
  | Some s =>
      if Dashboard.chosen selected then Dashboard.series_eq s selected
      else repeat true (nrows df)
  | None => repeat true (nrows df)
  end.

(** The rows that pass the three filters. *)
Definition combined_mask (sg sl sp : Dashboard.choice) (df : DataFrame) : list bool :=
  zip_with andb
    (zip_with andb (mask_of "grade_level" sg df) (mask_of "letter_grade" sl df))
    (mask_of "performance" sp df).

(** The frame [process_raw_data] leaves when it derives its columns. *)
Definition processed (df : DataFrame) (cs : list (string * list Num.cell))
  : DataFrame :=
  let n := nrows df in
  set_column "performance" (Object (performance_of_cells cs n))
    (set_column "letter_grade" (Object (letter_grade_of cs n))
      (set_column "overall_average" (Float64 (overall_average_of cs n)) df)).

(** The columns the dashboard derives. *)
Definition dashboard_columns : list string :=
  ["overall_average"; "letter_grade"; "performance"].

(** [df'] is [df], or [df] with the column [col], which it did not have,
    added. *)
Definition adds_only (col : string) (df df' : DataFrame) : Prop :=
  df' = df
  ∨ (lookup_column col (columns df) = None ∧ ∃ s, df' = set_column col s df).

(** Nothing is left for [ensure_processed_columns] to do. *)
Definition settled (df : DataFrame) : Prop :=
  if has_column "overall_average" df
  then has_column "letter_grade" df = true ∧ has_column "performance" df = true
  else existing_grade_columns df = [].

(** *** More sample data *)

(** Two students without any score. *)
Definition unscored_frame : DataFrame :=
  mkDataFrame 2
    [("student_id", Object [Some "STU001"; Some "STU002"]);
     ("Math", Float64 [None; None])].

(** Two students, one without a name. *)
Definition missing_name_frame : DataFrame :=
  mkDataFrame 2
    [("name", Object [Some "Student 1"; None]);
     ("Math", Float64 [Some 80%Q; Some 70%Q])].

(** Two students with an overall average that is not the mean of their
    scores, and no letter grade. *)
Definition averaged_frame : DataFrame :=
  mkDataFrame 2
    [("student_id", Object [Some "STU001"; Some "STU002"]);
     ("Math", Float64 [Some 100%Q; Some 60%Q]);
     ("overall_average", Float64 [Some 50%Q; Some 95%Q])].

(** The data of the dashboard: three students with their derived
    columns. *)
Definition dashboard_frame : DataFrame :=
  mkDataFrame 3
    [("student_id", Object [Some "STU001"; Some "STU002"; Some "STU003"]);
     ("grade_level", Object [Some "10th"; Some "9th"; Some "9th"]);
     ("Math", Float64 [Some 80%Q; Some 90%Q; Some 100%Q]);
     ("overall_average", Float64 [Some 80%Q; Some 90%Q; Some 100%Q]);
     ("letter_grade", Object [Some "B"; Some "A"; Some "A"]);
     ("performance", Object [Some "Good"; Some "Excellent"; Some "Excellent"])].

(** [scores_in_range], computed. *)
Definition scores_in_range_b (df : DataFrame) : bool :=
  forallb (λ col,
             forallb (λ c : Num.cell,
                        match c with
                        | Some q => Qle_bool 0 q && Qle_bool q 100
                        | None => true
                        end) (cells_of df col)) grade_columns.

(** *** Computations that only read *)

(** A frame computation that leaves the frame as it is. *)
Definition reads_only {A} (m : M DataFrame A) : Prop :=
  ∀ df, (m df).2 = df.

(** An analyzer computation that changes at most [self.results], run on
    an analyzer whose cleaned data is the frame [df] at [c]. *)
Definition results_only {A} (c : loc) (df : DataFrame) (m : M Analyzer A)
  : Prop :=
  ∀ st, cleaned_data st = Some c → store st !! c = Some df →
    ∃ rs, (m st).2 = with_results rs st.

(** *** Means and tenths *)

(** [v] is a tenth nearest to [m]; at a tie either neighbour is. *)
Definition nearest_tenth (m v : Q) : Prop :=
  Num.one_decimal v ∧ (m - (1 # 20) <= v)%Q ∧ (v <= m + (1 # 20))%Q.

(** [m] is the mean of the values among [xs] that are not NaN. *)
Definition mean_of (xs : list Num.cell) (m : Q) : Prop :=
  Num.present xs ≠ []
  ∧ (m * inject_Z (Z.of_nat (length (Num.present xs)))
     == Num.Qsum (Num.present xs))%Q.

(** [a] is the mean of the values among [xs] rounded to one decimal, NaN
    when there is no value. *)
Definition rounded_mean (xs : list Num.cell) (a : Num.cell) : Prop :=
  match a with
  | Some v => ∃ m, mean_of xs m ∧ nearest_tenth m v
  | None => Num.present xs = []
  end.

(** A score as a grade book holds it: between 0 and 100, with at most
    four decimals. *)
Definition decimal_score (q : Q) : bool :=
  Qle_bool 0 q && Qle_bool q 100
  && (Z.rem (Qnum q * 10000) (Z.pos (Qden q)) =? 0)%Z.

(** The frames on which the exact arithmetic of the model stands for the
    binary64 arithmetic of numpy: at most 10000 rows, and such scores in
    the subject columns. *)
Definition gradebook (df : DataFrame) : Prop :=
  (Z.of_nat (nrows df) <= 10000)%Z
  ∧ ∀ col i q, col ∈ grade_columns → score df col i = Some q →
      decimal_score q = true.

(** [gradebook], computed. *)
Definition gradebook_b (df : DataFrame) : bool :=
  (Z.of_nat (nrows df) <=? 10000)%Z
  && forallb (λ col,
                forallb (λ c : Num.cell,
                           match c with
                           | Some q => decimal_score q
                           | None => true
                           end) (cells_of df col)) grade_columns.

(** Every subject column of the frame holds a score, at one of the rows
    of the frame. *)
Definition scored (df : DataFrame) : Prop :=
  ∀ col, col ∈ existing_grade_columns df →
    ∃ i q, (i < nrows df)%nat ∧ score df col i = Some q.

(** The grade distribution that the analysis of [st] leaves in
    [self.results] counts every record of the frame at [c] once, and the
    results the analysis returns, if it returns, carry that distribution
    and that total. *)
Definition counts_every_record (st : Analyzer) (c : loc) : Prop :=
  ∃ gd, grade_distribution (results (analyze_data st).2) = Some gd
    ∧ sum_counts gd = nrows (store st !!! c)
    ∧ ∀ rs, (analyze_data st).1 = Returns (Some rs) →
        grade_distribution rs = Some gd
        ∧ total_students <$> basic_stats rs = Some (sum_counts gd).

(** [scored], computed. *)
Definition scored_b (df : DataFrame) : bool :=
  forallb (λ col,
             existsb (λ c : Num.cell, bool_decide (is_Some c))
                     (take (nrows df) (cells_of df col)))
          (existing_grade_columns df).

(** *** ASCII strings *)

Fixpoint ascii_only (s : string) : bool :=
  match s with
  | EmptyString => true
  | String a s' => (nat_of_ascii a <? 128)%nat && ascii_only s'
  end.

(** ** Columns of a frame *)

Section Columns.
Implicit Types (col : string) (s : Series) (cs : list (string * Series)).

Lemma lookup_assign_eq col s cs :
  lookup_column col (assign_column col s cs) = Some s.
Proof.
  induction cs as [|[name s0] cs IH]; simpl.
  - by rewrite decide_True.
  - destruct (decide (name = col)) as [->|Hne]; simpl.
    + by rewrite decide_True.
    + by rewrite decide_False.
Qed.

Lemma lookup_assign_ne col col' s cs :
  col ≠ col' →
  lookup_column col' (assign_column col s cs) = lookup_column col' cs.
Proof.
  intros Hne. induction cs as [|[name s0] cs IH]; simpl.
  - by rewrite decide_False.
  - destruct (decide (name = col)) as [->|Hn]; simpl.
    + by rewrite !decide_False.
    + destruct (decide (name = col')); auto.
Qed.

Lemma assign_same col s cs :
  lookup_column col cs = Some s → assign_column col s cs = cs.
Proof.
  induction cs as [|[name s0] cs IH]; simpl; [done|].
  destruct (decide (name = col)) as [->|Hn].
  - by intros [= ->].
  - intros H. by rewrite IH.
Qed.

Lemma lookup_column_is_Some col cs :
  is_Some (lookup_column col cs) ↔ col ∈ cs.*1.
Proof.
  induction cs as [|[name s0] cs IH]; simpl.
  - split; [intros [? [=]] | by intros ?%elem_of_nil].
  - destruct (decide (name = col)) as [->|Hn].
    + split; [intros _; apply elem_of_cons; by left | eauto].
    + rewrite IH, elem_of_cons. intuition congruence.
Qed.

Lemma assign_names_elem col col' s cs :
  col' ∈ (assign_column col s cs).*1 ↔ col' = col ∨ col' ∈ cs.*1.
Proof.
  rewrite <- !lookup_column_is_Some.
  destruct (decide (col = col')) as [->|Hne].
  - rewrite lookup_assign_eq. intuition eauto.
  - rewrite lookup_assign_ne by done. intuition congruence.
Qed.

Lemma assign_names_present col s cs :
  col ∈ cs.*1 → (assign_column col s cs).*1 = cs.*1.
Proof.
  induction cs as [|[name s0] cs IH]; simpl.
  - by intros ?%elem_of_nil.
  - destruct (decide (name = col)) as [->|Hn]; simpl; [done|].
    intros [?|?]%elem_of_cons; [congruence|]. f_equal. by apply IH.
Qed.

Lemma has_column_true col df :
  has_column col df = true ↔ is_Some (lookup_column col (columns df)).
Proof.
  unfold has_column, column_names.
  rewrite bool_decide_eq_true. symmetry. apply lookup_column_is_Some.
Qed.

Lemma has_column_false col df :
  has_column col df = false ↔ lookup_column col (columns df) = None.
Proof.
  rewrite <- not_true_iff_false, has_column_true, eq_None_not_Some. done.
Qed.

Lemma has_column_set col col' s df :
  has_column col' (set_column col s df)
  = bool_decide (col' = col) || has_column col' df.
Proof.
  apply eq_true_iff_eq.
  rewrite orb_true_iff, bool_decide_eq_true.
  unfold has_column, column_names, set_column; simpl.
  rewrite !bool_decide_eq_true. apply assign_names_elem.
Qed.

Lemma selection_ext cols cs cs' :
  (∀ c, c ∈ cols → lookup_column c cs = lookup_column c cs') →
  selection cols cs = selection cols cs'.
Proof.
  unfold selection. induction cols as [|c cols IH]; simpl; [done|].
  intros H.
  assert (IH' := IH (λ c' Hc', H c' (list_elem_of_further _ _ _ Hc'))).
  rewrite (H c) by left.
  destruct (lookup_column c cs'); simpl; [f_equal|]; exact IH'.
Qed.

End Columns.

(** ** Running frame computations *)

Ltac unfold_m :=
  unfold mbind, M_bind, mret, M_ret, lift, get, modify, raise, when,
    setitem, getitem.

Section Monad.
Context {S A B : Type}.
Implicit Types (m : M S A) (k : A → M S B).

Lemma bind_returns m k s a s' :
  m s = (Returns a, s') → (m ≫= k) s = k a s'.
Proof. intros H. unfold mbind, M_bind. by rewrite H. Qed.

Lemma bind_raises m k s e s' :
  m s = (Raises e, s') → (m ≫= k) s = (Raises e, s').
Proof. intros H. unfold mbind, M_bind. by rewrite H. Qed.

End Monad.

(** One step of a computation whose first statement returns by
    computation. *)
Ltac step := erewrite bind_returns by reflexivity; cbv beta.

Section FrameSteps.
Implicit Types (col : string) (s : Series) (df : DataFrame).

Lemma col_update_returns f col s t df :
  lookup_column col (columns df) = Some s → f s = Returns t →
  col_update f col df = (Returns tt, set_column col t df).
Proof. intros Hs Ht. unfold col_update. unfold_m. by rewrite Hs, Ht. Qed.

Lemma getitem_Some col s df :
  lookup_column col (columns df) = Some s → getitem col df = (Returns s, df).
Proof. intros H. unfold getitem. by rewrite H. Qed.

Lemma getitem_None col df :
  lookup_column col (columns df) = None →
  getitem col df = (Raises (KeyError col), df).
Proof. intros H. unfold getitem. by rewrite H. Qed.

Lemma getitems_selection cols df :
  (∀ c, c ∈ cols → is_Some (lookup_column c (columns df))) →
  getitems cols df = (Returns (selection cols (columns df)), df).
Proof.
  induction cols as [|c cols IH]; intros H; [done|].
  destruct (H c) as [s Hs]; [by left|].
  cbn [getitems]. unfold_m.
  rewrite Hs, IH by (intros; apply H; by right).
  unfold selection; simpl. by rewrite Hs.
Qed.

Lemma elem_of_existing col df :
  col ∈ existing_grade_columns df
  ↔ col ∈ grade_columns ∧ is_Some (lookup_column col (columns df)).
Proof.
  unfold existing_grade_columns.
  rewrite list_elem_of_In, filter_In, <- list_elem_of_In, has_column_true.
  done.
Qed.

Lemma existing_NoDup df : NoDup (existing_grade_columns df).
Proof.
  unfold existing_grade_columns.
  apply NoDup_ListNoDup, List.NoDup_filter, NoDup_ListNoDup.
  apply (bool_decide_unpack _). by vm_compute.
Qed.

Lemma existing_ext df df' :
  (∀ c, c ∈ grade_columns → has_column c df = has_column c df') →
  existing_grade_columns df = existing_grade_columns df'.
Proof.
  intros H. unfold existing_grade_columns.
  apply filter_ext_in. intros c Hc. apply H. by apply list_elem_of_In.
Qed.

Lemma existing_selected df c :
  c ∈ existing_grade_columns df → is_Some (lookup_column c (columns df)).
Proof. by intros [_ ?]%elem_of_existing. Qed.

Lemma fill_column_update col df :
  fill_column col df = col_update fill_series col df.
Proof.
  unfold fill_column, col_update, fill_series. unfold_m.
  destruct (lookup_column col (columns df)) as [s|] eqn:E; [|done].
  destruct (series_mean s); [|done]. by rewrite E.
Qed.

(** A loop [for col in cols: df[col] = f(df[col])] over distinct columns
    that exist and on which [f] returns: each listed column is replaced
    by its image, computed from the column as it was before the loop,
    and nothing else changes. *)
Lemma for_col_update (f : Series → outcome Series) cols df :
  NoDup cols →
  (∀ c, c ∈ cols →
     ∃ s t, lookup_column c (columns df) = Some s ∧ f s = Returns t) →
  ∃ df', for_ cols (col_update f) df = (Returns tt, df')
    ∧ nrows df' = nrows df
    ∧ column_names df' = column_names df
    ∧ (∀ c, c ∉ cols →
         lookup_column c (columns df') = lookup_column c (columns df))
    ∧ (∀ c s, c ∈ cols → lookup_column c (columns df) = Some s →
         ∃ t, f s = Returns t ∧ lookup_column c (columns df') = Some t).
Proof.
  intros Hnd. revert df.
  induction Hnd as [|c cols Hc Hnd IH]; intros df H.
  - exists df. repeat split; try done. intros c s Hc. by apply elem_of_nil in Hc.
  - destruct (H c) as (s & t & Hs & Ht); [by left|].
    set (df1 := set_column c t df).
    destruct (IH df1) as (df' & Hrun & Hn & Hnames & Hout & Hin).
    { intros c' Hc'. destruct (H c') as (s' & t' & Hs' & Ht'); [by right|].
      exists s', t'. split; [|done].
      unfold df1; simpl. rewrite lookup_assign_ne; [done|].
      intros ->. contradiction. }
    exists df'. split; [|split; [|split; [|split]]].
    + cbn [for_].
      by rewrite (bind_returns _ _ _ _ _ (col_update_returns f c s t df Hs Ht)).
    + by rewrite Hn.
    + rewrite Hnames. unfold column_names, df1; simpl.
      apply assign_names_present, lookup_column_is_Some. eauto.
    + intros c' [Hne Hc']%not_elem_of_cons.
      rewrite Hout by done. unfold df1; simpl.
      by rewrite lookup_assign_ne.
    + intros c' s' [->|Hc']%elem_of_cons Hs'.
      * exists t. split; [congruence|].
        rewrite Hout by done. unfold df1; simpl. apply lookup_assign_eq.
      * apply Hin; [done|]. unfold df1; simpl.
        rewrite lookup_assign_ne; [done|]. intros ->. contradiction.
Qed.

End FrameSteps.

(** ** The cleaning steps on a frame *)

Section Cleaning.
Variable repr : Q → string.
Implicit Types (col : string) (s : Series) (df : DataFrame).

Lemma same_outside_refl cols df : same_outside cols df df.
Proof. by repeat split. Qed.

Lemma same_outside_trans cols df1 df2 df3 :
  same_outside cols df1 df2 → same_outside cols df2 df3 →
  same_outside cols df1 df3.
Proof.
  intros (Hn & Hc & Hl) (Hn' & Hc' & Hl'). repeat split; try congruence.
  intros c Hc0. by rewrite Hl', Hl.
Qed.

Lemma same_outside_set cols col s df :
  col ∈ cols → is_Some (lookup_column col (columns df)) →
  same_outside cols df (set_column col s df).
Proof.
  intros Hin Hs. repeat split.
  - unfold column_names; simpl.
    by apply assign_names_present, lookup_column_is_Some.
  - intros c Hc. simpl. apply lookup_assign_ne. intros ->. contradiction.
Qed.

Lemma same_outside_has cols col df df' :
  same_outside cols df df' → has_column col df' = has_column col df.
Proof. intros (_ & Hc & _). unfold has_column. by rewrite Hc. Qed.

Lemma same_outside_is_Some cols col df df' :
  same_outside cols df df' →
  is_Some (lookup_column col (columns df'))
  ↔ is_Some (lookup_column col (columns df)).
Proof.
  intros H. rewrite <- !has_column_true.
  by rewrite (same_outside_has _ _ _ _ H).
Qed.

Lemma for_ext {S A} (l : list A) (body body' : A → M S unit) (st : S) :
  (∀ x st', body x st' = body' x st') → for_ l body st = for_ l body' st.
Proof.
  intros H. revert st. induction l as [|x l IH]; intros st; [done|].
  cbn [for_]. unfold mbind, M_bind. rewrite H.
  destruct (body' x st) as [[[]|e] st']; [apply IH|done].
Qed.

(** Step 1 on one column: it always returns, and leaves a column of
    strings where the column exists. *)
Lemma strip_column_spec col df :
  col ∈ text_columns →
  ∃ df', strip_column repr col df = (Returns tt, df')
    ∧ same_outside [col] df df'
    ∧ (is_Some (lookup_column col (columns df)) →
       ∃ xs, lookup_column col (columns df') = Some (Object xs)).
Proof.
  intros Hin. unfold strip_column. unfold_m.
  destruct (has_column col df) eqn:Hhas.
  - apply has_column_true in Hhas as Hs. destruct Hs as [s Hs]. rewrite Hs.
    destruct s as [xs|xs]; simpl;
      (eexists; split; [reflexivity|]; split;
       [apply same_outside_set; [by left|by eexists]
       | intros _; eexists; simpl; apply lookup_assign_eq]).
  - exists df. split; [done|]. split; [apply same_outside_refl|].
    apply has_column_false in Hhas. rewrite Hhas. by intros [? [=]].
Qed.

Lemma same_outside_weaken cols cols' df df' :
  cols ⊆ cols' → same_outside cols df df' → same_outside cols' df df'.
Proof.
  intros Hsub (Hn & Hc & Hl). repeat split; try done.
  intros c Hc'. apply Hl. intros ?. apply Hc'. by apply Hsub.
Qed.

(** Steps 1 and 2 always return and touch the text columns only. *)
Lemma text_steps_spec df :
  ∃ df', (for_ text_columns (strip_column repr);; standardize_grade_level) df
         = (Returns tt, df')
    ∧ same_outside text_columns df df'.
Proof.
  destruct (strip_column_spec "name" df) as (df1 & R1 & S1 & _);
    [set_solver|].
  destruct (strip_column_spec "grade_level" df1) as (df2 & R2 & S2 & O2);
    [set_solver|].
  destruct (strip_column_spec "gender" df2) as (df3 & R3 & S3 & _);
    [set_solver|].
  assert (S13 : same_outside text_columns df df3).
  { eapply same_outside_trans; [|eapply same_outside_trans].
    - eapply same_outside_weaken; [|exact S1]. set_solver.
    - eapply same_outside_weaken; [|exact S2]. set_solver.
    - eapply same_outside_weaken; [|exact S3]. set_solver. }
  assert (Hloop : for_ text_columns (strip_column repr) df = (Returns tt, df3)).
  { unfold text_columns. cbn [for_].
    rewrite (bind_returns _ _ _ _ _ R1), (bind_returns _ _ _ _ _ R2),
      (bind_returns _ _ _ _ _ R3). done. }
  rewrite (bind_returns _ _ _ _ _ Hloop).
  unfold standardize_grade_level. unfold_m.
  destruct (has_column "grade_level" df3) eqn:Hhas.
  - apply has_column_true in Hhas.
    assert (H2 : is_Some (lookup_column "grade_level" (columns df2))).
    { by apply (same_outside_is_Some _ _ _ _ S3). }
    assert (H1 : is_Some (lookup_column "grade_level" (columns df1))).
    { by apply (same_outside_is_Some _ _ _ _ S2). }
    destruct (O2 H1) as [xs Hxs].
    destruct S3 as (_ & _ & L3). rewrite L3, Hxs by set_solver. simpl.
    eexists; split; [reflexivity|].
    eapply same_outside_trans; [exact S13|].
    apply same_outside_set; [set_solver|done].
  - exists df3. split; [done|exact S13].
Qed.

Lemma numeric_subjects_Float64 df c s :
  numeric_subjects df → c ∈ grade_columns →
  lookup_column c (columns df) = Some s → ∃ xs, s = Float64 xs.
Proof.
  intros Hnum Hc Hs. destruct s as [xs|xs]; [by exists xs|].
  unfold numeric_subjects in Hnum. rewrite forallb_forall in Hnum.
  apply list_elem_of_In, Hnum in Hc. unfold numeric_column in Hc.
  by rewrite Hs in Hc.
Qed.

Lemma count_null_columns_returns cols df :
  (∀ c, c ∈ cols → is_Some (lookup_column c (columns df))) →
  ∃ n, count_null_columns cols df = (Returns n, df).
Proof.
  intros H. unfold count_null_columns.
  rewrite (bind_returns _ _ _ _ _ (getitems_selection cols df H)).
  by eexists.
Qed.

(** Steps 3 and 4 on a frame whose subject columns are numeric: each
    subject column takes, cell by cell, the raw value or else the mean of
    the column as it was, rounded. *)
Lemma impute_and_round_spec df :
  numeric_subjects df →
  ∃ df', impute_and_round df = (Returns tt, df')
    ∧ same_outside grade_columns df df'
    ∧ (∀ c xs, c ∈ grade_columns →
         lookup_column c (columns df) = Some (Float64 xs) →
         lookup_column c (columns df')
         = Some (Float64 (cleaned_cell (Num.nanmean xs) <$> xs))).
Proof.
  intros Hnum. unfold impute_and_round.
  rewrite (bind_returns get _ df df df eq_refl).
  set (existing := existing_grade_columns df).
  assert (Hex : ∀ c, c ∈ existing ↔
            c ∈ grade_columns ∧ is_Some (lookup_column c (columns df)))
    by (intros c; apply elem_of_existing).
  unfold when. case_bool_decide as Hne.
  2:{ exists df. split; [done|]. split; [apply same_outside_refl|].
      intros c xs Hc Hs.
      assert (c ∈ existing) as Hin by (apply Hex; eauto).
      rewrite Hne in Hin. by apply elem_of_nil in Hin. }
  destruct (count_null_columns_returns existing df) as [n0 Hn0].
  { intros c Hc. by apply Hex. }
  rewrite (bind_returns _ _ _ _ _ Hn0).
  destruct (for_col_update fill_series existing df)
    as (df1 & R1 & N1 & C1 & O1 & I1).
  { apply existing_NoDup. }
  { intros c [Hc [s Hs]]%Hex.
    destruct (numeric_subjects_Float64 df c s Hnum Hc Hs) as [xs ->].
    by eexists _, _. }
  rewrite <- (for_ext _ _ _ df fill_column_update) in R1.
  cbv beta. rewrite (bind_returns _ _ _ _ _ R1).
  assert (H1 : ∀ c, c ∈ existing → is_Some (lookup_column c (columns df1))).
  { intros c Hc. apply lookup_column_is_Some.
    fold (column_names df1). rewrite C1. apply lookup_column_is_Some.
    by apply Hex. }
  destruct (count_null_columns_returns existing df1 H1) as [n1 Hn1].
  rewrite (bind_returns _ _ _ _ _ Hn1).
  destruct (for_col_update series_round1 existing df1)
    as (df2 & R2 & N2 & C2 & O2 & I2).
  { apply existing_NoDup. }
  { intros c Hc. destruct (proj1 (Hex c) Hc) as [Hg [s Hs]].
    destruct (numeric_subjects_Float64 df c s Hnum Hg Hs) as [xs ->].
    destruct (I1 c _ Hc Hs) as (t & [= <-] & Ht).
    by eexists _, _. }
  exists df2. split; [exact R2|]. split.
  - repeat split; try congruence.
    intros c Hc. rewrite O2, O1; [done| |];
      intros [? _]%Hex; contradiction.
  - intros c xs Hg Hs.
    assert (Hc : c ∈ existing) by (apply Hex; eauto).
    destruct (I1 c _ Hc Hs) as (t & [= <-] & Ht).
    destruct (I2 c _ Hc Ht) as (t' & [= <-] & Ht').
    rewrite Ht'. do 2 f_equal. by rewrite <- list_fmap_compose.
Qed.

Lemma numeric_subjects_same_outside df df' :
  same_outside text_columns df df' →
  numeric_subjects df → numeric_subjects df'.
Proof.
  intros (_ & _ & Hl). unfold numeric_subjects.
  rewrite !forallb_forall. intros Hnum col Hc.
  unfold numeric_column. rewrite Hl; [by apply Hnum|].
  apply list_elem_of_In in Hc. revert Hc.
  unfold grade_columns, text_columns. set_solver.
Qed.

(** [clean_frame] on a frame whose subject columns are numeric. *)
Lemma clean_frame_spec df :
  numeric_subjects df →
  ∃ df', clean_frame repr df = (Returns tt, df')
    ∧ nrows df' = nrows df
    ∧ column_names df' = column_names df
    ∧ (∀ c xs, c ∈ grade_columns →
         lookup_column c (columns df) = Some (Float64 xs) →
         lookup_column c (columns df')
         = Some (Float64 (cleaned_cell (Num.nanmean xs) <$> xs)))
    ∧ (∀ c, c ∉ grade_columns → c ∉ text_columns →
         lookup_column c (columns df') = lookup_column c (columns df)).
Proof.
  intros Hnum.
  destruct (text_steps_spec df) as (df1 & R1 & S1).
  destruct (impute_and_round_spec df1) as (df2 & R2 & S2 & F2).
  { by eapply numeric_subjects_same_outside. }
  exists df2. split.
  { unfold clean_frame.
    change (for_ text_columns (strip_column repr);;
            standardize_grade_level;; impute_and_round)
      with (for_ text_columns (strip_column repr) ≫= λ _,
            standardize_grade_level ≫= λ _, impute_and_round).
    unfold mbind at 1, M_bind at 1.
    revert R1. unfold mbind at 1, M_bind at 1.
    destruct (for_ text_columns (strip_column repr) df) as [[[]|e] d0];
      [|done].
    intros R1. by rewrite (bind_returns _ _ _ _ _ R1). }
  destruct S1 as (N1 & C1 & L1), S2 as (N2 & C2 & L2).
  repeat split; try congruence.
  - intros c xs Hg Hs. apply F2; [done|]. rewrite L1; [done|].
    revert Hg. unfold grade_columns, text_columns. set_solver.
  - intros c Hg Ht. by rewrite L2, L1.
Qed.

End Cleaning.

(** ** The transformation on a frame *)

Section Transforming.
Implicit Types (col : string) (s : Series) (df : DataFrame).

Lemma grade_not_derived c : c ∈ grade_columns → c ∉ derived_columns.
Proof. unfold grade_columns, derived_columns. set_solver. Qed.

Lemma lookup_set_column_ne col col' s df :
  col ≠ col' →
  lookup_column col' (columns (set_column col s df))
  = lookup_column col' (columns df).
Proof. intros. simpl. by apply lookup_assign_ne. Qed.

Lemma lookup_set_column_eq col s df :
  lookup_column col (columns (set_column col s df)) = Some s.
Proof. simpl. apply lookup_assign_eq. Qed.

(** Assigning a derived column changes no subject column. *)
Lemma subject_lookup_set col s df c :
  col ∈ derived_columns → c ∈ grade_columns →
  lookup_column c (columns (set_column col s df))
  = lookup_column c (columns df).
Proof.
  intros Hd Hg. apply lookup_set_column_ne. intros ->.
  by apply (grade_not_derived c).
Qed.

Lemma existing_subseteq df : existing_grade_columns df ⊆ grade_columns.
Proof. intros c Hc. by apply elem_of_existing in Hc as [? _]. Qed.

Lemma getitems_existing df df' :
  (∀ c, c ∈ grade_columns →
     lookup_column c (columns df') = lookup_column c (columns df)) →
  getitems (existing_grade_columns df) df'
  = (Returns (selection (existing_grade_columns df) (columns df)), df').
Proof.
  intros H. rewrite getitems_selection.
  - f_equal. f_equal. apply selection_ext. intros c Hc.
    apply H. by apply existing_subseteq in Hc.
  - intros c Hc. apply elem_of_existing in Hc as [Hg Hs]. by rewrite H.
Qed.

Lemma mean_axis1_existing df cs :
  subject_cells df = Returns cs →
  mean_axis1 (existing_grade_columns df) df
  = (Returns (Float64 ((λ i, Num.nanmean (row_at cs i).*2) <$> seq 0 (nrows df))),
     df).
Proof.
  intros Hcs. unfold mean_axis1.
  rewrite (bind_returns _ _ _ _ _ (getitems_existing df df (λ _ _, eq_refl))).
  unfold subject_cells in Hcs. unfold_m. by rewrite Hcs.
Qed.

Lemma idx_axis1_existing beats df df' cs :
  subject_cells df = Returns cs →
  nrows df' = nrows df →
  (∀ c, c ∈ grade_columns →
     lookup_column c (columns df') = lookup_column c (columns df)) →
  idx_axis1 beats (existing_grade_columns df) df'
  = (Returns (Object ((λ i, idx_extreme beats (row_at cs i)) <$> seq 0 (nrows df))),
     df').
Proof.
  intros Hcs Hn Hl. unfold idx_axis1.
  rewrite (bind_returns _ _ _ _ _ (getitems_existing df df' Hl)).
  unfold subject_cells in Hcs. unfold_m. by rewrite Hcs, Hn.
Qed.

Lemma transform_frame_empty df :
  existing_grade_columns df = [] → transform_frame df = (Returns false, df).
Proof.
  intros H. unfold transform_frame.
  rewrite (bind_returns get _ df df df eq_refl). rewrite H. done.
Qed.

Lemma transform_frame_raises df e :
  existing_grade_columns df ≠ [] → subject_cells df = Raises e →
  transform_frame df = (Raises e, df).
Proof.
  intros Hne Hcs. unfold transform_frame.
  rewrite (bind_returns get _ df df df eq_refl). cbv zeta.
  rewrite bool_decide_eq_true_2 by done.
  apply bind_raises. unfold mean_axis1.
  rewrite (bind_returns _ _ _ _ _ (getitems_existing df df (λ _ _, eq_refl))).
  unfold subject_cells in Hcs. unfold_m. by rewrite Hcs.
Qed.

Lemma transform_frame_returns df cs :
  existing_grade_columns df ≠ [] → subject_cells df = Returns cs →
  transform_frame df = (Returns true, transformed df cs).
Proof.
  intros Hne Hcs. unfold transform_frame.
  rewrite (bind_returns get _ df df df eq_refl). cbv zeta.
  rewrite bool_decide_eq_true_2 by done.
  rewrite (bind_returns _ _ _ _ _ (mean_axis1_existing df cs Hcs)).
  unfold series_round1 at 1.
  set (df1 := set_column "overall_average" (Float64 (overall_average_of cs (nrows df))) df).
  set (df2 := set_column "letter_grade" (Object (letter_grade_of cs (nrows df))) df1).
  set (df3 := set_column "performance" (Object (performance_of_cells cs (nrows df))) df2).
  assert (L1 : ∀ c, c ∈ grade_columns →
            lookup_column c (columns df1) = lookup_column c (columns df)).
  { intros c Hc. apply subject_lookup_set; [|done].
    unfold derived_columns. set_solver. }
  assert (L3 : ∀ c, c ∈ grade_columns →
            lookup_column c (columns df3) = lookup_column c (columns df)).
  { intros c Hc. unfold df3, df2.
    rewrite !subject_lookup_set; [by apply L1|..]; try done;
      unfold derived_columns; set_solver. }
  assert (L4 : ∀ b c, c ∈ grade_columns →
            lookup_column c (columns (set_column "best_subject" b df3))
            = lookup_column c (columns df)).
  { intros b c Hc. rewrite subject_lookup_set; [by apply L3| |done].
    unfold derived_columns. set_solver. }
  cbv beta.
  step.
  step.
  change (set_column "overall_average" _ df) with df1.
  erewrite bind_returns by (apply getitem_Some, lookup_set_column_eq).
  cbv beta.
  step.
  step.
  change (set_column "letter_grade" _ df1) with df2.
  erewrite bind_returns
    by (apply getitem_Some; unfold df2;
        rewrite lookup_set_column_ne by done; apply lookup_set_column_eq).
  cbv beta.
  step.
  step.
  change (set_column "performance" _ df2) with df3.
  unfold when, idxmax_axis1, idxmin_axis1.
  erewrite bind_returns; [reflexivity|].
  rewrite (bind_returns _ _ _ _ _
             (idx_axis1_existing Qgt_bool df df3 cs Hcs eq_refl L3)).
  cbv beta. step.
  erewrite bind_returns
    by (apply (idx_axis1_existing Qlt_bool df _ cs Hcs); [done|apply L4]).
  reflexivity.
Qed.

End Transforming.

(** ** The methods on the analyzer *)

Section Methods.
Implicit Types (st : Analyzer) (df : DataFrame) (c r : loc).

Lemma analyzer_eta st :
  mkAnalyzer (store st) (raw_data st) (cleaned_data st) (results st) = st.
Proof. by destruct st. Qed.

Lemma fresh_store_None st : store st !! fresh (dom (store st)) = None.
Proof. apply not_elem_of_dom, is_fresh. Qed.

(** A statement that only reads the cleaned frame leaves the analyzer
    as it was. *)
Lemma on_cleaned_read {A} (m : M DataFrame A) st c df o :
  cleaned_data st = Some c → store st !! c = Some df → m df = (o, df) →
  on_cleaned m st = (o, st).
Proof.
  intros Hc Hdf Hm. unfold on_cleaned. rewrite Hc.
  rewrite (lookup_total_correct _ _ _ Hdf), Hm. simpl.
  unfold set_store. rewrite (insert_id _ _ _ Hdf). by rewrite analyzer_eta.
Qed.

(** [clean_data] with no raw data: nothing happens. *)
Lemma clean_data_idle repr st :
  raw_data st = None → clean_data repr st = (Returns None, st).
Proof.
  intros H. unfold clean_data.
  rewrite (bind_returns get _ st st st eq_refl). by rewrite H.
Qed.

(** [clean_data] on raw data: the raw frame is copied into a new object
    and the cleaning steps run on that copy. *)
Lemma clean_data_run repr st r raw :
  raw_data st = Some r → store st !! r = Some raw →
  let c := fresh (dom (store st)) in
  let res := clean_frame repr raw in
  clean_data repr st
  = (match res.1 with
     | Returns _ => Returns (Some c)
     | Raises e => Raises e
     end,
     mkAnalyzer (<[c := res.2]> (store st)) (Some r) (Some c) (results st)).
Proof.
  intros Hr Hraw c res. unfold clean_data.
  rewrite (bind_returns get _ st st st eq_refl). rewrite Hr.
  step.
  unfold on_cleaned, mbind, M_bind, get, mret, M_ret. simpl.
  rewrite lookup_total_insert_eq, (lookup_total_correct _ _ _ Hraw).
  fold c. fold res. rewrite insert_insert_eq, Hr.
  by destruct res as [[[]|e] df'].
Qed.

(** [transform_data] with no cleaned data: nothing happens. *)
Lemma transform_data_idle st :
  cleaned_data st = None → transform_data st = (Returns None, st).
Proof.
  intros H. unfold transform_data.
  rewrite (bind_returns get _ st st st eq_refl). by rewrite H.
Qed.

(** [transform_data] runs on the object [self.cleaned_data] refers to,
    and returns that same reference. *)
Lemma transform_data_run st c :
  cleaned_data st = Some c →
  let res := transform_frame (store st !!! c) in
  transform_data st
  = (match res.1 with
     | Returns true => Returns (Some c)
     | Returns false => Returns None
     | Raises e => Raises e
     end,
     set_store (<[c := res.2]> (store st)) st).
Proof.
  intros Hc res. unfold transform_data.
  rewrite (bind_returns get _ st st st eq_refl). rewrite Hc.
  unfold on_cleaned, mbind, M_bind, get, mret, M_ret. rewrite Hc.
  fold res. destruct res as [[[]|e] df']; simpl; by rewrite ?Hc.
Qed.

(** The three ways [transform_data] ends on a cleaned frame [df]. *)
Lemma transform_data_returns st c df cs :
  cleaned_data st = Some c → store st !! c = Some df →
  existing_grade_columns df ≠ [] → subject_cells df = Returns cs →
  transform_data st
  = (Returns (Some c), set_store (<[c := transformed df cs]> (store st)) st).
Proof.
  intros Hc Hdf Hne Hcs. rewrite (transform_data_run st c Hc).
  rewrite (lookup_total_correct _ _ _ Hdf).
  by rewrite (transform_frame_returns df cs Hne Hcs).
Qed.

Lemma transform_data_no_subjects st c df :
  cleaned_data st = Some c → store st !! c = Some df →
  existing_grade_columns df = [] →
  transform_data st = (Returns None, st).
Proof.
  intros Hc Hdf He. rewrite (transform_data_run st c Hc).
  rewrite (lookup_total_correct _ _ _ Hdf).
  rewrite (transform_frame_empty df He). simpl.
  unfold set_store. rewrite (insert_id _ _ _ Hdf). by rewrite analyzer_eta.
Qed.

(** When [transform_data] returns a reference, it is the one held in
    [self.cleaned_data], and the object behind it is the transformed
    frame. *)
Lemma transform_data_inv st c st' :
  transform_data st = (Returns (Some c), st') →
  cleaned_data st = Some c
  ∧ existing_grade_columns (store st !!! c) ≠ []
  ∧ ∃ cs, subject_cells (store st !!! c) = Returns cs
      ∧ st' = set_store (<[c := transformed (store st !!! c) cs]> (store st)) st.
Proof.
  destruct (cleaned_data st) as [c0|] eqn:Hc.
  2:{ rewrite transform_data_idle by done. by intros [=]. }
  rewrite (transform_data_run st c0 Hc).
  set (df := store st !!! c0).
  destruct (decide (existing_grade_columns df = [])) as [He|Hne].
  { rewrite (transform_frame_empty df He). by intros [=]. }
  destruct (subject_cells df) as [cs|e] eqn:Hcs.
  - rewrite (transform_frame_returns df cs Hne Hcs). simpl.
    intros [= <- <-]. repeat split; try done. by exists cs.
  - rewrite (transform_frame_raises df e Hne Hcs). by intros [=].
Qed.

End Methods.

(** ** Facts about numbers *)

Section Numbers.

Lemma rint_integer (z : Z) : Num.rint (Qmake (z * 10) 10) = z.
Proof.
  unfold Num.rint.
  assert (Hf : Qfloor (Qmake (z * 10) 10) = z).
  { unfold Qfloor. apply Z.div_mul. done. }
  rewrite Hf.
  assert (Hc : Qcompare (Qmake (z * 10) 10 - inject_Z z) (1 # 2) = Lt).
  { unfold Qcompare, Qminus, Qplus, Qopp, inject_Z; simpl.
    apply Z.compare_lt_iff. lia. }
  by rewrite Hc.
Qed.

(** Rounding to one decimal gives a value with one decimal, and leaves
    such a value as it is. *)
Lemma round1_one_decimal q : Num.one_decimal (Num.round1 q).
Proof. by eexists. Qed.

Lemma round1_tenths (z : Z) : Num.round1 (Qmake z 10) = Qmake z 10.
Proof.
  unfold Num.round1. f_equal.
  change (Qmake z 10 * 10)%Q with (Qmake (z * 10) (10 * 1)).
  apply rint_integer.
Qed.

Lemma nanmean_present xs :
  Num.present xs ≠ [] →
  Num.nanmean xs
  = Some (Num.Qsum (Num.present xs)
          / inject_Z (Z.of_nat (length (Num.present xs))))%Q.
Proof. unfold Num.nanmean. by destruct (Num.present xs). Qed.

Lemma nanmean_is_Some xs :
  Num.present xs ≠ [] → is_Some (Num.nanmean xs).
Proof. intros H. rewrite nanmean_present by done. by eexists. Qed.

Lemma count_null_Float64_zero (xs : list Num.cell) :
  (∀ i, xs !! i ≠ Some None) → count_null (Float64 xs) = 0.
Proof.
  intros H. simpl. induction xs as [|x xs IH]; [done|].
  destruct (decide (x = None)) as [->|Hx].
  - by destruct (H 0).
  - rewrite filter_cons_False by done. apply IH. intros i. apply (H (S i)).
Qed.

End Numbers.

(** ** Rounding to the nearest tenth *)

Section Rounding.
Implicit Types (q m v : Q) (xs : list Num.cell).

(** [rint] is within one half of its argument. *)
Lemma rint_near q :
  (inject_Z (Num.rint q) - (1 # 2) <= q)%Q
  ∧ (q <= inject_Z (Num.rint q) + (1 # 2))%Q.
Proof.
  assert (Hlo := Qfloor_le q). assert (Hhi := Qlt_floor q).
  rewrite inject_Z_plus in Hhi. change (inject_Z 1) with 1%Q in Hhi.
  unfold Num.rint.
  destruct (Qcompare (q - inject_Z (Qfloor q)) (1 # 2)) eqn:Hc.
  - apply Qeq_alt in Hc.
    destruct (Z.even (Qfloor q)); [split; lra|].
    rewrite inject_Z_plus. change (inject_Z 1) with 1%Q. split; lra.
  - apply Qlt_alt in Hc. split; lra.
  - apply Qgt_alt in Hc.
    rewrite inject_Z_plus. change (inject_Z 1) with 1%Q. split; lra.
Qed.

Lemma Qmake_tenth (z : Z) : (Qmake z 10 == inject_Z z * (1 # 10))%Q.
Proof. unfold Qeq, inject_Z, Qmult. simpl. lia. Qed.

(** [round1] gives a tenth nearest to its argument. *)
Lemma round1_nearest q : nearest_tenth q (Num.round1 q).
Proof.
  split; [by eexists|]. unfold Num.round1. rewrite Qmake_tenth.
  destruct (rint_near (q * 10)) as [Hlo Hhi]. split; lra.
Qed.

(** [nanmean] gives the mean. *)
Lemma nanmean_mean_of xs m : Num.nanmean xs = Some m → mean_of xs m.
Proof.
  unfold Num.nanmean, mean_of.
  destruct (Num.present xs) as [|p ps] eqn:Hp; [done|].
  intros [= <-]. split; [done|].
  rewrite Qmult_comm. apply Qmult_div_r.
  unfold Qeq, inject_Z. simpl. lia.
Qed.

Lemma nanmean_no_value xs : Num.nanmean xs = None → Num.present xs = [].
Proof. unfold Num.nanmean. by destruct (Num.present xs). Qed.

(** The rounding of the [nanmean] is the rounded mean. *)
Lemma rounded_mean_nanmean xs :
  rounded_mean xs (Num.round1_cell (Num.nanmean xs)).
Proof.
  destruct (Num.nanmean xs) as [m|] eqn:Hm; simpl.
  - exists m. split; [by apply nanmean_mean_of|apply round1_nearest].
  - by apply nanmean_no_value.
Qed.

(** [.mean().round(1)] on a column: the rounded mean, or an
    AttributeError when the column has no value. *)
Lemma scalar_round1_nanmean xs :
  Num.present xs ≠ [] →
  scalar_round1 (Num.nanmean xs) = Returns (Num.round1_cell (Num.nanmean xs)).
Proof. intros [m ->]%nanmean_is_Some. done. Qed.

Lemma scalar_round1_no_value xs :
  Num.present xs = [] → scalar_round1 (Num.nanmean xs) = Raises AttributeError.
Proof. intros H. unfold Num.nanmean. by rewrite H. Qed.

End Rounding.

(** ** Scores of a frame, and the frames the means are stated for *)

Section Domain.
Implicit Types (df : DataFrame) (col : string).

Lemma score_cells_of df col i : score df col i = mjoin (cells_of df col !! i).
Proof.
  unfold score, float_cell, cells_of.
  by destruct (lookup_column col (columns df)) as [[xs|xs]|].
Qed.

Lemma score_present df col i q :
  score df col i = Some q → Num.present (cells_of df col) ≠ [].
Proof.
  rewrite score_cells_of.
  destruct (cells_of df col !! i) as [[x|]|] eqn:Hi; [|done..].
  intros [= ->] Hp.
  assert (q ∈ Num.present (cells_of df col)) as Hin.
  { apply list_elem_of_omap. exists (Some q).
    split; [by eapply list_elem_of_lookup_2|done]. }
  rewrite Hp in Hin. by apply elem_of_nil in Hin.
Qed.

Lemma gradebook_b_spec df : gradebook_b df = true → gradebook df.
Proof.
  unfold gradebook_b, gradebook.
  intros [Hn H]%andb_true_iff. split; [by apply Z.leb_le|].
  rewrite forallb_forall in H.
  intros col i q Hcol Hq. rewrite score_cells_of in Hq.
  specialize (H col (proj1 (list_elem_of_In _ _) Hcol)).
  rewrite forallb_forall in H.
  destruct (cells_of df col !! i) as [cell|] eqn:Hi; [|done].
  simpl in Hq. subst cell.
  by apply list_elem_of_lookup_2, list_elem_of_In, H in Hi.
Qed.

Lemma scored_b_spec df : scored_b df = true → scored df.
Proof.
  unfold scored_b, scored. rewrite forallb_forall.
  intros H col Hcol.
  specialize (H col (proj1 (list_elem_of_In _ _) Hcol)).
  apply existsb_exists in H as (cell & Hin & Hcell).
  apply bool_decide_eq_true in Hcell as [q ->].
  apply list_elem_of_In, list_elem_of_lookup in Hin as [i Hi].
  apply lookup_take_Some in Hi as [Hi Hlt].
  exists i, q. split; [done|]. rewrite score_cells_of.
  unfold Num.cell in *. by rewrite Hi.
Qed.

Lemma scores_in_range_b_spec df :
  scores_in_range_b df = true → scores_in_range df.
Proof.
  unfold scores_in_range_b, scores_in_range. rewrite forallb_forall.
  intros H col i Hcol q Hq. rewrite score_cells_of in Hq.
  specialize (H col (proj1 (list_elem_of_In _ _) Hcol)).
  rewrite forallb_forall in H.
  destruct (cells_of df col !! i) as [cell|] eqn:Hi; [|done].
  simpl in Hq. subst cell.
  apply list_elem_of_lookup_2, list_elem_of_In, H in Hi.
  apply andb_true_iff in Hi as [H0 H100].
  split; by apply Qle_bool_iff.
Qed.

End Domain.

(** ** Bounds on scores *)

Section Bounds.
Implicit Types (q : Q) (z : Z).

Lemma rint_floor_or_next q :
  Num.rint q = Qfloor q ∨ Num.rint q = (Qfloor q + 1)%Z.
Proof.
  unfold Num.rint.
  destruct (Qcompare (q - inject_Z (Qfloor q)) (1 # 2)); auto.
  destruct (Z.even (Qfloor q)); auto.
Qed.

Lemma rint_lower z q : (inject_Z z <= q)%Q → (z <= Num.rint q)%Z.
Proof.
  intros H. apply Qfloor_resp_le in H. rewrite Qfloor_Z in H.
  destruct (rint_floor_or_next q) as [-> | ->]; lia.
Qed.

Lemma rint_upper z q : (q <= inject_Z z)%Q → (Num.rint q <= z)%Z.
Proof.
  intros H. assert (Hf := Qfloor_resp_le _ _ H). rewrite Qfloor_Z in Hf.
  destruct (Z.eq_dec (Qfloor q) z) as [He|Hne].
  - unfold Num.rint.
    assert (Hc : Qcompare (q - inject_Z (Qfloor q)) (1 # 2) = Lt).
    { apply Qlt_alt. rewrite He.
      assert (q == inject_Z z)%Q as ->.
      { apply Qle_antisym; [done|]. rewrite <- He. apply Qfloor_le. }
      unfold Qminus. rewrite Qplus_opp_r. reflexivity. }
    rewrite Hc. lia.
  - destruct (rint_floor_or_next q) as [-> | ->]; lia.
Qed.

(** Rounding to one decimal keeps a score between 0 and 100. *)
Lemma round1_in_range q : in_range q → in_range (Num.round1 q).
Proof.
  intros [Hlo Hhi]. unfold Num.round1.
  assert (H0 : (0 <= Num.rint (q * 10))%Z).
  { apply rint_lower. change (inject_Z 0) with (0 * 10)%Q.
    apply Qmult_le_compat_r; [done|]. done. }
  assert (H1 : (Num.rint (q * 10) <= 1000)%Z).
  { apply rint_upper. change (inject_Z 1000) with (100 * 10)%Q.
    apply Qmult_le_compat_r; [done|]. done. }
  split; unfold Qle; simpl; lia.
Qed.

Lemma Qsum_bounds (qs : list Q) :
  (∀ q, q ∈ qs → in_range q) →
  (0 <= Num.Qsum qs)%Q
  ∧ (Num.Qsum qs <= 100 * inject_Z (Z.of_nat (length qs)))%Q.
Proof.
  induction qs as [|q qs IH]; intros H.
  - split; simpl; [apply Qle_refl|]. unfold Qle; simpl; lia.
  - destruct (H q) as [Hlo Hhi]; [by left|].
    destruct IH as [IHlo IHhi]; [intros; apply H; by right|].
    split; simpl Num.Qsum.
    + change 0%Q with (0 + 0)%Q. by apply Qplus_le_compat.
    + assert (Hn : (inject_Z (Z.of_nat (length (q :: qs)))
                    == 1 + inject_Z (Z.of_nat (length qs)))%Q).
      { simpl length. rewrite Nat2Z.inj_succ, <- Z.add_1_l.
        by rewrite inject_Z_plus. }
      rewrite Hn, Qmult_plus_distr_r.
      apply Qplus_le_compat; [|done]. by rewrite Qmult_1_r.
Qed.

(** The mean of scores between 0 and 100 is between 0 and 100. *)
Lemma nanmean_in_range (xs : list Num.cell) :
  (∀ c, c ∈ xs → cell_in_range c) → cell_in_range (Num.nanmean xs).
Proof.
  intros H q. unfold Num.nanmean.
  destruct (Num.present xs) as [|p ps] eqn:Hp; [done|].
  intros [= <-].
  destruct (Qsum_bounds (p :: ps)) as [Hlo Hhi].
  { intros x Hx. rewrite <- Hp in Hx. unfold Num.present in Hx.
    apply list_elem_of_omap in Hx as (c & Hc & Hcx). simpl in Hcx.
    by apply (H c Hc). }
  assert (Hn : (0 < inject_Z (Z.of_nat (length (p :: ps))))%Q).
  { unfold Qlt; simpl. lia. }
  split.
  - apply Qle_shift_div_l; [done|]. by rewrite Qmult_0_l.
  - by apply Qle_shift_div_r.
Qed.

Lemma round1_cell_in_range (c : Num.cell) :
  cell_in_range c → cell_in_range (Num.round1_cell c).
Proof.
  intros H q. destruct c as [x|]; [|done]. simpl. intros [= <-].
  by apply round1_in_range, H.
Qed.

Lemma cleaned_cell_in_range (mean c : Num.cell) :
  cell_in_range mean → cell_in_range c → cell_in_range (cleaned_cell mean c).
Proof.
  intros Hm Hc. apply round1_cell_in_range. by destruct c.
Qed.

(** A grade book has its scores between 0 and 100. *)
Lemma decimal_score_in_range q : decimal_score q = true → in_range q.
Proof.
  unfold decimal_score. intros [[H0 H100]%andb_true_iff _]%andb_true_iff.
  split; by apply Qle_bool_iff.
Qed.

Lemma gradebook_scores_in_range (df : DataFrame) :
  gradebook df → scores_in_range df.
Proof.
  intros [_ H] col i Hcol q Hq. by apply decimal_score_in_range, (H col i).
Qed.

(** The cells of a subject column of a frame with scores in range. *)
Lemma column_cells_in_range (df : DataFrame) col (xs : list Num.cell) :
  scores_in_range df → col ∈ grade_columns →
  lookup_column col (columns df) = Some (Float64 xs) →
  ∀ c, c ∈ xs → cell_in_range c.
Proof.
  intros Hrange Hcol Hxs c [i Hi]%list_elem_of_lookup.
  specialize (Hrange col i Hcol). rewrite score_cells_of in Hrange.
  unfold cells_of in Hrange. rewrite Hxs in Hrange.
  unfold Num.cell in *. by rewrite Hi in Hrange.
Qed.

End Bounds.

(** ** Cleaning: what [clean_data] leaves *)

Section CleanData.
Variable repr : Q → string.
Implicit Types (st : Analyzer) (raw : DataFrame) (c r : loc).

(** On raw data whose subject columns are numeric, [clean_data] returns
    a reference to a new object; its subject columns hold the cleaned
    cells, and the columns that are neither subject nor text columns are
    those of the raw frame. *)
Lemma clean_data_numeric st r raw :
  raw_data st = Some r → store st !! r = Some raw → numeric_subjects raw →
  ∃ c df',
    store st !! c = None
    ∧ clean_data repr st
      = (Returns (Some c),
         mkAnalyzer (<[c := df']> (store st)) (Some r) (Some c) (results st))
    ∧ nrows df' = nrows raw
    ∧ column_names df' = column_names raw
    ∧ (∀ col xs, col ∈ grade_columns →
         lookup_column col (columns raw) = Some (Float64 xs) →
         lookup_column col (columns df')
         = Some (Float64 (cleaned_cell (Num.nanmean xs) <$> xs)))
    ∧ (∀ col, col ∉ grade_columns → col ∉ text_columns →
         lookup_column col (columns df') = lookup_column col (columns raw)).
Proof.
  intros Hr Hraw Hnum.
  destruct (clean_frame_spec repr raw Hnum) as (df' & Hrun & Hn & Hc & Hg & Ho).
  exists (fresh (dom (store st))), df'.
  split; [apply fresh_store_None|].
  split; [|done].
  rewrite (clean_data_run repr st r raw Hr Hraw). by rewrite Hrun.
Qed.

(** Without any subject column the frame is numeric in the sense
    above. *)
Lemma no_subjects_numeric raw :
  existing_grade_columns raw = [] → numeric_subjects raw.
Proof.
  intros He. unfold numeric_subjects. apply forallb_forall. intros col Hc.
  unfold numeric_column.
  destruct (lookup_column col (columns raw)) as [s|] eqn:Hs; [|done].
  assert (col ∈ existing_grade_columns raw) as Hin.
  { apply elem_of_existing. split; [by apply list_elem_of_In|by eexists]. }
  rewrite He in Hin. by apply elem_of_nil in Hin.
Qed.

(** The cleaned column has no missing cell as soon as the raw column has
    one score. *)
Lemma cleaned_column_no_missing xs :
  Num.present xs ≠ [] →
  count_null (Float64 (cleaned_cell (Num.nanmean xs) <$> xs)) = 0.
Proof.
  intros Hp. apply count_null_Float64_zero. intros i.
  rewrite list_lookup_fmap.
  destruct (nanmean_is_Some xs Hp) as [m Hm]. rewrite Hm.
  by destruct (xs !! i) as [[q|]|].
Qed.

(** (C5) For every subject column of a grade book, [clean_data] fills
    the missing cells with one value, taken from the column as loaded,
    that is before any cell of it is filled: the mean of the scores
    present in it rounded to one decimal, a tenth nearest to that mean
    and between 0 and 100 (NaN when the column holds no score). *)
Theorem clean_imputes_column_mean st r raw :
  raw_data st = Some r → store st !! r = Some raw → numeric_subjects raw →
  gradebook raw →
  ∃ c st', clean_data repr st = (Returns (Some c), st')
    ∧ ∀ col xs, col ∈ grade_columns →
        lookup_column col (columns raw) = Some (Float64 xs) →
        ∃ ys a, lookup_column col (columns (store st' !!! c)) = Some (Float64 ys)
          ∧ length ys = length xs
          ∧ rounded_mean xs a
          ∧ cell_in_range a
          ∧ ∀ i, xs !! i = Some None → ys !! i = Some a.
Proof.
  intros Hr Hraw Hnum Hbook%gradebook_scores_in_range.
  destruct (clean_data_numeric st r raw Hr Hraw Hnum)
    as (c & df' & _ & Hrun & _ & _ & Hg & _).
  eexists c, _. split; [exact Hrun|].
  intros col xs Hcol Hxs. simpl. rewrite lookup_total_insert_eq.
  eexists _, (Num.round1_cell (Num.nanmean xs)).
  split; [by apply Hg|]. split; [by rewrite length_fmap|].
  split; [apply rounded_mean_nanmean|]. split.
  { apply round1_cell_in_range, nanmean_in_range.
    by apply (column_cells_in_range raw col). }
  intros i Hi. rewrite list_lookup_fmap.
  unfold Num.cell in *. by rewrite Hi.
Qed.

(** (C10) After [clean_data] on a grade book, every score of every
    subject column is rounded to one decimal: a score present in the raw
    data is replaced by its rounding, a tenth nearest to it, and each
    cell of the column has one decimal and lies between 0 and 100. *)
Theorem clean_rounds_every_score st r raw :
  raw_data st = Some r → store st !! r = Some raw → numeric_subjects raw →
  gradebook raw →
  ∃ c st', clean_data repr st = (Returns (Some c), st')
    ∧ ∀ col xs, col ∈ grade_columns →
        lookup_column col (columns raw) = Some (Float64 xs) →
        ∃ ys, lookup_column col (columns (store st' !!! c)) = Some (Float64 ys)
          ∧ (∀ i q, xs !! i = Some (Some q) →
               ys !! i = Some (Some (Num.round1 q))
               ∧ nearest_tenth q (Num.round1 q))
          ∧ (∀ i y, ys !! i = Some (Some y) →
               Num.one_decimal y ∧ Num.round1 y = y ∧ in_range y).
Proof.
  intros Hr Hraw Hnum Hbook%gradebook_scores_in_range.
  destruct (clean_data_numeric st r raw Hr Hraw Hnum)
    as (c & df' & _ & Hrun & _ & _ & Hg & _).
  eexists c, _. split; [exact Hrun|].
  intros col xs Hcol Hxs. simpl. rewrite lookup_total_insert_eq.
  eexists. split; [by apply Hg|]. split.
  - intros i q Hi. split; [|apply round1_nearest].
    rewrite list_lookup_fmap.
    unfold Num.cell in *. by rewrite Hi.
  - intros i y. rewrite list_lookup_fmap.
    destruct (xs !! i) as [x|] eqn:Hx; [|done]. simpl. intros [= Hy].
    assert (Hin : cell_in_range (cleaned_cell (Num.nanmean xs) x)).
    { apply cleaned_cell_in_range.
      - apply nanmean_in_range. by apply (column_cells_in_range raw col).
      - apply (column_cells_in_range raw col xs); [done..|].
        by eapply list_elem_of_lookup_2. }
    rewrite Hy in Hin. specialize (Hin y eq_refl).
    unfold cleaned_cell, Num.round1_cell in Hy.
    destruct (fillna_cell (Num.nanmean xs) x) as [q|]; [|done].
    injection Hy as <-.
    split; [apply round1_one_decimal|]. split; [apply round1_tenths|done].
Qed.

(** (C1, as the code has it) On raw data without any subject column,
    [clean_data] reports no error: it returns the cleaned copy, with the
    columns of the raw data; [transform_data] then returns [None] without
    raising, and leaves the analyzer, hence the cleaned frame, as it was:
    no derived column is added. *)
Theorem clean_transform_without_subjects st r raw :
  raw_data st = Some r → store st !! r = Some raw →
  existing_grade_columns raw = [] →
  ∃ c st1, clean_data repr st = (Returns (Some c), st1)
    ∧ column_names (store st1 !!! c) = column_names raw
    ∧ transform_data st1 = (Returns None, st1).
Proof.
  intros Hr Hraw He.
  destruct (clean_data_numeric st r raw Hr Hraw (no_subjects_numeric raw He))
    as (c & df' & _ & Hrun & _ & Hnames & _ & _).
  eexists c, _. split; [exact Hrun|]. simpl.
  rewrite lookup_total_insert_eq. split; [done|].
  eapply (transform_data_no_subjects _ c df'); simpl.
  - done.
  - apply lookup_insert_eq.
  - rewrite <- He. apply existing_ext. intros col _.
    unfold has_column. by rewrite Hnames.
Qed.

End CleanData.

(** The imputation leaves no missing cell in a subject column that has at
    least one score in the raw data. *)
Lemma clean_fills_column_with_a_score repr st r raw :
  raw_data st = Some r → store st !! r = Some raw → numeric_subjects raw →
  ∃ c st', clean_data repr st = (Returns (Some c), st')
    ∧ ∀ col xs, col ∈ grade_columns →
        lookup_column col (columns raw) = Some (Float64 xs) →
        Num.present xs ≠ [] →
        ∃ s, lookup_column col (columns (store st' !!! c)) = Some s
          ∧ count_null s = 0.
Proof.
  intros Hr Hraw Hnum.
  destruct (clean_data_numeric repr st r raw Hr Hraw Hnum)
    as (c & df' & _ & Hrun & _ & _ & Hg & _).
  eexists c, _. split; [exact Hrun|].
  intros col xs Hcol Hxs Hp. simpl. rewrite lookup_total_insert_eq.
  eexists. split; [by apply Hg|]. by apply cleaned_column_no_missing.
Qed.

(** [loaded raw] is the analyzer right after [load_data]. *)
Lemma load_data_init raw : load_data raw (init ∅) = (Returns 0, loaded raw).
Proof. reflexivity. Qed.

(** The mean imputation on the sample with one missing Math score. *)
Lemma clean_imputes_column_mean_witness :
  ∃ c st', clean_data const_repr (loaded math_frame) = (Returns (Some c), st')
    ∧ ∀ col xs, col ∈ grade_columns →
        lookup_column col (columns math_frame) = Some (Float64 xs) →
        ∃ ys a, lookup_column col (columns (store st' !!! c)) = Some (Float64 ys)
          ∧ length ys = length xs
          ∧ rounded_mean xs a
          ∧ cell_in_range a
          ∧ ∀ i, xs !! i = Some None → ys !! i = Some a.
Proof.
  apply (clean_imputes_column_mean const_repr (loaded math_frame) 0 math_frame);
    try reflexivity.
  by apply gradebook_b_spec.
Defined.

(** The rounding on the sample with a score of two decimals. *)
Lemma clean_rounds_every_score_witness :
  ∃ c st', clean_data const_repr (loaded two_decimals_frame) = (Returns (Some c), st')
    ∧ ∀ col xs, col ∈ grade_columns →
        lookup_column col (columns two_decimals_frame) = Some (Float64 xs) →
        ∃ ys, lookup_column col (columns (store st' !!! c)) = Some (Float64 ys)
          ∧ (∀ i q, xs !! i = Some (Some q) →
               ys !! i = Some (Some (Num.round1 q))
               ∧ nearest_tenth q (Num.round1 q))
          ∧ (∀ i y, ys !! i = Some (Some y) →
               Num.one_decimal y ∧ Num.round1 y = y ∧ in_range y).
Proof.
  apply (clean_rounds_every_score const_repr (loaded two_decimals_frame) 0
           two_decimals_frame); try reflexivity.
  by apply gradebook_b_spec.
Defined.

(** A score present in the raw data is altered by cleaning: 85.25 becomes
    85.2. *)
Example clean_alters_present_score :
  float_cell two_decimals_frame "Math" 0 = Some (Some (8525 # 100))
  ∧ ∃ c st', clean_data const_repr (loaded two_decimals_frame)
             = (Returns (Some c), st')
      ∧ float_cell (store st' !!! c) "Math" 0 = Some (Some (852 # 10)).
Proof.
  split; [reflexivity|].
  exists 1, (clean_data const_repr (loaded two_decimals_frame)).2.
  split; by vm_compute.
Qed.

(** The scenario of the specification: Math scores 80, missing, 100; the
    missing score is imputed as 90.0. *)
Example clean_math_scenario :
  ∃ c st', clean_data const_repr (loaded math_frame) = (Returns (Some c), st')
    ∧ lookup_column "Math" (columns (store st' !!! c))
      = Some (Float64 [Some (800 # 10); Some (900 # 10); Some (1000 # 10)])
    ∧ lookup_column "grade_level" (columns (store st' !!! c))
      = Some (Object [Some "10th"; Some "9th"; Some "9th"])
    ∧ lookup_column "name" (columns (store st' !!! c))
      = Some (Object [Some "Student 1"; Some "Student 2"; Some "Student 3"]).
Proof.
  exists 1, (clean_data const_repr (loaded math_frame)).2.
  repeat split; by vm_compute.
Qed.

(** (C3) A subject column whose cells are all missing has no mean:
    [clean_data] returns and the column keeps its two missing cells. *)
Theorem clean_leaves_all_missing_column :
  lookup_column "Math" (columns all_missing_frame) = Some (Float64 [None; None])
  ∧ ∃ c st', clean_data const_repr (loaded all_missing_frame)
             = (Returns (Some c), st')
      ∧ lookup_column "Math" (columns (store st' !!! c))
        = Some (Float64 [None; None])
      ∧ count_null (Float64 [None; None]) = 2.
Proof.
  split; [reflexivity|].
  exists 1, (clean_data const_repr (loaded all_missing_frame)).2.
  repeat split; by vm_compute.
Qed.

(** (C1, as stated, fails) The cleaner reports no error on a dataset
    without subject columns. *)
Lemma cleaner_reports_no_error :
  ¬ (∀ repr st r raw,
       raw_data st = Some r → store st !! r = Some raw →
       existing_grade_columns raw = [] →
       ∃ e, (clean_data repr st).1 = Raises e).
Proof.
  intros H.
  destruct (H const_repr (loaded no_subject_frame) 0 no_subject_frame)
    as [e He]; [reflexivity..|].
  vm_compute in He. discriminate He.
Qed.

(** Cleaning and transforming the sample without subject columns. *)
Lemma clean_transform_without_subjects_witness :
  ∃ c st1, clean_data const_repr (loaded no_subject_frame) = (Returns (Some c), st1)
    ∧ column_names (store st1 !!! c) = column_names no_subject_frame
    ∧ transform_data st1 = (Returns None, st1).
Proof.
  apply (clean_transform_without_subjects const_repr (loaded no_subject_frame) 0
           no_subject_frame); reflexivity.
Defined.

(** ** Transformation: the derived columns *)

Section TransformData.
Implicit Types (st : Analyzer) (df : DataFrame) (c r : loc).



(** An average that is NaN falls through every comparison. *)
Lemma get_letter_grade_nan : get_letter_grade None = "F".
Proof. reflexivity. Qed.

Lemma get_performance_category_nan :
  get_performance_category None = "Needs Improvement".
Proof. reflexivity. Qed.

Lemma set_column_same col s df :
  lookup_column col (columns df) = Some s → set_column col s df = df.
Proof.
  intros H. unfold set_column. rewrite (assign_same _ _ _ H). by destruct df.
Qed.

Lemma transformed_nrows df cs : nrows (transformed df cs) = nrows df.
Proof. reflexivity. Qed.

(** The derived columns of the transformed frame. *)
Lemma transformed_overall_average df cs :
  lookup_column "overall_average" (columns (transformed df cs))
  = Some (Float64 (overall_average_of cs (nrows df))).
Proof.
  unfold transformed. cbv zeta.
  rewrite !lookup_set_column_ne by done. apply lookup_set_column_eq.
Qed.

Lemma transformed_letter_grade df cs :
  lookup_column "letter_grade" (columns (transformed df cs))
  = Some (Object (letter_grade_of cs (nrows df))).
Proof.
  unfold transformed. cbv zeta.
  rewrite !lookup_set_column_ne by done. apply lookup_set_column_eq.
Qed.

Lemma transformed_performance df cs :
  lookup_column "performance" (columns (transformed df cs))
  = Some (Object (performance_of_cells cs (nrows df))).
Proof.
  unfold transformed. cbv zeta.
  rewrite !lookup_set_column_ne by done. apply lookup_set_column_eq.
Qed.

Lemma transformed_best_subject df cs :
  lookup_column "best_subject" (columns (transformed df cs))
  = Some (Object (best_subject_of cs (nrows df))).
Proof.
  unfold transformed. cbv zeta.
  rewrite !lookup_set_column_ne by done. apply lookup_set_column_eq.
Qed.

Lemma transformed_worst_subject df cs :
  lookup_column "worst_subject" (columns (transformed df cs))
  = Some (Object (worst_subject_of cs (nrows df))).
Proof. unfold transformed. cbv zeta. apply lookup_set_column_eq. Qed.

(** Every other column is as it was. *)
Lemma transformed_other df cs col :
  col ∉ derived_columns →
  lookup_column col (columns (transformed df cs))
  = lookup_column col (columns df).
Proof.
  intros H. unfold transformed. cbv zeta.
  rewrite !lookup_set_column_ne; [done|..]; intros <-; apply H;
    unfold derived_columns; set_solver.
Qed.

Lemma transformed_subject df cs col :
  col ∈ grade_columns →
  lookup_column col (columns (transformed df cs))
  = lookup_column col (columns df).
Proof. intros H. by apply transformed_other, grade_not_derived. Qed.

Lemma transformed_existing df cs :
  existing_grade_columns (transformed df cs) = existing_grade_columns df.
Proof.
  apply existing_ext. intros col Hc.
  apply eq_true_iff_eq. rewrite !has_column_true.
  by rewrite transformed_subject.
Qed.

Lemma transformed_subject_cells df cs :
  subject_cells (transformed df cs) = subject_cells df.
Proof.
  unfold subject_cells. rewrite transformed_existing. f_equal.
  apply selection_ext. intros col Hc.
  apply transformed_subject. by apply existing_subseteq in Hc.
Qed.

(** Transforming the transformed frame changes nothing. *)
Lemma transformed_idem df cs :
  transformed (transformed df cs) cs = transformed df cs.
Proof.
  unfold transformed at 1. cbv zeta. rewrite transformed_nrows.
  rewrite (set_column_same "overall_average")
    by apply transformed_overall_average.
  rewrite (set_column_same "letter_grade") by apply transformed_letter_grade.
  rewrite (set_column_same "performance") by apply transformed_performance.
  rewrite (set_column_same "best_subject") by apply transformed_best_subject.
  apply set_column_same, transformed_worst_subject.
Qed.

End TransformData.

Section TransformTheorems.
Implicit Types (st : Analyzer) (df : DataFrame) (c r : loc).

(** The store after a successful [transform_data] holds the transformed
    frame behind the returned reference. *)
Lemma transform_data_frame st c st' :
  transform_data st = (Returns (Some c), st') →
  ∃ df cs, store st !!! c = df
    ∧ cleaned_data st' = Some c
    ∧ existing_grade_columns df ≠ []
    ∧ subject_cells df = Returns cs
    ∧ store st' = <[c := transformed df cs]> (store st)
    ∧ store st' !!! c = transformed df cs.
Proof.
  intros (Hc & Hne & cs & Hcs & ->)%transform_data_inv.
  eexists _, cs. repeat split; try done. simpl. apply lookup_total_insert_eq.
Qed.

Lemma overall_average_length cs n : length (overall_average_of cs n) = n.
Proof. unfold overall_average_of. by rewrite !length_fmap, length_seq. Qed.



(** (C9) [transform_data] applied to data it has already transformed
    returns the same reference and leaves the analyzer as it is; in
    particular the five derived columns are unchanged. *)
Theorem transform_idempotent st c st' :
  transform_data st = (Returns (Some c), st') →
  ∃ st'', transform_data st' = (Returns (Some c), st'')
    ∧ st'' = st'
    ∧ ∀ col, col ∈ derived_columns →
        lookup_column col (columns (store st'' !!! c))
        = lookup_column col (columns (store st' !!! c)).
Proof.
  intros H. destruct (transform_data_frame st c st' H)
    as (df & cs & Hdf & Hc & Hne & Hcs & Hstore & Hframe).
  exists st'. split; [|done].
  rewrite (transform_data_returns st' c (transformed df cs) cs).
  - f_equal. rewrite transformed_idem.
    unfold set_store. rewrite Hstore, insert_insert_eq, <- Hstore.
    apply analyzer_eta.
  - done.
  - rewrite Hstore. apply lookup_insert_eq.
  - by rewrite transformed_existing.
  - by rewrite transformed_subject_cells.
Qed.

(** (C4, as the code has it) [clean_data] builds a new object and leaves
    the raw data as loaded; [transform_data] builds none: it returns the
    reference [clean_data] returned and updates the object behind it in
    place, which after the call carries the five derived columns; its
    other columns, and every other object, stay as they were. *)
Theorem transform_updates_cleaned_in_place repr st r raw c st1 c' st2 :
  raw_data st = Some r → store st !! r = Some raw →
  clean_data repr st = (Returns (Some c), st1) →
  transform_data st1 = (Returns (Some c'), st2) →
  c ≠ r
  ∧ store st !! c = None
  ∧ store st1 !! r = Some raw
  ∧ c' = c
  ∧ (∀ l, l ≠ c → store st2 !! l = store st !! l)
  ∧ (∀ col, col ∈ derived_columns →
       has_column col (store st2 !!! c) = true)
  ∧ (∀ col, col ∉ derived_columns →
       lookup_column col (columns (store st2 !!! c))
       = lookup_column col (columns (store st1 !!! c))).
Proof.
  intros Hr Hraw Hclean Htrans.
  rewrite (clean_data_run repr st r raw Hr Hraw) in Hclean.
  set (c0 := fresh (dom (store st))) in *.
  assert (Hc0 : store st !! c0 = None) by apply fresh_store_None.
  assert (Hne : c0 ≠ r) by (intros ->; congruence).
  destruct ((clean_frame repr raw).1) as [[]|e]; [|by inversion Hclean].
  injection Hclean as <- <-.
  destruct (transform_data_frame _ c' st2 Htrans)
    as (df & cs & Hdf & Hc & _ & _ & Hstore & Hframe).
  assert (c' = c0) as ->.
  { apply transform_data_inv in Htrans as [Hc' _]. simpl in Hc'. congruence. }
  repeat split; try done.
  - simpl. by rewrite lookup_insert_ne.
  - intros l Hl. rewrite Hstore. simpl.
    by rewrite !lookup_insert_ne.
  - intros col Hcol. rewrite Hframe. apply has_column_true.
    unfold derived_columns in Hcol.
    repeat (apply elem_of_cons in Hcol as [->|Hcol]);
      [rewrite transformed_overall_average
      |rewrite transformed_letter_grade
      |rewrite transformed_performance
      |rewrite transformed_best_subject
      |rewrite transformed_worst_subject
      |by apply elem_of_nil in Hcol]; by eexists.
  - intros col Hcol. rewrite Hframe, <- Hdf. by apply transformed_other.
Qed.

End TransformTheorems.



(** Transforming the transformed sample again. *)
Lemma transform_idempotent_witness :
  ∃ st3, transform_data (transformed_state math_frame) = (Returns (Some 1), st3)
    ∧ st3 = transformed_state math_frame
    ∧ ∀ col, col ∈ derived_columns →
        lookup_column col (columns (store st3 !!! 1))
        = lookup_column col (columns (store (transformed_state math_frame) !!! 1)).
Proof.
  apply (transform_idempotent (cleaned math_frame) 1
           (transformed_state math_frame)).
  by vm_compute.
Defined.

(** The scenario of the specification, continued: the student whose Math
    score was imputed has the average 90.0, the grade A and the
    performance Excellent. *)
Example transform_math_scenario :
  float_cell (store (transformed_state math_frame) !!! 1) "overall_average" 1
  = Some (Some (900 # 10))
  ∧ object_cell (store (transformed_state math_frame) !!! 1) "letter_grade" 1
    = Some (Some "A")
  ∧ object_cell (store (transformed_state math_frame) !!! 1) "performance" 1
    = Some (Some "Excellent")
  ∧ object_cell (store (transformed_state math_frame) !!! 1) "best_subject" 1
    = Some (Some "Math")
  ∧ object_cell (store (transformed_state math_frame) !!! 1) "worst_subject" 1
    = Some (Some "Math").
Proof. repeat split; by vm_compute. Qed.

(** (C4, as stated, fails) After [transform_data], the object that
    [clean_data] returned is not what it was: it has gained the derived
    columns. *)
Lemma transform_mutates_cleaned_frame :
  ¬ (∀ repr st c st1 c' st2,
       clean_data repr st = (Returns (Some c), st1) →
       transform_data st1 = (Returns (Some c'), st2) →
       store st2 !! c = store st1 !! c).
Proof.
  intros H.
  assert (Heq : store (transformed_state math_frame) !! 1
                = store (cleaned math_frame) !! 1).
  { apply (H const_repr (loaded math_frame) 1 (cleaned math_frame) 1
             (transformed_state math_frame)); by vm_compute. }
  vm_compute in Heq. discriminate Heq.
Qed.

(** The objects of the store along the pipeline on the sample: 0 is the
    raw frame, 1 the cleaned and then transformed one. *)
Lemma transform_updates_cleaned_in_place_witness :
  1 ≠ 0
  ∧ store (loaded math_frame) !! 1 = None
  ∧ store (cleaned math_frame) !! 0 = Some math_frame
  ∧ 1 = 1
  ∧ (∀ l, l ≠ 1 →
       store (transformed_state math_frame) !! l = store (loaded math_frame) !! l)
  ∧ (∀ col, col ∈ derived_columns →
       has_column col (store (transformed_state math_frame) !!! 1) = true)
  ∧ (∀ col, col ∉ derived_columns →
       lookup_column col (columns (store (transformed_state math_frame) !!! 1))
       = lookup_column col (columns (store (cleaned math_frame) !!! 1))).
Proof.
  apply (transform_updates_cleaned_in_place const_repr (loaded math_frame) 0
           math_frame 1 (cleaned math_frame) 1 (transformed_state math_frame));
    by vm_compute.
Defined.

(** ** The subject scores row by row *)

Section Rows.
Implicit Types (col : string) (s : Series) (df : DataFrame).

Lemma float_columns_closed_form df cols cs :
  float_columns (selection cols (columns df)) = Returns cs →
  (∀ col, col ∈ cols → is_Some (lookup_column col (columns df))) →
  cs = (λ col, (col, cells_of df col)) <$> cols.
Proof.
  revert cs. induction cols as [|col cols IH]; intros cs Hcs Hall.
  { unfold selection in Hcs. simpl in Hcs. by injection Hcs as <-. }
  destruct (Hall col) as [s Hs]; [by left|].
  unfold selection in Hcs. cbn [omap list_omap] in Hcs.
  fold (selection cols (columns df)) in Hcs. rewrite Hs in Hcs. simpl in Hcs.
  destruct s as [xs|xs]; [|done].
  destruct (float_columns (selection cols (columns df))) as [r|e] eqn:Hr;
    [|done].
  injection Hcs as <-. rewrite fmap_cons. f_equal.
  - unfold cells_of. by rewrite Hs.
  - apply IH; [done|]. intros c Hc. apply Hall. by right.
Qed.

Lemma subject_cells_closed_form df cs :
  subject_cells df = Returns cs →
  cs = (λ col, (col, cells_of df col)) <$> existing_grade_columns df.
Proof.
  intros H. apply float_columns_closed_form; [done|].
  intros col. apply existing_selected.
Qed.

(** The rows [transform_data] reduces are the rows of subject scores. *)
Lemma row_at_subject_row df cs i :
  subject_cells df = Returns cs → row_at cs i = subject_row df i.
Proof.
  intros ->%subject_cells_closed_form. unfold row_at, subject_row.
  rewrite <- list_fmap_compose. apply list_fmap_ext. intros _ col _. simpl.
  by rewrite score_cells_of.
Qed.

Lemma score_transformed df cs col i :
  col ∈ grade_columns → score (transformed df cs) col i = score df col i.
Proof.
  intros H. unfold score, float_cell. by rewrite transformed_subject.
Qed.

Lemma subject_row_transformed df cs i :
  subject_row (transformed df cs) i = subject_row df i.
Proof.
  unfold subject_row. rewrite transformed_existing.
  apply list_fmap_ext. intros _ col Hcol%list_elem_of_lookup_2.
  f_equal. apply score_transformed. by apply existing_subseteq in Hcol.
Qed.

Lemma subject_row_scores df i c :
  c ∈ (subject_row df i).*2 →
  ∃ col, col ∈ existing_grade_columns df ∧ c = score df col i.
Proof.
  unfold subject_row. rewrite <- list_fmap_compose.
  intros (col & -> & Hcol)%list_elem_of_fmap. by exists col.
Qed.

(** The derived cells of row [i] of the transformed frame. *)
Lemma transformed_overall_average_cell df cs i :
  subject_cells df = Returns cs → i < nrows df →
  float_cell (transformed df cs) "overall_average" i
  = Some (Num.round1_cell (Num.nanmean (subject_row df i).*2)).
Proof.
  intros Hcs Hi. unfold float_cell. rewrite transformed_overall_average.
  unfold overall_average_of. rewrite !list_lookup_fmap.
  rewrite lookup_seq_lt by done. simpl.
  by rewrite (row_at_subject_row df cs i Hcs).
Qed.

Lemma transformed_best_cell df cs i :
  subject_cells df = Returns cs → i < nrows df →
  object_cell (transformed df cs) "best_subject" i
  = Some (idx_extreme Qgt_bool (subject_row df i)).
Proof.
  intros Hcs Hi. unfold object_cell. rewrite transformed_best_subject.
  unfold best_subject_of. rewrite list_lookup_fmap.
  rewrite lookup_seq_lt by done. simpl.
  by rewrite (row_at_subject_row df cs i Hcs).
Qed.

Lemma transformed_worst_cell df cs i :
  subject_cells df = Returns cs → i < nrows df →
  object_cell (transformed df cs) "worst_subject" i
  = Some (idx_extreme Qlt_bool (subject_row df i)).
Proof.
  intros Hcs Hi. unfold object_cell. rewrite transformed_worst_subject.
  unfold worst_subject_of. rewrite list_lookup_fmap.
  rewrite lookup_seq_lt by done. simpl.
  by rewrite (row_at_subject_row df cs i Hcs).
Qed.

Lemma transformed_letter_cell df cs i :
  object_cell (transformed df cs) "letter_grade" i
  = (λ c, Some (get_letter_grade c))
    <$> float_cell (transformed df cs) "overall_average" i.
Proof.
  unfold object_cell, float_cell.
  rewrite transformed_letter_grade, transformed_overall_average.
  unfold letter_grade_of. by rewrite list_lookup_fmap.
Qed.

Lemma transformed_performance_cell df cs i :
  object_cell (transformed df cs) "performance" i
  = (λ c, Some (get_performance_category c))
    <$> float_cell (transformed df cs) "overall_average" i.
Proof.
  unfold object_cell, float_cell.
  rewrite transformed_performance, transformed_overall_average.
  unfold performance_of_cells. by rewrite list_lookup_fmap.
Qed.

Lemma nanmean_None (xs : list Num.cell) :
  Num.nanmean xs = None ↔ ∀ c, c ∈ xs → c = None.
Proof.
  unfold Num.nanmean, Num.present. split.
  - destruct (omap id xs) as [|p ps] eqn:Hp; [|done]. intros _ c Hc.
    destruct c as [q|]; [|done].
    assert (q ∈ omap id xs) as Hq by (apply list_elem_of_omap; eauto).
    rewrite Hp in Hq. by apply elem_of_nil in Hq.
  - intros H. destruct (omap id xs) as [|p ps] eqn:Hp; [done|].
    assert (p ∈ omap id xs) as Hq by (rewrite Hp; by left).
    apply list_elem_of_omap in Hq as (c & Hc & Hcp). simpl in Hcp.
    rewrite (H c Hc) in Hcp. done.
Qed.

End Rows.

(** ** Aggregation *)

Section Counting.

Lemma sum_counts_insert_fresh (m : gmap label nat) k n :
  m !! k = None → sum_counts (<[k := n]> m) = n + sum_counts m.
Proof.
  intros H. unfold sum_counts. rewrite map_fold_insert_L; [done| |done].
  intros. lia.
Qed.

Lemma sum_counts_lookup (m : gmap label nat) k n :
  m !! k = Some n → sum_counts m = n + sum_counts (delete k m).
Proof.
  intros H. unfold sum_counts.
  rewrite (map_fold_delete_L _ _ k n m); [done| |done].
  intros. lia.
Qed.

(** Counting one more occurrence adds one to the total. *)
Lemma sum_counts_count_label (m : gmap label nat) k :
  sum_counts (count_label m k) = S (sum_counts m).
Proof.
  unfold count_label. destruct (m !! k) as [n|] eqn:Hk; simpl.
  - rewrite <- insert_delete_eq.
    rewrite sum_counts_insert_fresh by apply lookup_delete_eq.
    rewrite (sum_counts_lookup m k n Hk). done.
  - by rewrite sum_counts_insert_fresh.
Qed.

Lemma sum_counts_foldl (l : list label) (m : gmap label nat) :
  sum_counts (foldl count_label m l) = length l + sum_counts m.
Proof.
  revert m. induction l as [|k l IH]; intros m; [done|].
  simpl. rewrite IH, sum_counts_count_label. lia.
Qed.

(** The counts of [value_counts] add up to the number of cells that are
    not NaN. *)
Lemma sum_counts_value_counts (s : Series) :
  sum_counts (value_counts s) = length (omap id (series_labels s)).
Proof.
  unfold value_counts. rewrite sum_counts_foldl.
  unfold sum_counts. rewrite map_fold_empty. lia.
Qed.

Lemma letter_grade_labels cs n :
  omap id (series_labels (Object (letter_grade_of cs n)))
  = (λ c, LStr (get_letter_grade c)) <$> overall_average_of cs n.
Proof.
  unfold letter_grade_of. simpl.
  induction (overall_average_of cs n) as [|x xs IH]; [done|].
  simpl. f_equal. exact IH.
Qed.

Lemma sum_counts_letter_grade cs n :
  sum_counts (value_counts (Object (letter_grade_of cs n))) = n.
Proof.
  rewrite sum_counts_value_counts, letter_grade_labels, length_fmap.
  apply overall_average_length.
Qed.

End Counting.

Section Analysis.
Implicit Types (st : Analyzer) (df : DataFrame) (c : loc).

(** The dict literal of the basic statistics, when the overall average
    holds a value; without one, the rounding of the mean raises. *)
Lemma basic_stats_frame_run df oa :
  lookup_column "overall_average" (columns df) = Some (Float64 oa) →
  Num.present oa ≠ [] →
  basic_stats_frame df
  = (Returns (mkBasicStats (nrows df) (Num.round1_cell (Num.nanmean oa))
                           (Num.nanmax oa) (Num.nanmin oa)), df).
Proof.
  intros H Hp. unfold basic_stats_frame.
  rewrite (bind_returns get _ df df df eq_refl). cbv zeta.
  rewrite (bind_returns _ _ _ _ _ (getitem_Some _ _ _ H)).
  step.
  erewrite bind_returns
    by (unfold lift; rewrite scalar_round1_nanmean by done; reflexivity).
  rewrite (bind_returns _ _ _ _ _ (getitem_Some _ _ _ H)).
  step.
  rewrite (bind_returns _ _ _ _ _ (getitem_Some _ _ _ H)).
  erewrite bind_returns by reflexivity. done.
Qed.

Lemma basic_stats_frame_no_value df oa :
  lookup_column "overall_average" (columns df) = Some (Float64 oa) →
  Num.present oa = [] →
  basic_stats_frame df = (Raises AttributeError, df).
Proof.
  intros H Hp. unfold basic_stats_frame.
  rewrite (bind_returns get _ df df df eq_refl). cbv zeta.
  rewrite (bind_returns _ _ _ _ _ (getitem_Some _ _ _ H)).
  step. apply bind_raises.
  unfold lift. by rewrite scalar_round1_no_value.
Qed.

Lemma subject_average_run st c df subject xs :
  cleaned_data st = Some c → store st !! c = Some df →
  lookup_column subject (columns df) = Some (Float64 xs) →
  Num.present xs ≠ [] →
  ∃ rs, subject_average subject st = (Returns tt, with_results rs st)
    ∧ same_but_subjects (results st) rs.
Proof.
  intros Hc Hdf Hs Hp. unfold subject_average.
  erewrite bind_returns.
  2:{ eapply on_cleaned_read; [exact Hc|exact Hdf|].
      rewrite (bind_returns _ _ _ _ _ (getitem_Some _ _ _ Hs)).
      step. unfold lift. rewrite scalar_round1_nanmean by done.
      reflexivity. }
  eexists. split; [reflexivity|]. by repeat split.
Qed.

(** A subject column without any value: the rounding of its mean
    raises, and [self.results] is left as it is at that point. *)
Lemma subject_average_no_value st c df subject xs :
  cleaned_data st = Some c → store st !! c = Some df →
  lookup_column subject (columns df) = Some (Float64 xs) →
  Num.present xs = [] →
  subject_average subject st = (Raises AttributeError, st).
Proof.
  intros Hc Hdf Hs Hp. unfold subject_average.
  apply bind_raises. eapply on_cleaned_read; [exact Hc|exact Hdf|].
  rewrite (bind_returns _ _ _ _ _ (getitem_Some _ _ _ Hs)).
  step. unfold lift. by rewrite scalar_round1_no_value.
Qed.

(** The loop over the subjects returns and touches the subject averages
    of [self.results] only. *)
Lemma subject_averages_run cols st c df :
  cleaned_data st = Some c → store st !! c = Some df →
  (∀ s, s ∈ cols →
     ∃ xs, lookup_column s (columns df) = Some (Float64 xs)
       ∧ Num.present xs ≠ []) →
  ∃ rs, for_ cols subject_average st = (Returns tt, with_results rs st)
    ∧ same_but_subjects (results st) rs.
Proof.
  revert st. induction cols as [|s cols IH]; intros st Hc Hdf H.
  - exists (results st). split; [|by repeat split].
    cbn [for_]. unfold mret, M_ret, with_results. by rewrite analyzer_eta.
  - destruct (H s) as (xs & Hxs & Hp); [by left|].
    destruct (subject_average_run st c df s xs Hc Hdf Hxs Hp) as (rs1 & R1 & S1).
    destruct (IH (with_results rs1 st)) as (rs2 & R2 & S2); [done|done| |].
    { intros s' Hs'. apply H. by right. }
    exists rs2. split.
    + cbn [for_]. rewrite (bind_returns _ _ _ _ _ R1). exact R2.
    + destruct S1 as (?&?&?&?), S2 as (?&?&?&?). simpl in *.
      repeat split; congruence.
Qed.

(** The loop over the subjects raises at the first subject column
    without any value. *)
Lemma subject_averages_raise cols st c df s0 :
  cleaned_data st = Some c → store st !! c = Some df →
  (∀ s, s ∈ cols → ∃ xs, lookup_column s (columns df) = Some (Float64 xs)) →
  s0 ∈ cols → Num.present (cells_of df s0) = [] →
  ∃ rs, for_ cols subject_average st
        = (Raises AttributeError, with_results rs st)
    ∧ same_but_subjects (results st) rs.
Proof.
  revert st. induction cols as [|s cols IH]; intros st Hc Hdf H Hin Hp.
  { by apply elem_of_nil in Hin. }
  destruct (H s) as [xs Hxs]; [by left|].
  cbn [for_].
  destruct (Num.present xs) as [|p ps] eqn:Hxp.
  - exists (results st). split; [|by repeat split].
    rewrite (bind_raises _ _ _ _ _
               (subject_average_no_value st c df s xs Hc Hdf Hxs Hxp)).
    unfold with_results. by rewrite analyzer_eta.
  - destruct (subject_average_run st c df s xs Hc Hdf Hxs) as (rs1 & R1 & S1).
    { by rewrite Hxp. }
    rewrite (bind_returns _ _ _ _ _ R1).
    apply elem_of_cons in Hin as [->|Hin].
    { unfold cells_of in Hp. rewrite Hxs in Hp. congruence. }
    destruct (IH (with_results rs1 st)) as (rs2 & R2 & S2); [done|done| |done|done|].
    { intros s' Hs'. apply H. by right. }
    exists rs2. split; [exact R2|].
    destruct S1 as (?&?&?&?), S2 as (?&?&?&?). simpl in *.
    repeat split; congruence.
Qed.

(** Either the overall average and every subject column hold a value,
    or one of them holds none. *)
Lemma has_values_dec df (oa : list Num.cell) :
  (Num.present oa ≠ []
   ∧ ∀ s, s ∈ existing_grade_columns df → Num.present (cells_of df s) ≠ [])
  ∨ Num.present oa = []
  ∨ ∃ s, s ∈ existing_grade_columns df ∧ Num.present (cells_of df s) = [].
Proof.
  destruct (Num.present oa) as [|p ps] eqn:Hoa; [by right; left|].
  assert (∀ cols : list string,
            (∀ s, s ∈ cols → Num.present (cells_of df s) ≠ [])
            ∨ ∃ s, s ∈ cols ∧ Num.present (cells_of df s) = []) as H.
  { induction cols as [|s cols IH].
    - left. intros s Hs. by apply elem_of_nil in Hs.
    - destruct (Num.present (cells_of df s)) as [|q qs] eqn:Hs.
      + right. exists s. split; [by left|done].
      + destruct IH as [IH|(s' & Hs' & He)].
        * left. intros s' [->|Hs']%elem_of_cons; [by rewrite Hs|by apply IH].
        * right. exists s'. split; [by right|done]. }
  destruct (H (existing_grade_columns df)) as [Hall|Hex].
  - left. split; [done|exact Hall].
  - right. by right.
Qed.

Lemma groupby_missing_key key val df :
  lookup_column key (columns df) = None →
  groupby_mean_round1 key val df = (Raises (KeyError key), df).
Proof.
  intros H. unfold groupby_mean_round1.
  by rewrite (bind_raises _ _ _ _ _ (getitem_None _ _ H)).
Qed.

Lemma groupby_returns key val df ks xs :
  lookup_column key (columns df) = Some ks →
  lookup_column val (columns df) = Some (Float64 xs) →
  ∃ m, groupby_mean_round1 key val df = (Returns m, df).
Proof.
  intros Hk Hv. unfold groupby_mean_round1.
  rewrite (bind_returns _ _ _ _ _ (getitem_Some _ _ _ Hk)).
  rewrite (bind_returns _ _ _ _ _ (getitem_Some _ _ _ Hv)).
  by eexists.
Qed.

(** [analyze_data] on a frame ready for analysis. The grade distribution
    is assigned before the grouping by grade level is attempted; that
    grouping raises a KeyError when the frame has no [grade_level]
    column, whereas the grouping by gender is guarded. *)
Lemma analyze_data_run st c df oa lg :
  cleaned_data st = Some c → store st !! c = Some df →
  analyzable df oa lg →
  Num.present oa ≠ [] →
  (∀ s, s ∈ existing_grade_columns df → Num.present (cells_of df s) ≠ []) →
  ∃ rs,
    basic_stats rs
    = Some (mkBasicStats (nrows df) (Num.round1_cell (Num.nanmean oa))
                         (Num.nanmax oa) (Num.nanmin oa))
    ∧ grade_distribution rs = Some (value_counts lg)
    ∧ match lookup_column "grade_level" (columns df) with
      | None =>
          analyze_data st
          = (Raises (KeyError "grade_level"), with_results rs st)
          ∧ performance_by_grade rs = performance_by_grade (results st)
          ∧ gender_performance rs = gender_performance (results st)
      | Some _ =>
          analyze_data st = (Returns (Some rs), with_results rs st)
          ∧ is_Some (performance_by_grade rs)
          ∧ (lookup_column "gender" (columns df) = None →
             gender_performance rs = Some ∅)
      end.
Proof.
  intros Hc Hdf [Hne Hnum Hoa Hlg] Hpoa Hpsub.
  set (b := mkBasicStats (nrows df) (Num.round1_cell (Num.nanmean oa))
                         (Num.nanmax oa) (Num.nanmin oa)).
  set (st2 := set_results (set_subject_averages ∅)
                (set_results (set_basic_stats b) st)).
  assert (Hcols : ∀ s, s ∈ existing_grade_columns df →
            ∃ xs, lookup_column s (columns df) = Some (Float64 xs)
              ∧ Num.present xs ≠ []).
  { intros s Hs. destruct (Hnum s Hs) as [xs Hxs]. exists xs.
    split; [done|]. specialize (Hpsub s Hs).
    unfold cells_of in Hpsub. by rewrite Hxs in Hpsub. }
  destruct (subject_averages_run (existing_grade_columns df) st2 c df
              Hc Hdf Hcols) as (rs1 & R1 & Hb1 & Hg1 & Hp1 & Hgp1).
  assert (Hprefix :
    analyze_data st
    = (modify (set_results (set_grade_distribution (value_counts lg)))
       ≫= λ _,
       pg ← on_cleaned (groupby_mean_round1 "grade_level" "overall_average");
       modify (set_results (set_performance_by_grade pg));;
       has_gender ← on_cleaned (df ← get; mret (has_column "gender" df));
       (if has_gender : bool then
          gp ← on_cleaned (groupby_mean_round1 "gender" "overall_average");
          modify (set_results (set_gender_performance gp))
        else modify (set_results (set_gender_performance ∅)));;
       st' ← get;
       mret (Some (results st'))) (with_results rs1 st2)).
  { unfold analyze_data.
    rewrite (bind_returns get _ st st st eq_refl). rewrite Hc.
    erewrite bind_returns
      by (eapply on_cleaned_read; [exact Hc|exact Hdf|reflexivity]).
    rewrite bool_decide_eq_false_2 by done.
    erewrite bind_returns
      by (eapply on_cleaned_read;
          [exact Hc|exact Hdf|by apply basic_stats_frame_run]).
    cbv beta.
    step.
    step.
    fold b. fold st2.
    rewrite (bind_returns _ _ _ _ _ R1).
    erewrite bind_returns.
    2:{ eapply on_cleaned_read; [exact Hc|exact Hdf|].
        by rewrite (bind_returns _ _ _ _ _ (getitem_Some _ _ _ Hlg)). }
    reflexivity. }
  rewrite Hprefix. clear Hprefix.
  step.
  set (st3 := set_results (set_grade_distribution (value_counts lg))
                (with_results rs1 st2)).
  destruct (lookup_column "grade_level" (columns df)) as [ks|] eqn:Hgl.
  - destruct (groupby_returns "grade_level" "overall_average" df ks oa Hgl Hoa)
      as [pg Hpg].
    erewrite bind_returns
      by (eapply on_cleaned_read; [exact Hc|exact Hdf|exact Hpg]).
    cbv beta. step.
    erewrite bind_returns
      by (eapply on_cleaned_read; [exact Hc|exact Hdf|reflexivity]).
    cbv beta.
    destruct (has_column "gender" df) eqn:Hgender.
    + apply has_column_true in Hgender as [gs Hgs].
      destruct (groupby_returns "gender" "overall_average" df gs oa Hgs Hoa)
        as [gp Hgp].
      erewrite (bind_returns (_ ≫= _)).
      2:{ erewrite bind_returns
            by (eapply on_cleaned_read; [exact Hc|exact Hdf|exact Hgp]).
          reflexivity. }
      eexists. split; [|split; [|split; [reflexivity|split]]].
      * simpl. rewrite Hb1. reflexivity.
      * reflexivity.
      * by eexists.
      * intros Hn. by rewrite Hn in Hgs.
    + erewrite bind_returns by reflexivity.
      eexists. split; [|split; [|split; [reflexivity|split]]].
      * simpl. rewrite Hb1. reflexivity.
      * reflexivity.
      * by eexists.
      * done.
  - erewrite bind_raises.
    2:{ eapply on_cleaned_read; [exact Hc|exact Hdf|].
        by apply groupby_missing_key. }
    exists (results st3). split; [|split; [|split; [|split]]].
    + simpl. rewrite Hb1. reflexivity.
    + reflexivity.
    + reflexivity.
    + simpl. by rewrite Hp1.
    + simpl. by rewrite Hgp1.
Qed.

(** [analyze_data] on a frame ready for analysis whose overall average,
    or one of whose subject columns, holds no value: the rounding of the
    mean raises, before the letters are counted. *)
Lemma analyze_data_no_value st c df oa lg :
  cleaned_data st = Some c → store st !! c = Some df →
  analyzable df oa lg →
  (Num.present oa = []
   ∨ ∃ s, s ∈ existing_grade_columns df ∧ Num.present (cells_of df s) = []) →
  ∃ rs, analyze_data st = (Raises AttributeError, with_results rs st)
    ∧ grade_distribution rs = grade_distribution (results st)
    ∧ performance_by_grade rs = performance_by_grade (results st)
    ∧ gender_performance rs = gender_performance (results st).
Proof.
  intros Hc Hdf [Hne Hnum Hoa Hlg] Hnv.
  unfold analyze_data.
  rewrite (bind_returns get _ st st st eq_refl). rewrite Hc.
  erewrite bind_returns
    by (eapply on_cleaned_read; [exact Hc|exact Hdf|reflexivity]).
  rewrite bool_decide_eq_false_2 by done.
  destruct (Num.present oa) as [|p ps] eqn:Hpoa.
  - exists (results st). split; [|done].
    erewrite bind_raises.
    2:{ eapply on_cleaned_read; [exact Hc|exact Hdf|].
        by apply (basic_stats_frame_no_value df oa). }
    unfold with_results. by rewrite analyzer_eta.
  - destruct Hnv as [?|(s0 & Hs0 & Hp0)]; [done|].
    erewrite bind_returns
      by (eapply on_cleaned_read;
          [exact Hc|exact Hdf
          |apply (basic_stats_frame_run df oa); [done|by rewrite Hpoa]]).
    cbv beta. step. step.
    match goal with
    | |- context [(for_ _ subject_average ≫= _) ?s2] =>
        destruct (subject_averages_raise (existing_grade_columns df) s2 c df s0
                    Hc Hdf Hnum Hs0 Hp0) as (rs & R & Hb & Hg & Hp & Hgp)
    end.
    erewrite bind_raises by exact R.
    exists rs. split; [reflexivity|]. simpl in *. done.
Qed.

Lemma float_columns_selection cols cs0 r :
  float_columns (selection cols cs0) = Returns r →
  ∀ col s, col ∈ cols → lookup_column col cs0 = Some s → ∃ xs, s = Float64 xs.
Proof.
  revert r. induction cols as [|col0 cols IH]; intros r Hr col s Hcol Hs.
  { by apply elem_of_nil in Hcol. }
  unfold selection in Hr. cbn [omap list_omap] in Hr.
  fold (selection cols cs0) in Hr.
  destruct (lookup_column col0 cs0) as [s0|] eqn:H0; simpl in Hr.
  - destruct s0 as [xs0|xs0]; [|done].
    destruct (float_columns (selection cols cs0)) as [r'|e] eqn:Hr'; [|done].
    apply elem_of_cons in Hcol as [->|Hcol].
    + rewrite H0 in Hs. injection Hs as <-. by eexists.
    + by apply (IH r' eq_refl col s).
  - apply elem_of_cons in Hcol as [->|Hcol]; [congruence|].
    by apply (IH r Hr col s).
Qed.

(** What [transform_data] leaves is ready for analysis. *)
Lemma transformed_analyzable df cs :
  existing_grade_columns df ≠ [] → subject_cells df = Returns cs →
  analyzable (transformed df cs) (overall_average_of cs (nrows df))
             (Object (letter_grade_of cs (nrows df))).
Proof.
  intros Hne Hcs. split.
  - by rewrite transformed_existing.
  - intros s. rewrite transformed_existing. intros Hs.
    rewrite transformed_subject by by apply existing_subseteq in Hs.
    destruct (existing_selected df s Hs) as [s0 Hs0].
    destruct (float_columns_selection _ _ _ Hcs s s0 Hs Hs0) as [xs ->].
    by exists xs.
  - apply transformed_overall_average.
  - apply transformed_letter_grade.
Qed.

(** In a transformed frame whose subject columns hold a score each, the
    overall average holds a value too. *)
Lemma transformed_has_values df cs :
  existing_grade_columns df ≠ [] → subject_cells df = Returns cs →
  scored (transformed df cs) →
  Num.present (overall_average_of cs (nrows df)) ≠ []
  ∧ ∀ s, s ∈ existing_grade_columns (transformed df cs) →
      Num.present (cells_of (transformed df cs) s) ≠ [].
Proof.
  intros Hne Hcs Hsc. split.
  - destruct (existing_grade_columns df) as [|col cols] eqn:He; [done|].
    assert (Hcol : col ∈ existing_grade_columns df) by (rewrite He; by left).
    destruct (Hsc col) as (i & q & Hi & Hq).
    { by rewrite transformed_existing. }
    rewrite transformed_nrows in Hi.
    rewrite score_transformed in Hq by by apply existing_subseteq in Hcol.
    assert (Hoa := transformed_overall_average_cell df cs i Hcs Hi).
    unfold float_cell in Hoa. rewrite transformed_overall_average in Hoa.
    destruct (Num.nanmean (subject_row df i).*2) as [m|] eqn:Hm.
    + intros Hp.
      assert (Num.round1 m ∈ Num.present (overall_average_of cs (nrows df)))
        as Hin.
      { apply list_elem_of_omap. exists (Some (Num.round1 m)).
        split; [by eapply list_elem_of_lookup_2|done]. }
      rewrite Hp in Hin. by apply elem_of_nil in Hin.
    + assert (Some q = None) as Hq'; [|done].
      apply (proj1 (nanmean_None _) Hm).
      unfold subject_row. rewrite <- list_fmap_compose.
      apply list_elem_of_fmap. exists col. simpl. by rewrite Hq.
  - intros s Hs. destruct (Hsc s Hs) as (i & q & _ & Hq).
    by apply (score_present _ s i q).
Qed.

(** What [analyze_data] leaves of the grade distribution on a frame
    ready for analysis that holds the values the means need. *)
Lemma analyze_data_counts st c df cs :
  cleaned_data st = Some c → store st !! c = Some (transformed df cs) →
  existing_grade_columns df ≠ [] → subject_cells df = Returns cs →
  Num.present (overall_average_of cs (nrows df)) ≠ [] →
  (∀ s, s ∈ existing_grade_columns (transformed df cs) →
     Num.present (cells_of (transformed df cs) s) ≠ []) →
  counts_every_record st c.
Proof.
  intros Hc Hlook Hne Hcs Hpoa Hpsub.
  destruct (analyze_data_run st c _ _ _ Hc Hlook
              (transformed_analyzable df cs Hne Hcs) Hpoa Hpsub)
    as (rs & Hbs & Hgd & Hrun).
  exists (value_counts (Object (letter_grade_of cs (nrows df)))).
  rewrite (lookup_total_correct _ _ _ Hlook).
  rewrite transformed_nrows, sum_counts_letter_grade.
  destruct (lookup_column "grade_level" (columns (transformed df cs)));
    destruct Hrun as (-> & _); simpl.
  - split; [exact Hgd|]. split; [done|].
    intros rs' [= <-]. split; [exact Hgd|]. by rewrite Hbs.
  - split; [exact Hgd|]. split; [done|]. by intros rs' [=].
Qed.

(** (C8) For every transformed dataset, the letter grades of the data
    counted by value add up to the number of records, and so do the
    counts of the grade distribution that [analyze_data] assigns to
    [self.results], which is also the total it reports. The analysis
    gets to count the letters when every subject column holds a score;
    it fails to only by raising AttributeError, at the rounding of the
    mean of a column without any value. *)
Theorem grade_distribution_sums_to_total st c st' :
  transform_data st = (Returns (Some c), st') →
  (∃ s, lookup_column "letter_grade" (columns (store st' !!! c)) = Some s
     ∧ sum_counts (value_counts s) = nrows (store st' !!! c))
  ∧ (scored (store st' !!! c) → counts_every_record st' c)
  ∧ ((analyze_data st').1 = Raises AttributeError ∨ counts_every_record st' c).
Proof.
  intros H. destruct (transform_data_frame st c st' H)
    as (df & cs & Hdf & Hc & Hne & Hcs & Hstore & Hframe).
  assert (Hlook : store st' !! c = Some (transformed df cs)).
  { rewrite Hstore. apply lookup_insert_eq. }
  rewrite Hframe. split; [|split].
  - exists (Object (letter_grade_of cs (nrows df))).
    split; [apply transformed_letter_grade|].
    by rewrite transformed_nrows, sum_counts_letter_grade.
  - intros Hsc.
    destruct (transformed_has_values df cs Hne Hcs Hsc) as [Hpoa Hpsub].
    by apply (analyze_data_counts st' c df cs).
  - destruct (has_values_dec (transformed df cs)
                (overall_average_of cs (nrows df))) as [[Hpoa Hpsub]|Hnv].
    + right. by apply (analyze_data_counts st' c df cs).
    + left.
      destruct (analyze_data_no_value st' c _ _ _ Hc Hlook
                  (transformed_analyzable df cs Hne Hcs) Hnv) as (rs & -> & _).
      done.
Qed.

(** (C2) For every transformed dataset without a [grade_level] column,
    [analyze_data] does not produce an empty map for the performance by
    grade level: it raises, and that key of [self.results] is left as it
    was. When every subject column holds a score the analysis gets as
    far as the grouping, which raises KeyError('grade_level'); otherwise
    it has raised AttributeError before, at the rounding of the mean of
    a column without any value. *)
Theorem analyze_raises_without_grade_level st c st' :
  transform_data st = (Returns (Some c), st') →
  lookup_column "grade_level" (columns (store st' !!! c)) = None →
  ((analyze_data st').1 = Raises (KeyError "grade_level")
   ∨ (analyze_data st').1 = Raises AttributeError)
  ∧ performance_by_grade (results (analyze_data st').2)
    = performance_by_grade (results st')
  ∧ (scored (store st' !!! c) →
     (analyze_data st').1 = Raises (KeyError "grade_level")).
Proof.
  intros H. destruct (transform_data_frame st c st' H)
    as (df & cs & Hdf & Hc & Hne & Hcs & Hstore & Hframe).
  assert (Hlook : store st' !! c = Some (transformed df cs)).
  { rewrite Hstore. apply lookup_insert_eq. }
  rewrite Hframe. intros Hgl.
  assert (Hrun :
    Num.present (overall_average_of cs (nrows df)) ≠ [] →
    (∀ s, s ∈ existing_grade_columns (transformed df cs) →
       Num.present (cells_of (transformed df cs) s) ≠ []) →
    (analyze_data st').1 = Raises (KeyError "grade_level")
    ∧ performance_by_grade (results (analyze_data st').2)
      = performance_by_grade (results st')).
  { intros Hpoa Hpsub.
    destruct (analyze_data_run st' c _ _ _ Hc Hlook
                (transformed_analyzable df cs Hne Hcs) Hpoa Hpsub)
      as (rs & Hbs & Hgd & Hrun).
    rewrite Hgl in Hrun. destruct Hrun as (-> & Hp & _). by split. }
  split; [|split].
  - destruct (has_values_dec (transformed df cs)
                (overall_average_of cs (nrows df))) as [[Hpoa Hpsub]|Hnv].
    + left. apply (Hrun Hpoa Hpsub).
    + right.
      destruct (analyze_data_no_value st' c _ _ _ Hc Hlook
                  (transformed_analyzable df cs Hne Hcs) Hnv) as (rs & -> & _).
      done.
  - destruct (has_values_dec (transformed df cs)
                (overall_average_of cs (nrows df))) as [[Hpoa Hpsub]|Hnv].
    + apply (Hrun Hpoa Hpsub).
    + destruct (analyze_data_no_value st' c _ _ _ Hc Hlook
                  (transformed_analyzable df cs Hne Hcs) Hnv)
        as (rs & -> & _ & Hp & _).
      done.
  - intros Hsc.
    destruct (transformed_has_values df cs Hne Hcs Hsc) as [Hpoa Hpsub].
    apply (Hrun Hpoa Hpsub).
Qed.

(** The sibling grouping: without a [gender] column, and with a
    [grade_level] column, [analyze_data] returns and the gender
    performance is the empty map. *)
Lemma analyze_without_gender st c st' :
  transform_data st = (Returns (Some c), st') →
  scored (store st' !!! c) →
  is_Some (lookup_column "grade_level" (columns (store st' !!! c))) →
  lookup_column "gender" (columns (store st' !!! c)) = None →
  ∃ rs, (analyze_data st').1 = Returns (Some rs)
    ∧ gender_performance rs = Some ∅.
Proof.
  intros H. destruct (transform_data_frame st c st' H)
    as (df & cs & Hdf & Hc & Hne & Hcs & Hstore & Hframe).
  assert (Hlook : store st' !! c = Some (transformed df cs)).
  { rewrite Hstore. apply lookup_insert_eq. }
  rewrite Hframe. intros Hsc [ks Hgl] Hg.
  destruct (transformed_has_values df cs Hne Hcs Hsc) as [Hpoa Hpsub].
  destruct (analyze_data_run st' c _ _ _ Hc Hlook
              (transformed_analyzable df cs Hne Hcs) Hpoa Hpsub)
    as (rs & Hbs & Hgd & Hrun).
  rewrite Hgl in Hrun.
  destruct Hrun as (-> & _ & Hgp). exists rs. split; [done|by apply Hgp].
Qed.

End Analysis.

(** The grade distribution of the sample of two students. *)
Lemma grade_distribution_sums_to_total_witness :
  counts_every_record (transformed_state no_gender_frame) 1.
Proof.
  destruct (grade_distribution_sums_to_total (cleaned no_gender_frame) 1
              (transformed_state no_gender_frame)) as (_ & Hcount & _).
  - by vm_compute.
  - apply Hcount. apply scored_b_spec. by vm_compute.
Defined.

(** The analysis of the sample without grade level. *)
Lemma analyze_raises_without_grade_level_witness :
  (analyze_data (transformed_state no_grade_level_frame)).1
  = Raises (KeyError "grade_level")
  ∧ performance_by_grade
      (results (analyze_data (transformed_state no_grade_level_frame)).2)
    = performance_by_grade (results (transformed_state no_grade_level_frame)).
Proof.
  destruct (analyze_raises_without_grade_level (cleaned no_grade_level_frame) 1
              (transformed_state no_grade_level_frame))
    as (_ & Hp & Hk); [by vm_compute..|].
  split; [|exact Hp]. apply Hk, scored_b_spec. by vm_compute.
Defined.

(** The scenario of the specification: Math and Science scores of 100 and
    60 for two students give the averages 100.0 and 60.0, the grades A and
    D, one of each, and the subject averages 80.0. *)
Example analyze_two_students :
  ∃ rs, (analyze_data (transformed_state no_gender_frame)).1 = Returns (Some rs)
    ∧ float_cell (store (transformed_state no_gender_frame) !!! 1)
        "overall_average" 0 = Some (Some (1000 # 10))
    ∧ float_cell (store (transformed_state no_gender_frame) !!! 1)
        "overall_average" 1 = Some (Some (600 # 10))
    ∧ grade_distribution rs = Some {[LStr "A" := 1; LStr "D" := 1]}
    ∧ subject_averages rs
      = Some {["Math" := Some (800 # 10); "Science" := Some (800 # 10)]}
    ∧ gender_performance rs = Some ∅.
Proof.
  eexists. split; [by vm_compute|]. repeat split; by vm_compute.
Qed.

(** On the sample without grade level, the guarded sibling is never
    reached: the analysis stops at the grouping by grade level. *)
Example analyze_no_grade_level :
  analyze_data (transformed_state no_grade_level_frame)
  = (Raises (KeyError "grade_level"),
     (analyze_data (transformed_state no_grade_level_frame)).2)
  ∧ gender_performance
      (results (analyze_data (transformed_state no_grade_level_frame)).2) = None.
Proof. split; by vm_compute. Qed.

(** On the sample whose Math column is empty, the analysis raises at the
    subject averages, where the mean of no value has no [round]: the
    basic statistics are assigned, no grade distribution is. *)
Example analyze_empty_subject_column :
  (analyze_data (transformed_state all_missing_frame)).1 = Raises AttributeError
  ∧ is_Some (basic_stats
               (results (analyze_data (transformed_state all_missing_frame)).2))
  ∧ grade_distribution
      (results (analyze_data (transformed_state all_missing_frame)).2) = None.
Proof. split; [by vm_compute|]. split; [|by vm_compute]. by eexists. Qed.

(** The whole pipeline on the sample with one missing Math score. *)
Example run_pipeline_math :
  ∃ rs, (run_pipeline const_repr math_frame (init ∅)).1 = Returns (Some rs)
    ∧ basic_stats rs
      = Some (mkBasicStats 3 (Some (900 # 10)) (Some (1000 # 10)) (Some (800 # 10)))
    ∧ grade_distribution rs = Some {[LStr "A" := 2; LStr "B" := 1]}
    ∧ performance_by_grade rs
      = Some {[LStr "10th" := Some (800 # 10); LStr "9th" := Some (950 # 10)]}
    ∧ gender_performance rs
      = Some {[LStr "Male" := Some (800 # 10); LStr "Female" := Some (950 # 10)]}.
Proof.
  eexists. split; [by vm_compute|]. repeat split; by vm_compute.
Qed.

(** * More of the cleaning, the transformation, the analysis and the
      dashboard *)

Local Open Scope list_scope.

Section Strings.
Implicit Types (s t : string) (a : ascii).

Lemma append_cons a s t : String a s +:+ t = String a (s +:+ t).
Proof. reflexivity. Qed.

Lemma append_nil_r s : s +:+ "" = s.
Proof. induction s as [|a s IH]; [done|]. by rewrite append_cons, IH. Qed.

Lemma append_assoc s t u : (s +:+ t) +:+ u = s +:+ (t +:+ u).
Proof. induction s as [|a s IH]; [done|]. by rewrite !append_cons, IH. Qed.

Lemma rev_app_append s t : String.rev_app s t = String.rev s +:+ t.
Proof.
  unfold String.rev. revert t. induction s as [|a s IH]; intros t; [done|].
  simpl. rewrite (IH (String a t)), (IH (String a "")).
  by rewrite append_assoc.
Qed.

Lemma rev_cons a s : String.rev (String a s) = String.rev s +:+ String a "".
Proof. unfold String.rev at 1. simpl. apply rev_app_append. Qed.

Lemma rev_append s t : String.rev (s +:+ t) = String.rev t +:+ String.rev s.
Proof.
  induction s as [|a s IH].
  - change ("" +:+ t) with t. by rewrite append_nil_r.
  - rewrite append_cons, !rev_cons, IH. apply append_assoc.
Qed.

Lemma rev_involutive s : String.rev (String.rev s) = s.
Proof.
  induction s as [|a s IH]; [done|].
  rewrite rev_cons, rev_append, IH. done.
Qed.

Lemma starts_with_space_append s t :
  s ≠ "" → starts_with_space (s +:+ t) = starts_with_space s.
Proof. by destruct s. Qed.

Lemma rev_nonempty a s : String.rev (String a s) ≠ "".
Proof. rewrite rev_cons. by destruct (String.rev s). Qed.

Lemma ends_with_space_rev s :
  ends_with_space s = starts_with_space (String.rev s).
Proof.
  induction s as [|a s IH]; [done|].
  rewrite rev_cons. destruct s as [|b s]; [done|].
  change (ends_with_space (String a (String b s)))
    with (ends_with_space (String b s)).
  rewrite IH. symmetry. apply starts_with_space_append, rev_nonempty.
Qed.

(** [lstrip] removes a prefix, leaves no leading white space, and leaves a
    string without leading white space alone. *)
Lemma lstrip_suffix s : ∃ p, s = p +:+ Str.lstrip s.
Proof.
  induction s as [|a s [p Hp]]; [by exists ""|].
  simpl. destruct (Str.is_space a).
  - exists (String a p). by rewrite append_cons, <- Hp.
  - by exists "".
Qed.

Lemma lstrip_starts s : starts_with_space (Str.lstrip s) = false.
Proof.
  induction s as [|a s IH]; [done|].
  simpl. by destruct (Str.is_space a) eqn:E; [|simpl].
Qed.

Lemma lstrip_id s : starts_with_space s = false → Str.lstrip s = s.
Proof. destruct s as [|a s]; [done|]. simpl. by intros ->. Qed.

Lemma rstrip_prefix s : ∃ u, s = Str.rstrip s +:+ u.
Proof.
  unfold Str.rstrip. destruct (lstrip_suffix (String.rev s)) as [p Hp].
  exists (String.rev p).
  rewrite <- rev_append, <- Hp. by rewrite rev_involutive.
Qed.

Lemma rstrip_ends s : ends_with_space (Str.rstrip s) = false.
Proof.
  unfold Str.rstrip. rewrite ends_with_space_rev, rev_involutive.
  apply lstrip_starts.
Qed.

Lemma rstrip_id s : ends_with_space s = false → Str.rstrip s = s.
Proof.
  intros H. unfold Str.rstrip. rewrite ends_with_space_rev in H.
  rewrite (lstrip_id _ H). apply rev_involutive.
Qed.

Lemma rstrip_starts s :
  starts_with_space s = false → starts_with_space (Str.rstrip s) = false.
Proof.
  intros H. destruct (rstrip_prefix s) as [u Hu].
  destruct (Str.rstrip s) as [|a r]; [done|].
  rewrite Hu in H. exact H.
Qed.

(** [strip] leaves no white space at either end. *)
Lemma strip_trimmed s : trimmed (Str.strip s).
Proof.
  split.
  - apply rstrip_starts, lstrip_starts.
  - apply rstrip_ends.
Qed.

Lemma strip_id s : trimmed s → Str.strip s = s.
Proof.
  intros [H1 H2]. unfold Str.strip. rewrite (lstrip_id _ H1).
  by apply rstrip_id.
Qed.

Lemma strip_idem s : Str.strip (Str.strip s) = Str.strip s.
Proof. apply strip_id, strip_trimmed. Qed.

End Strings.

Section Casing.
Implicit Types (s t : string) (a : ascii).

Lemma is_space_lower a : Str.is_space (Str.lower_ascii a) = Str.is_space a.
Proof. by destruct a as [[] [] [] [] [] [] [] []]. Qed.

Lemma is_upper_lower a : is_upper (Str.lower_ascii a) = false.
Proof. by destruct a as [[] [] [] [] [] [] [] []]. Qed.

Lemma lower_ascii_id a : is_upper a = false → Str.lower_ascii a = a.
Proof. unfold is_upper, Str.lower_ascii. by intros ->. Qed.

(** [lower] leaves no capital letter, and leaves a string without capital
    letters alone. *)
Lemma lower_no_upper s : no_upper (Str.lower s) = true.
Proof.
  induction s as [|a s IH]; [done|].
  simpl. by rewrite is_upper_lower, IH.
Qed.

Lemma lower_id s : no_upper s = true → Str.lower s = s.
Proof.
  induction s as [|a s IH]; [done|].
  simpl. intros [Ha Hs]%andb_true_iff. apply negb_true_iff in Ha.
  by rewrite (lower_ascii_id a Ha), IH.
Qed.

Lemma lower_idem s : Str.lower (Str.lower s) = Str.lower s.
Proof. apply lower_id, lower_no_upper. Qed.

Lemma lower_append s t : Str.lower (s +:+ t) = Str.lower s +:+ Str.lower t.
Proof.
  induction s as [|a s IH]; [done|].
  rewrite append_cons. simpl. by rewrite IH.
Qed.

Lemma lower_rev s : Str.lower (String.rev s) = String.rev (Str.lower s).
Proof.
  induction s as [|a s IH]; [done|].
  simpl. by rewrite !rev_cons, lower_append, IH.
Qed.

Lemma lower_lstrip s : Str.lower (Str.lstrip s) = Str.lstrip (Str.lower s).
Proof.
  induction s as [|a s IH]; [done|].
  simpl. rewrite is_space_lower. by destruct (Str.is_space a).
Qed.

(** Lower-casing and stripping commute. *)
Lemma lower_strip s : Str.lower (Str.strip s) = Str.strip (Str.lower s).
Proof.
  unfold Str.strip, Str.rstrip.
  by rewrite lower_rev, lower_lstrip, lower_rev, lower_lstrip.
Qed.

Lemma prefix_TH a s : String.prefix "TH" (String a s) = true → is_upper a = true.
Proof.
  cbn [String.prefix]. destruct (ascii_dec "T" a) as [<-|]; [done|by intros].
Qed.

Lemma replace_TH_no_upper s :
  no_upper s = true → Str.replace "TH" "th" s = s.
Proof.
  unfold Str.replace. induction s as [|a s IH]; [done|].
  intros H. simpl in H. apply andb_true_iff in H as [Ha Hs].
  cbn [Str.replace_from].
  destruct (String.prefix "TH" (String a s)) eqn:Hp.
  - apply prefix_TH in Hp. by rewrite Hp in Ha.
  - by rewrite IH.
Qed.

Lemma lower_replace_th k s :
  Str.lower (Str.replace_from "th" "TH" k s) = Str.lower (drop_chars k s).
Proof.
  revert k. induction s as [|a s IH]; intros k.
  { by destruct k. }
  destruct k as [|k]; cbn [Str.replace_from drop_chars].
  - destruct (String.prefix "th" (String a s)) eqn:Hp.
    + cbn [String.prefix] in Hp. destruct (ascii_dec "t" a) as [<-|]; [|done].
      destruct s as [|b s]; [done|]. cbn [String.prefix] in Hp.
      destruct (ascii_dec "h" b) as [<-|]; [|done].
      rewrite lower_append, IH. done.
    + simpl. by rewrite (IH 0).
  - apply IH.
Qed.

End Casing.

Section Noise.
Implicit Types (x : string).

(** main.py line 108: after [.str.lower()], [.str.replace('TH', 'th')]
    finds nothing to replace. *)
Lemma replace_after_lower_noop x :
  Str.replace "TH" "th" (Str.lower x) = Str.lower x.
Proof. apply replace_TH_no_upper, lower_no_upper. Qed.

Lemma normalize_level_eq x : normalize_level x = Str.strip (Str.lower x).
Proof.
  unfold normalize_level. by rewrite replace_after_lower_noop, lower_strip.
Qed.

(** Stripping undoes the padding of a name that has no white space at
    its ends. *)
Lemma strip_pad_name x : trimmed x → Str.strip (pad_name x) = x.
Proof.
  intros [Hs He]. unfold pad_name, Str.strip.
  change (Str.lstrip ("  " +:+ x +:+ "  ")) with (Str.lstrip (x +:+ "  ")).
  destruct x as [|a x]; [done|].
  rewrite lstrip_id by done.
  unfold Str.rstrip. rewrite rev_append.
  change (Str.lstrip (String.rev "  " +:+ String.rev (String a x)))
    with (Str.lstrip (String.rev (String a x))).
  by apply rstrip_id.
Qed.

(** The grade level is recovered from its upper-cased variant. *)
Lemma normalize_upper_th x :
  trimmed x → no_upper x = true → normalize_level (upper_th x) = x.
Proof.
  intros Ht Hl. rewrite normalize_level_eq. unfold upper_th, Str.replace.
  rewrite lower_replace_th. simpl. rewrite (lower_id x Hl).
  by apply strip_id.
Qed.

End Noise.

(** ** Computations that only read the data *)

Section ReadOnly.
Implicit Types (st : Analyzer) (df : DataFrame) (c : loc).

Lemma reads_only_ret {A} (a : A) : reads_only (mret a).
Proof. by intros df. Qed.

Lemma reads_only_get : reads_only get.
Proof. by intros df. Qed.

Lemma reads_only_lift {A} (o : outcome A) : reads_only (lift o).
Proof. by intros df. Qed.

Lemma reads_only_raise {A} e : reads_only (raise e : M DataFrame A).
Proof. by intros df. Qed.

Lemma reads_only_getitem col : reads_only (getitem col).
Proof.
  intros df. unfold getitem. by destruct (lookup_column col (columns df)).
Qed.

Lemma reads_only_bind {A B} (m : M DataFrame A) (k : A → M DataFrame B) :
  reads_only m → (∀ a, reads_only (k a)) → reads_only (m ≫= k).
Proof.
  intros Hm Hk df. unfold mbind, M_bind. specialize (Hm df).
  destruct (m df) as [[a|e] df1]; simpl in Hm; subst df1; [apply Hk|done].
Qed.

Lemma reads_only_basic_stats_frame : reads_only basic_stats_frame.
Proof.
  unfold basic_stats_frame.
  repeat first
    [ apply reads_only_bind; [|intros ?]
    | apply reads_only_get | apply reads_only_getitem
    | apply reads_only_lift | apply reads_only_ret ].
Qed.

Lemma reads_only_groupby key val : reads_only (groupby_mean_round1 key val).
Proof.
  unfold groupby_mean_round1.
  apply reads_only_bind; [apply reads_only_getitem|]. intros ks.
  apply reads_only_bind; [apply reads_only_getitem|]. intros [xs|xs].
  - apply reads_only_ret.
  - apply reads_only_raise.
Qed.

Lemma results_only_ret {A} c df (a : A) : results_only c df (mret a).
Proof.
  intros st _ _. exists (results st). simpl.
  unfold with_results. by rewrite analyzer_eta.
Qed.

Lemma results_only_get c df : results_only c df get.
Proof.
  intros st _ _. exists (results st). simpl.
  unfold with_results. by rewrite analyzer_eta.
Qed.

Lemma results_only_modify c df f : results_only c df (modify (set_results f)).
Proof. intros st _ _. by exists (f (results st)). Qed.

Lemma results_only_on_cleaned {A} c df (m : M DataFrame A) :
  reads_only m → results_only c df (on_cleaned m).
Proof.
  intros Hm st Hc Hdf. exists (results st).
  rewrite (on_cleaned_read m st c df (m df).1 Hc Hdf).
  - simpl. unfold with_results. by rewrite analyzer_eta.
  - rewrite <- (Hm df) at 3. by destruct (m df).
Qed.

Lemma results_only_bind {A B} c df (m : M Analyzer A) (k : A → M Analyzer B) :
  results_only c df m → (∀ a, results_only c df (k a)) →
  results_only c df (m ≫= k).
Proof.
  intros Hm Hk st Hc Hdf. unfold mbind, M_bind.
  destruct (Hm st Hc Hdf) as [rs Hrs].
  destruct (m st) as [[a|e] st1]; simpl in Hrs; subst st1.
  - destruct (Hk a (with_results rs st) Hc Hdf) as [rs' Hrs'].
    exists rs'. by rewrite Hrs'.
  - by exists rs.
Qed.

Lemma results_only_for {A} c df (l : list A) (body : A → M Analyzer unit) :
  (∀ x, results_only c df (body x)) → results_only c df (for_ l body).
Proof.
  intros Hb. induction l as [|x l IH]; cbn [for_].
  - apply results_only_ret.
  - apply results_only_bind; [apply Hb|]. by intros _.
Qed.

Lemma results_only_subject_average c df subject :
  results_only c df (subject_average subject).
Proof.
  unfold subject_average. apply results_only_bind.
  - apply results_only_on_cleaned.
    repeat first
      [ apply reads_only_bind; [|intros ?]
      | apply reads_only_getitem | apply reads_only_lift ].
  - intros v. apply results_only_modify.
Qed.

(** [analyze_data] changes at most [self.results], whatever it returns
    or raises. *)
Lemma results_only_analyze_data c df : results_only c df analyze_data.
Proof.
  unfold analyze_data.
  apply results_only_bind; [apply results_only_get|]. intros st0.
  destruct (cleaned_data st0); [|apply results_only_ret].
  apply results_only_bind.
  { apply results_only_on_cleaned.
    apply reads_only_bind; [apply reads_only_get|]. intros ?.
    apply reads_only_ret. }
  intros existing. case_bool_decide; [apply results_only_ret|].
  apply results_only_bind.
  { apply results_only_on_cleaned, reads_only_basic_stats_frame. }
  intros b.
  apply results_only_bind; [apply results_only_modify|]. intros _.
  apply results_only_bind; [apply results_only_modify|]. intros _.
  apply results_only_bind.
  { apply results_only_for. intros s. apply results_only_subject_average. }
  intros _.
  apply results_only_bind.
  { apply results_only_on_cleaned.
    apply reads_only_bind; [apply reads_only_getitem|]. intros ?.
    apply reads_only_ret. }
  intros gd.
  apply results_only_bind; [apply results_only_modify|]. intros _.
  apply results_only_bind.
  { apply results_only_on_cleaned, reads_only_groupby. }
  intros pg.
  apply results_only_bind; [apply results_only_modify|]. intros _.
  apply results_only_bind.
  { apply results_only_on_cleaned.
    apply reads_only_bind; [apply reads_only_get|]. intros ?.
    apply reads_only_ret. }
  intros [|].
  - apply results_only_bind.
    { apply results_only_bind.
      - apply results_only_on_cleaned, reads_only_groupby.
      - intros gp. apply results_only_modify. }
    intros _. apply results_only_bind; [apply results_only_get|].
    intros ?. apply results_only_ret.
  - apply results_only_bind; [apply results_only_modify|]. intros _.
    apply results_only_bind; [apply results_only_get|].
    intros ?. apply results_only_ret.
Qed.

End ReadOnly.

(** ** Text columns after cleaning *)

Section TextColumns.
Variable repr : Q → string.
Implicit Types (col : string) (s : Series) (df : DataFrame).

Lemma astype_str_strings s :
  astype_str repr s = Object (Some <$> astype_strings repr s).
Proof. destruct s as [xs|xs]; simpl; by rewrite <- list_fmap_compose. Qed.

Lemma strip_astype s :
  str_method Str.strip (astype_str repr s)
  = Returns (Object ((λ x, Some (Str.strip x)) <$> astype_strings repr s)).
Proof.
  rewrite astype_str_strings. simpl. by rewrite <- list_fmap_compose.
Qed.

Lemma strip_column_run col df :
  strip_column repr col df = (Returns tt, stripped repr col df).
Proof.
  unfold strip_column, stripped.
  rewrite (bind_returns get _ df df df eq_refl).
  destruct (lookup_column col (columns df)) as [s|] eqn:Hs.
  - rewrite (proj2 (has_column_true col df)) by by eexists.
    unfold when.
    rewrite (bind_returns _ _ _ _ _ (getitem_Some _ _ _ Hs)).
    rewrite strip_astype. by step.
  - by rewrite (proj2 (has_column_false col df)).
Qed.

Lemma stripped_lookup_ne col col' df :
  col ≠ col' →
  lookup_column col' (columns (stripped repr col df)) = lookup_column col' (columns df).
Proof.
  intros Hne. unfold stripped.
  destruct (lookup_column col (columns df)); [|done].
  by apply lookup_set_column_ne.
Qed.

Lemma stripped_lookup_eq col df :
  lookup_column col (columns (stripped repr col df))
  = (λ s, Object ((λ x, Some (Str.strip x)) <$> astype_strings repr s))
    <$> lookup_column col (columns df).
Proof.
  unfold stripped.
  destruct (lookup_column col (columns df)) as [s|] eqn:Hs; simpl.
  - apply lookup_set_column_eq.
  - done.
Qed.

(** Steps 1 and 2: every text column that exists is replaced by its
    cleaned text. *)
Lemma text_steps_content df :
  ∃ df', (for_ text_columns (strip_column repr);; standardize_grade_level) df
         = (Returns tt, df')
    ∧ ∀ col s, col ∈ text_columns →
        lookup_column col (columns df) = Some s →
        lookup_column col (columns df') = Some (cleaned_text repr col s).
Proof.
  set (df3 := stripped repr "gender"
               (stripped repr "grade_level" (stripped repr "name" df))).
  assert (Hloop : for_ text_columns (strip_column repr) df = (Returns tt, df3)).
  { unfold text_columns. cbn [for_].
    rewrite (bind_returns _ _ _ _ _ (strip_column_run "name" df)).
    rewrite (bind_returns _ _ _ _ _ (strip_column_run "grade_level" _)).
    by rewrite (bind_returns _ _ _ _ _ (strip_column_run "gender" _)). }
  assert (Hname : lookup_column "name" (columns df3)
                  = (λ s, cleaned_text repr "name" s)
                    <$> lookup_column "name" (columns df)).
  { unfold df3. rewrite !stripped_lookup_ne by done.
    by rewrite stripped_lookup_eq. }
  assert (Hgender : lookup_column "gender" (columns df3)
                    = (λ s, cleaned_text repr "gender" s)
                      <$> lookup_column "gender" (columns df)).
  { unfold df3. rewrite stripped_lookup_eq.
    by rewrite !stripped_lookup_ne by done. }
  assert (Hlevel : lookup_column "grade_level" (columns df3)
                   = (λ s, Object ((λ x, Some (Str.strip x))
                                     <$> astype_strings repr s))
                     <$> lookup_column "grade_level" (columns df)).
  { unfold df3. rewrite stripped_lookup_ne by done.
    rewrite stripped_lookup_eq. by rewrite stripped_lookup_ne by done. }
  rewrite (bind_returns _ _ _ _ _ Hloop).
  unfold standardize_grade_level.
  rewrite (bind_returns get _ df3 df3 df3 eq_refl).
  destruct (lookup_column "grade_level" (columns df)) as [s0|] eqn:Hs0;
    simpl in Hlevel.
  - rewrite (proj2 (has_column_true "grade_level" df3)) by by eexists.
    unfold when.
    rewrite (bind_returns _ _ _ _ _ (getitem_Some _ _ _ Hlevel)).
    cbn [str_method]. step. step.
    eexists. split; [reflexivity|].
    intros col s Hcol Hs. unfold text_columns in Hcol.
    repeat (apply elem_of_cons in Hcol as [->|Hcol]).
    + rewrite lookup_set_column_ne by done. by rewrite Hname, Hs.
    + rewrite lookup_set_column_eq. rewrite Hs0 in Hs. injection Hs as <-.
      unfold cleaned_text.
      destruct (decide ("grade_level" = "grade_level")) as [_|[]]; [|done].
      do 2 f_equal. rewrite <- !list_fmap_compose. done.
    + rewrite lookup_set_column_ne by done. by rewrite Hgender, Hs.
    + by apply elem_of_nil in Hcol.
  - rewrite (proj2 (has_column_false "grade_level" df3)) by done.
    exists df3. split; [done|].
    intros col s Hcol Hs. unfold text_columns in Hcol.
    repeat (apply elem_of_cons in Hcol as [->|Hcol]).
    + by rewrite Hname, Hs.
    + congruence.
    + by rewrite Hgender, Hs.
    + by apply elem_of_nil in Hcol.
Qed.

(** [clean_frame] on the text columns. *)
Lemma clean_frame_text df :
  numeric_subjects df →
  ∃ df', clean_frame repr df = (Returns tt, df')
    ∧ ∀ col s, col ∈ text_columns →
        lookup_column col (columns df) = Some s →
        lookup_column col (columns df') = Some (cleaned_text repr col s).
Proof.
  intros Hnum.
  destruct (text_steps_spec repr df) as (df1 & R1 & S1).
  destruct (text_steps_content df) as (df1' & R1' & T1).
  assert (df1' = df1) as -> by congruence.
  destruct (impute_and_round_spec df1) as (df2 & R2 & S2 & _).
  { by eapply numeric_subjects_same_outside. }
  exists df2. split.
  { unfold clean_frame.
    change (for_ text_columns (strip_column repr);;
            standardize_grade_level;; impute_and_round)
      with (for_ text_columns (strip_column repr) ≫= λ _,
            standardize_grade_level ≫= λ _, impute_and_round).
    unfold mbind at 1, M_bind at 1.
    revert R1. unfold mbind at 1, M_bind at 1.
    destruct (for_ text_columns (strip_column repr) df) as [[[]|e] d0];
      [|done].
    intros R1. by rewrite (bind_returns _ _ _ _ _ R1). }
  intros col s Hcol Hs. destruct S2 as (_ & _ & L2).
  rewrite L2; [by apply T1|].
  revert Hcol. unfold grade_columns, text_columns. set_solver.
Qed.

End TextColumns.

(** ** The extreme of a row *)

Section Extreme.
Variable leq : Q → Q → bool.
Hypothesis leq_total : ∀ x y, leq x y = false → leq y x = true.
Hypothesis leq_trans : ∀ x y z, leq x y = true → leq y z = true → leq x z = true.

Lemma found_step seen acc c :
  extreme_found leq seen acc →
  extreme_found leq (seen ++ [c]) (extreme_pick leq acc c).
Proof.
  destruct c as [n1 [q1|]], acc as [[n q]|]; unfold extreme_found, extreme_pick; simpl.
  - intros (pre & post & -> & Hpre & Hpost).
    destruct (leq q1 q) eqn:Hle; simpl.
    + exists pre, (post ++ [(n1, Some q1)]). split; [|split; [done|]].
      { by rewrite <- app_assoc. }
      intros n' q' [Hin|Hin]%elem_of_app; [by eapply Hpost|].
      apply list_elem_of_singleton in Hin. by injection Hin as -> ->.
    + exists (pre ++ (n, Some q) :: post), []. split; [done|]. split.
      * intros n' q' Hin. destruct (leq q1 q') eqn:Hq'; [|done].
        apply elem_of_app in Hin as [Hin|Hin].
        { apply Hpre in Hin. apply leq_total in Hin.
          by rewrite (leq_trans _ _ _ Hq' Hin) in Hle. }
        apply elem_of_cons in Hin as [Hin|Hin].
        { injection Hin as -> ->. congruence. }
        apply Hpost in Hin. by rewrite (leq_trans _ _ _ Hq' Hin) in Hle.
      * intros n' q' Hin. by apply elem_of_nil in Hin.
  - intros Hnone. exists seen, []. split; [done|]. split.
    + intros n' q' Hin. by destruct (Hnone n' q').
    + intros n' q' Hin. by apply elem_of_nil in Hin.
  - intros (pre & post & -> & Hpre & Hpost).
    exists pre, (post ++ [(n1, None)]). split; [|split; [done|]].
    { by rewrite <- app_assoc. }
    intros n' q' [Hin|Hin]%elem_of_app; [by eapply Hpost|].
    by apply list_elem_of_singleton in Hin.
  - intros Hnone n' q' [Hin|Hin]%elem_of_app; [by eapply Hnone|].
    by apply list_elem_of_singleton in Hin.
Qed.

Lemma found_foldl row seen acc :
  extreme_found leq seen acc →
  extreme_found leq (seen ++ row) (foldl (extreme_pick leq) acc row).
Proof.
  revert seen acc. induction row as [|c row IH]; intros seen acc H.
  - by rewrite app_nil_r.
  - simpl. rewrite (cons_middle c seen row), app_assoc.
    apply IH. by apply found_step.
Qed.

(** [idx_extreme] names the first extreme entry of the row, and gives NaN
    only for a row without any score. *)
Lemma idx_extreme_Some row n :
  idx_extreme (λ x y, negb (leq x y)) row = Some n →
  ∃ q, extreme_at leq row n q.
Proof.
  unfold idx_extreme.
  change (foldl _ None row) with (foldl (extreme_pick leq) None row).
  assert (H := found_foldl row [] None).
  destruct (foldl (extreme_pick leq) None row) as [[n0 q0]|]; [|done].
  simpl. intros [= <-]. exists q0. apply H. intros ? ? Hin.
  by apply elem_of_nil in Hin.
Qed.

Lemma idx_extreme_None row :
  idx_extreme (λ x y, negb (leq x y)) row = None →
  ∀ n q, (n, Some q) ∉ row.
Proof.
  unfold idx_extreme.
  change (foldl _ None row) with (foldl (extreme_pick leq) None row).
  assert (H := found_foldl row [] None).
  destruct (foldl (extreme_pick leq) None row) as [[n0 q0]|]; [done|].
  intros _. apply H. intros ? ? Hin. by apply elem_of_nil in Hin.
Qed.

End Extreme.

Lemma Qle_bool_total x y : Qle_bool x y = false → Qle_bool y x = true.
Proof.
  intros H. apply Qle_bool_iff. apply Qlt_le_weak, Qnot_le_lt.
  rewrite <- Qle_bool_iff. by rewrite H.
Qed.

Lemma Qle_bool_trans x y z :
  Qle_bool x y = true → Qle_bool y z = true → Qle_bool x z = true.
Proof. rewrite !Qle_bool_iff. apply Qle_trans. Qed.

Lemma Qle_bool_false x y : Qle_bool x y = false ↔ (y < x)%Q.
Proof.
  split.
  - intros H. apply Qnot_le_lt. rewrite <- Qle_bool_iff. by rewrite H.
  - intros H. apply not_true_is_false. rewrite Qle_bool_iff.
    by apply Qlt_not_le.
Qed.

(** The subject named as best has the highest score of the row and is the
    first to have it. *)
Lemma idxmax_row row n :
  idx_extreme Qgt_bool row = Some n → ∃ q, extreme_at Qle_bool row n q.
Proof.
  apply (idx_extreme_Some Qle_bool Qle_bool_total Qle_bool_trans).
Qed.

Lemma idxmin_row row n :
  idx_extreme Qlt_bool row = Some n →
  ∃ q, extreme_at (λ x y, Qle_bool y x) row n q.
Proof.
  apply (idx_extreme_Some (λ x y, Qle_bool y x)).
  - intros x y. apply Qle_bool_total.
  - intros x y z H1 H2. by apply (Qle_bool_trans z y x).
Qed.

(** An extreme entry of a row of subjects, in terms of the columns. *)
Lemma extreme_at_subject_row leq df i n q :
  extreme_at leq (subject_row df i) n q →
  ∃ pre post, existing_grade_columns df = pre ++ n :: post
    ∧ score df n i = Some q
    ∧ (∀ col q', col ∈ pre → score df col i = Some q' → leq q q' = false)
    ∧ (∀ col q', col ∈ post → score df col i = Some q' → leq q' q = true).
Proof.
  intros (pre & post & Hrow & Hpre & Hpost). unfold subject_row in Hrow.
  apply fmap_app_inv in Hrow as (pre' & rest & -> & Hrest & Hex).
  symmetry in Hrest.
  apply fmap_cons_inv in Hrest as (b & post' & Hb & -> & ->).
  injection Hb as <- Hq. exists pre', post'. repeat split; try done.
  - intros col q' Hcol Hs. apply (Hpre col).
    apply list_elem_of_fmap. exists col. by rewrite Hs.
  - intros col q' Hcol Hs. apply (Hpost col).
    apply list_elem_of_fmap. exists col. by rewrite Hs.
Qed.

(** ** More on what [clean_data] leaves *)

Section CleanContents.
Variable repr : Q → string.
Implicit Types (st : Analyzer) (raw : DataFrame) (c r : loc).

(** The whole cleaned frame, column by column. *)
Lemma clean_data_contents st r raw :
  raw_data st = Some r → store st !! r = Some raw → numeric_subjects raw →
  ∃ c df',
    clean_data repr st
    = (Returns (Some c),
       mkAnalyzer (<[c := df']> (store st)) (Some r) (Some c) (results st))
    ∧ nrows df' = nrows raw
    ∧ column_names df' = column_names raw
    ∧ (∀ col xs, col ∈ grade_columns →
         lookup_column col (columns raw) = Some (Float64 xs) →
         lookup_column col (columns df')
         = Some (Float64 (cleaned_cell (Num.nanmean xs) <$> xs)))
    ∧ (∀ col s, col ∈ text_columns →
         lookup_column col (columns raw) = Some s →
         lookup_column col (columns df') = Some (cleaned_text repr col s))
    ∧ (∀ col, col ∉ grade_columns → col ∉ text_columns →
         lookup_column col (columns df') = lookup_column col (columns raw)).
Proof.
  intros Hr Hraw Hnum.
  destruct (clean_frame_spec repr raw Hnum) as (df' & Hrun & Hn & Hc & Hg & Ho).
  destruct (clean_frame_text repr raw Hnum) as (df'' & Hrun' & Ht).
  assert (df'' = df') as -> by congruence.
  exists (fresh (dom (store st))), df'.
  split; [|done].
  rewrite (clean_data_run repr st r raw Hr Hraw). by rewrite Hrun.
Qed.

(** The cells of a cleaned text column. *)
Lemma cleaned_text_cell col s i cell :
  match cleaned_text repr col s with
  | Object xs => xs !! i = Some cell
  | Float64 _ => False
  end →
  ∃ t, cell = Some t ∧ trimmed t ∧ (col = "grade_level" → no_upper t = true).
Proof.
  unfold cleaned_text. rewrite list_lookup_fmap.
  destruct (astype_strings repr s !! i) as [x|]; [|done]. simpl.
  intros [= <-]. eexists. split; [done|].
  destruct (decide (col = "grade_level")) as [->|Hne].
  - split.
    + rewrite normalize_level_eq. apply strip_trimmed.
    + intros _. unfold normalize_level. rewrite replace_after_lower_noop.
      apply lower_no_upper.
  - split; [apply strip_trimmed|done].
Qed.

Lemma astype_strings_length s :
  length (astype_strings repr s) = series_length s.
Proof. destruct s; simpl; by rewrite length_fmap. Qed.

(** (X1) After [clean_data], the frame has the rows and the columns of the raw
    data, in the same order, and the columns that are neither text nor
    subject columns are untouched. *)
Theorem clean_keeps_shape st r raw :
  raw_data st = Some r → store st !! r = Some raw → numeric_subjects raw →
  ∃ c st', clean_data repr st = (Returns (Some c), st')
    ∧ nrows (store st' !!! c) = nrows raw
    ∧ column_names (store st' !!! c) = column_names raw
    ∧ ∀ col, col ∉ grade_columns → col ∉ text_columns →
        lookup_column col (columns (store st' !!! c))
        = lookup_column col (columns raw).
Proof.
  intros Hr Hraw Hnum.
  destruct (clean_data_contents st r raw Hr Hraw Hnum)
    as (c & df' & Hrun & Hn & Hc & _ & _ & Ho).
  eexists c, _. split; [exact Hrun|]. simpl.
  by rewrite lookup_total_insert_eq.
Qed.

(** (X2) After [clean_data], every cell of the columns name, grade_level and
    gender is a string, never missing, without white space at its ends;
    a grade level has no capital letter. *)
Theorem clean_text_cells_trimmed st r raw :
  raw_data st = Some r → store st !! r = Some raw → numeric_subjects raw →
  ∃ c st', clean_data repr st = (Returns (Some c), st')
    ∧ ∀ col s, col ∈ text_columns →
        lookup_column col (columns raw) = Some s →
        ∃ xs, lookup_column col (columns (store st' !!! c)) = Some (Object xs)
          ∧ length xs = series_length s
          ∧ ∀ i cell, xs !! i = Some cell →
              ∃ t, cell = Some t ∧ trimmed t
                ∧ (col = "grade_level" → no_upper t = true).
Proof.
  intros Hr Hraw Hnum.
  destruct (clean_data_contents st r raw Hr Hraw Hnum)
    as (c & df' & Hrun & _ & _ & _ & Ht & _).
  eexists c, _. split; [exact Hrun|]. simpl. rewrite lookup_total_insert_eq.
  intros col s Hcol Hs. rewrite (Ht col s Hcol Hs). unfold cleaned_text.
  eexists. split; [done|]. split.
  { by rewrite length_fmap, astype_strings_length. }
  intros i cell Hcell. by apply (cleaned_text_cell col s i).
Qed.

(** (X3) A missing cell of a text column becomes the string ['nan']. *)
Theorem clean_missing_text_is_nan st r raw :
  raw_data st = Some r → store st !! r = Some raw → numeric_subjects raw →
  ∃ c st', clean_data repr st = (Returns (Some c), st')
    ∧ ∀ col ys i, col ∈ text_columns →
        lookup_column col (columns raw) = Some (Object ys) →
        ys !! i = Some None →
        object_cell (store st' !!! c) col i = Some (Some "nan").
Proof.
  intros Hr Hraw Hnum.
  destruct (clean_data_contents st r raw Hr Hraw Hnum)
    as (c & df' & Hrun & _ & _ & _ & Ht & _).
  eexists c, _. split; [exact Hrun|]. simpl. rewrite lookup_total_insert_eq.
  intros col ys i Hcol Hs Hi. unfold object_cell.
  rewrite (Ht col _ Hcol Hs). unfold cleaned_text, astype_strings.
  rewrite !list_lookup_fmap, Hi. simpl.
  by destruct (decide (col = "grade_level")).
Qed.

(** (X4) Cleaning keeps the scores between 0 and 100: if every score of the
    raw data is, so is every score, imputed or not, of the cleaned data. *)
Theorem clean_keeps_scores_in_range st r raw :
  raw_data st = Some r → store st !! r = Some raw → numeric_subjects raw →
  scores_in_range raw →
  ∃ c st', clean_data repr st = (Returns (Some c), st')
    ∧ scores_in_range (store st' !!! c).
Proof.
  intros Hr Hraw Hnum Hrange.
  destruct (clean_data_contents st r raw Hr Hraw Hnum)
    as (c & df' & Hrun & _ & Hc & Hg & _ & _).
  eexists c, _. split; [exact Hrun|]. simpl. rewrite lookup_total_insert_eq.
  intros col i Hcol. unfold score, float_cell.
  destruct (lookup_column col (columns raw)) as [s|] eqn:Hs.
  - destruct (numeric_subjects_Float64 raw col s Hnum Hcol Hs) as [xs ->].
    rewrite (Hg col xs Hcol Hs), list_lookup_fmap.
    assert (Hxs : ∀ j, cell_in_range (mjoin (xs !! j))).
    { intros j. specialize (Hrange col j Hcol).
      unfold score, float_cell in Hrange. by rewrite Hs in Hrange. }
    destruct (xs !! i) as [x|] eqn:Hx; [|done]. simpl.
    apply cleaned_cell_in_range.
    + apply nanmean_in_range. intros x' [j Hj]%list_elem_of_lookup.
      specialize (Hxs j). unfold Num.cell in *. by rewrite Hj in Hxs.
    + specialize (Hxs i). unfold Num.cell in *. by rewrite Hx in Hxs.
  - assert (lookup_column col (columns df') = None) as ->; [|done].
    apply eq_None_not_Some. rewrite lookup_column_is_Some.
    fold (column_names df'). rewrite Hc. unfold column_names.
    rewrite <- lookup_column_is_Some. by rewrite Hs; intros [? [=]].
Qed.

End CleanContents.

(** ** More on the derived columns *)

Section TransformContents.
Implicit Types (st : Analyzer) (df : DataFrame) (c : loc).

Lemma idx_extreme_no_score beats (row : list (string * Num.cell)) :
  (∀ x, x ∈ row → x.2 = None) → idx_extreme beats row = None.
Proof.
  intros H. unfold idx_extreme.
  assert (Hf : ∀ acc, foldl (λ (acc : option (string * Q)) (c : string * Num.cell),
                   match c.2, acc with
                   | None, _ => acc
                   | Some q, None => Some (c.1, q)
                   | Some q, Some (_, q0) => if beats q q0 then Some (c.1, q) else acc
                   end) acc row = acc).
  { induction row as [|x row IH]; intros acc; [done|].
    destruct x as [n c0].
    assert (c0 = None) as -> by (apply (H (n, c0)); by left).
    simpl. apply IH. intros y Hy. apply H. by right. }
  by rewrite Hf.
Qed.

(** The scores of a row of a frame with scores in range. *)
Lemma subject_row_in_range df i :
  scores_in_range df →
  ∀ x, x ∈ (subject_row df i).*2 → cell_in_range x.
Proof.
  intros Hrange x (col & Hcol & ->)%subject_row_scores.
  apply existing_subseteq in Hcol. by apply Hrange.
Qed.

(** (X5) In a transformed grade book, the overall average of a record is
    the mean of its subject scores that are present, rounded to one
    decimal: a tenth nearest to that mean, between 0 and 100 (NaN when
    the record has no score). *)
Theorem overall_average_is_row_mean st c st' :
  transform_data st = (Returns (Some c), st') →
  gradebook (store st' !!! c) →
  ∀ i, i < nrows (store st' !!! c) →
    ∃ a, float_cell (store st' !!! c) "overall_average" i = Some a
      ∧ rounded_mean (subject_row (store st' !!! c) i).*2 a
      ∧ cell_in_range a.
Proof.
  intros (df & cs & _ & _ & _ & Hcs & _ & ->)%transform_data_frame.
  intros Hbook%gradebook_scores_in_range i Hi.
  exists (Num.round1_cell (Num.nanmean (subject_row df i).*2)).
  rewrite subject_row_transformed.
  split; [by apply transformed_overall_average_cell|].
  split; [apply rounded_mean_nanmean|].
  apply round1_cell_in_range, nanmean_in_range.
  rewrite <- (subject_row_transformed df cs).
  by apply subject_row_in_range.
Qed.

(** (X6) A record without any subject score has the average NaN, and with it
    the grade F and the performance Needs Improvement; its best and worst
    subjects are NaN. *)
Theorem record_without_scores st c st' :
  transform_data st = (Returns (Some c), st') →
  ∀ i, i < nrows (store st' !!! c) →
    (∀ col, col ∈ grade_columns → score (store st' !!! c) col i = None) →
    float_cell (store st' !!! c) "overall_average" i = Some None
    ∧ object_cell (store st' !!! c) "letter_grade" i = Some (Some "F")
    ∧ object_cell (store st' !!! c) "performance" i
      = Some (Some "Needs Improvement")
    ∧ object_cell (store st' !!! c) "best_subject" i = Some None
    ∧ object_cell (store st' !!! c) "worst_subject" i = Some None.
Proof.
  intros (df & cs & _ & _ & _ & Hcs & _ & ->)%transform_data_frame i Hi Hnone.
  rewrite transformed_nrows in Hi.
  assert (Hrow : ∀ x, x ∈ subject_row df i → x.2 = None).
  { intros x (col & -> & Hcol)%list_elem_of_fmap. simpl.
    rewrite <- (score_transformed df cs) by by apply existing_subseteq in Hcol.
    apply Hnone. by apply existing_subseteq in Hcol. }
  assert (Hoa : float_cell (transformed df cs) "overall_average" i = Some None).
  { rewrite (transformed_overall_average_cell df cs i Hcs Hi).
    assert (Num.nanmean (subject_row df i).*2 = None) as ->; [|done].
    apply nanmean_None. intros x (y & -> & Hy)%list_elem_of_fmap.
    by apply Hrow. }
  split; [done|].
  rewrite transformed_letter_cell, transformed_performance_cell, Hoa.
  rewrite (transformed_best_cell df cs i Hcs Hi).
  rewrite (transformed_worst_cell df cs i Hcs Hi).
  by rewrite !idx_extreme_no_score.
Qed.

(** (X7) When the subject scores are between 0 and 100, so is every overall
    average. *)
Theorem overall_average_in_range st c st' :
  transform_data st = (Returns (Some c), st') →
  scores_in_range (store st' !!! c) →
  ∀ i, cell_in_range (score (store st' !!! c) "overall_average" i).
Proof.
  intros (df & cs & _ & _ & _ & Hcs & _ & ->)%transform_data_frame Hrange i.
  unfold score, float_cell. rewrite transformed_overall_average.
  unfold overall_average_of. rewrite !list_lookup_fmap.
  destruct (seq 0 (nrows df) !! i) as [j|]; [|done]. simpl.
  apply round1_cell_in_range, nanmean_in_range.
  rewrite (row_at_subject_row df cs j Hcs).
  intros x (col & Hcol & ->)%subject_row_scores.
  apply existing_subseteq in Hcol.
  rewrite <- (score_transformed df cs) by done. by apply Hrange.
Qed.

(** (X8) The best subject of a record has the highest score of the record, and
    is the first subject, in the order of the columns Math, Science,
    English, History, Art, to have it. *)
Theorem best_subject_first_maximum st c st' :
  transform_data st = (Returns (Some c), st') →
  ∀ i b, object_cell (store st' !!! c) "best_subject" i = Some (Some b) →
    ∃ pre post q,
      existing_grade_columns (store st' !!! c) = pre ++ b :: post
      ∧ score (store st' !!! c) b i = Some q
      ∧ (∀ col q', col ∈ pre → score (store st' !!! c) col i = Some q' →
           (q' < q)%Q)
      ∧ (∀ col q', col ∈ post → score (store st' !!! c) col i = Some q' →
           (q' <= q)%Q).
Proof.
  intros (df & cs & _ & _ & _ & Hcs & _ & ->)%transform_data_frame i b Hb.
  assert (Hi : i < nrows df).
  { unfold object_cell in Hb. rewrite transformed_best_subject in Hb.
    apply lookup_lt_Some in Hb. unfold best_subject_of in Hb.
    by rewrite length_fmap, length_seq in Hb. }
  rewrite (transformed_best_cell df cs i Hcs Hi) in Hb. injection Hb as Hb.
  rewrite <- (subject_row_transformed df cs) in Hb.
  destruct (idxmax_row _ _ Hb) as [q Hq].
  destruct (extreme_at_subject_row _ _ _ _ _ Hq)
    as (pre & post & Hex & Hs & Hpre & Hpost).
  exists pre, post, q. repeat split; try done.
  - intros col q' Hcol Hq'. apply Qle_bool_false. by apply (Hpre col).
  - intros col q' Hcol Hq'. apply Qle_bool_iff. by apply (Hpost col).
Qed.

(** (X9) The worst subject of a record has the lowest score of the record, and
    is the first subject to have it. *)
Theorem worst_subject_first_minimum st c st' :
  transform_data st = (Returns (Some c), st') →
  ∀ i w, object_cell (store st' !!! c) "worst_subject" i = Some (Some w) →
    ∃ pre post q,
      existing_grade_columns (store st' !!! c) = pre ++ w :: post
      ∧ score (store st' !!! c) w i = Some q
      ∧ (∀ col q', col ∈ pre → score (store st' !!! c) col i = Some q' →
           (q < q')%Q)
      ∧ (∀ col q', col ∈ post → score (store st' !!! c) col i = Some q' →
           (q <= q')%Q).
Proof.
  intros (df & cs & _ & _ & _ & Hcs & _ & ->)%transform_data_frame i w Hw.
  assert (Hi : i < nrows df).
  { unfold object_cell in Hw. rewrite transformed_worst_subject in Hw.
    apply lookup_lt_Some in Hw. unfold worst_subject_of in Hw.
    by rewrite length_fmap, length_seq in Hw. }
  rewrite (transformed_worst_cell df cs i Hcs Hi) in Hw. injection Hw as Hw.
  rewrite <- (subject_row_transformed df cs) in Hw.
  destruct (idxmin_row _ _ Hw) as [q Hq].
  destruct (extreme_at_subject_row _ _ _ _ _ Hq)
    as (pre & post & Hex & Hs & Hpre & Hpost).
  exists pre, post, q. repeat split; try done.
  - intros col q' Hcol Hq'. apply Qle_bool_false. by apply (Hpre col).
  - intros col q' Hcol Hq'. apply Qle_bool_iff. by apply (Hpost col).
Qed.

End TransformContents.

(** ** More on the aggregates *)

Section Aggregates.
Implicit Types (st : Analyzer) (df : DataFrame) (c : loc) (k : label).

Lemma foldl_count_label_lookup (l : list label) (m : gmap label nat) k :
  foldl count_label m l !! k
  = match length (filter (λ x, x = k) l) with
    | O => m !! k
    | S n => Some (S n + default 0 (m !! k))
    end.
Proof.
  revert m. induction l as [|x l IH]; intros m; [done|].
  simpl. rewrite IH. unfold count_label.
  destruct (decide (x = k)) as [->|Hne].
  - rewrite filter_cons_True by done. rewrite lookup_insert_eq. simpl.
    destruct (length (filter (λ x, x = k) l)); f_equal; lia.
  - rewrite filter_cons_False by done. by rewrite lookup_insert_ne.
Qed.

(** [value_counts] gives each value that occurs its number of
    occurrences, and gives no entry to a value that does not occur. *)
Lemma value_counts_lookup (s : Series) k :
  value_counts s !! k
  = match length (filter (λ x, x = Some k) (series_labels s)) with
    | O => None
    | S n => Some (S n)
    end.
Proof.
  unfold value_counts. rewrite foldl_count_label_lookup.
  assert (length (filter (λ x, x = k) (omap id (series_labels s)))
          = length (filter (λ x, x = Some k) (series_labels s))) as ->.
  { induction (series_labels s) as [|[x|] l IH]; [done| |].
    - change (omap id (Some x :: l)) with (x :: omap id l).
      destruct (decide (x = k)) as [->|Hne].
      + rewrite !filter_cons_True by done. simpl. by rewrite IH.
      + rewrite !filter_cons_False by congruence. done.
    - change (omap id (None :: l)) with (omap id l).
      by rewrite filter_cons_False. }
  rewrite lookup_empty. simpl.
  destruct (length _); [done|]. f_equal. lia.
Qed.

Lemma filter_labels_strings (xs : list (option string)) g :
  length (filter (λ x, x = Some (LStr g)) ((λ c : option string, LStr <$> c) <$> xs))
  = count_string g xs.
Proof.
  unfold count_string. induction xs as [|[x|] xs IH]; [done| |].
  - rewrite fmap_cons. destruct (decide (x = g)) as [->|Hne].
    + rewrite !filter_cons_True by done. simpl. by rewrite IH.
    + rewrite !filter_cons_False by (simpl; congruence). done.
  - rewrite fmap_cons. by rewrite !filter_cons_False.
Qed.

Lemma foldl_group_cell_lookup (l : list (option label * Num.cell))
    (m : gmap label (list Num.cell)) k :
  foldl group_cell m l !! k
  = match rows_with k l with
    | [] => m !! k
    | v :: vs => Some (default [] (m !! k) ++ v :: vs)
    end.
Proof.
  revert m. induction l as [|[k0 v0] l IH]; intros m; [done|].
  simpl. rewrite IH. unfold group_cell, rows_with. simpl.
  destruct k0 as [k0|].
  - destruct (decide (Some k0 = Some k)) as [[= ->]|Hne].
    + rewrite lookup_insert_eq. simpl.
      fold (rows_with k l). destruct (rows_with k l) as [|v vs].
      * done.
      * by rewrite <- app_assoc.
    + rewrite lookup_insert_ne by congruence. done.
  - destruct (decide (None = Some k)); [done|]. done.
Qed.

(** The grouped means: a key has an entry exactly when some row has it,
    and the entry is the rounded mean of the values of those rows. *)
Lemma groupby_map_lookup (ks : Series) (xs : list Num.cell) k :
  groupby_map ks xs !! k
  = match rows_with k (zip (series_labels ks) xs) with
    | [] => None
    | v :: vs => Some (Num.round1_cell (Num.nanmean (v :: vs)))
    end.
Proof.
  unfold groupby_map. rewrite lookup_fmap, foldl_group_cell_lookup.
  rewrite lookup_empty. by destruct (rows_with _ _).
Qed.

Lemma subject_averages_of_lookup df m cols col :
  subject_averages_of df m cols !! col
  = if decide (col ∈ cols) then Some (subject_average_of df col) else m !! col.
Proof.
  unfold subject_averages_of. revert m.
  induction cols as [|x cols IH]; intros m.
  { destruct (decide (col ∈ [])) as [H|]; [by apply elem_of_nil in H|done]. }
  cbn [foldl]. rewrite IH.
  destruct (decide (col ∈ cols)) as [Hin|Hnin].
  - destruct (decide (col ∈ x :: cols)) as [|Hn]; [done|].
    destruct Hn. by right.
  - destruct (decide (col = x)) as [->|Hne].
    + destruct (decide (x ∈ x :: cols)) as [|Hn]; [|destruct Hn; by left].
      by rewrite lookup_insert_eq.
    + destruct (decide (col ∈ x :: cols)) as [[?|?]%elem_of_cons|];
        [done|done|].
      by rewrite lookup_insert_ne.
Qed.

Lemma subject_average_step st c df subject xs :
  cleaned_data st = Some c → store st !! c = Some df →
  lookup_column subject (columns df) = Some (Float64 xs) →
  Num.present xs ≠ [] →
  subject_average subject st
  = (Returns tt,
     set_results (add_subject_average subject (subject_average_of df subject)) st).
Proof.
  intros Hc Hdf Hs Hp. unfold subject_average.
  erewrite bind_returns.
  2:{ eapply on_cleaned_read; [exact Hc|exact Hdf|].
      rewrite (bind_returns _ _ _ _ _ (getitem_Some _ _ _ Hs)).
      step. unfold lift. rewrite scalar_round1_nanmean by done.
      reflexivity. }
  unfold subject_average_of, cells_of. by rewrite Hs.
Qed.

(** The loop over the subjects, in closed form. *)
Lemma subject_averages_loop cols st c df m :
  cleaned_data st = Some c → store st !! c = Some df →
  subject_averages (results st) = Some m →
  (∀ s, s ∈ cols →
     ∃ xs, lookup_column s (columns df) = Some (Float64 xs)
       ∧ Num.present xs ≠ []) →
  for_ cols subject_average st
  = (Returns tt,
     set_results (set_subject_averages (subject_averages_of df m cols)) st).
Proof.
  revert st m. induction cols as [|s cols IH]; intros st m Hc Hdf Hm H.
  - cbn [for_]. unfold mret, M_ret. f_equal.
    destruct st as [h r0 c0 [b sa gd pg gp]]. simpl in *. by subst.
  - destruct (H s) as (xs & Hxs & Hp); [by left|].
    cbn [for_].
    rewrite (bind_returns _ _ _ _ _
               (subject_average_step st c df s xs Hc Hdf Hxs Hp)).
    rewrite (IH _ (<[s := subject_average_of df s]> m)); try done.
    + simpl. by rewrite Hm.
    + intros s' Hs'. apply H. by right.
Qed.

End Aggregates.

Section AnalysisClosedForm.
Implicit Types (st : Analyzer) (df : DataFrame) (c : loc).

Lemma groupby_run key val df ks xs :
  lookup_column key (columns df) = Some ks →
  lookup_column val (columns df) = Some (Float64 xs) →
  groupby_mean_round1 key val df = (Returns (groupby_map ks xs), df).
Proof.
  intros Hk Hv. unfold groupby_mean_round1.
  rewrite (bind_returns _ _ _ _ _ (getitem_Some _ _ _ Hk)).
  by rewrite (bind_returns _ _ _ _ _ (getitem_Some _ _ _ Hv)).
Qed.

(** [analyze_data] on a frame ready for analysis that has a grade level
    column, and a value in the overall average and in each subject
    column: it returns, and what it returns is what it has assigned to
    [self.results]. *)
Lemma analyze_data_closed_form st c df oa lg ks :
  cleaned_data st = Some c → store st !! c = Some df →
  analyzable df oa lg →
  Num.present oa ≠ [] →
  (∀ s, s ∈ existing_grade_columns df → Num.present (cells_of df s) ≠ []) →
  lookup_column "grade_level" (columns df) = Some ks →
  analyze_data st
  = (Returns (Some (analysis_of df oa lg ks)),
     with_results (analysis_of df oa lg ks) st).
Proof.
  intros Hc Hdf [Hne Hnum Hoa Hlg] Hpoa Hpsub Hks.
  assert (Hcols : ∀ s, s ∈ existing_grade_columns df →
            ∃ xs, lookup_column s (columns df) = Some (Float64 xs)
              ∧ Num.present xs ≠ []).
  { intros s Hs. destruct (Hnum s Hs) as [xs Hxs]. exists xs.
    split; [done|]. specialize (Hpsub s Hs).
    unfold cells_of in Hpsub. by rewrite Hxs in Hpsub. }
  unfold analyze_data.
  rewrite (bind_returns get _ st st st eq_refl). rewrite Hc.
  erewrite bind_returns
    by (eapply on_cleaned_read; [exact Hc|exact Hdf|reflexivity]).
  rewrite bool_decide_eq_false_2 by done.
  erewrite bind_returns
    by (eapply on_cleaned_read;
        [exact Hc|exact Hdf|by apply basic_stats_frame_run]).
  cbv beta. step. step.
  erewrite bind_returns
    by (eapply (subject_averages_loop _ _ c df ∅);
        [exact Hc|exact Hdf|done|exact Hcols]).
  erewrite bind_returns.
  2:{ eapply on_cleaned_read; [exact Hc|exact Hdf|].
      by rewrite (bind_returns _ _ _ _ _ (getitem_Some _ _ _ Hlg)). }
  cbv beta. step.
  erewrite bind_returns
    by (eapply on_cleaned_read;
        [exact Hc|exact Hdf|by apply (groupby_run _ _ _ ks oa)]).
  cbv beta. step.
  erewrite bind_returns
    by (eapply on_cleaned_read; [exact Hc|exact Hdf|reflexivity]).
  cbv beta. unfold analysis_of.
  destruct (lookup_column "gender" (columns df)) as [gs|] eqn:Hgs.
  - rewrite (proj2 (has_column_true "gender" df)) by by eexists.
    erewrite (bind_returns (_ ≫= _)).
    2:{ erewrite bind_returns
          by (eapply on_cleaned_read;
              [exact Hc|exact Hdf|by apply (groupby_run _ _ _ gs oa)]).
        reflexivity. }
    reflexivity.
  - rewrite (proj2 (has_column_false "gender" df)) by done.
    step. reflexivity.
Qed.

(** [analyze_data] before [transform_data]: the overall average is
    missing. *)
Lemma analyze_data_untransformed st c df :
  cleaned_data st = Some c → store st !! c = Some df →
  existing_grade_columns df ≠ [] →
  lookup_column "overall_average" (columns df) = None →
  analyze_data st = (Raises (KeyError "overall_average"), st).
Proof.
  intros Hc Hdf Hne Hoa. unfold analyze_data.
  rewrite (bind_returns get _ st st st eq_refl). rewrite Hc.
  erewrite bind_returns
    by (eapply on_cleaned_read; [exact Hc|exact Hdf|reflexivity]).
  rewrite bool_decide_eq_false_2 by done.
  apply bind_raises. eapply on_cleaned_read; [exact Hc|exact Hdf|].
  unfold basic_stats_frame.
  rewrite (bind_returns get _ df df df eq_refl). cbv zeta.
  apply bind_raises. by apply getitem_None.
Qed.

Lemma analyze_data_no_subjects st c df :
  cleaned_data st = Some c → store st !! c = Some df →
  existing_grade_columns df = [] →
  analyze_data st = (Returns None, st).
Proof.
  intros Hc Hdf He. unfold analyze_data.
  rewrite (bind_returns get _ st st st eq_refl). rewrite Hc.
  erewrite bind_returns
    by (eapply on_cleaned_read; [exact Hc|exact Hdf|reflexivity]).
  by rewrite bool_decide_eq_true_2.
Qed.

Lemma analyze_data_idle st :
  cleaned_data st = None → analyze_data st = (Returns None, st).
Proof.
  intros Hc. unfold analyze_data.
  rewrite (bind_returns get _ st st st eq_refl). by rewrite Hc.
Qed.

End AnalysisClosedForm.

(** ** What [analyze_data] reports *)

Section AnalysisTheorems.
Implicit Types (st : Analyzer) (df : DataFrame) (c : loc).

(** The transformed frame behind the reference [transform_data] returns,
    with the columns the analysis reads. *)
Lemma transform_data_analyzable st c st' :
  transform_data st = (Returns (Some c), st') →
  ∃ T oa lg,
    store st' !!! c = T
    ∧ cleaned_data st' = Some c
    ∧ store st' !! c = Some T
    ∧ analyzable T oa (Object lg)
    ∧ cells_of T "overall_average" = oa
    ∧ length lg = nrows T
    ∧ (∀ i, lg !! i = (λ a, Some (get_letter_grade a)) <$> oa !! i)
    ∧ (scored T →
       Num.present oa ≠ []
       ∧ ∀ s, s ∈ existing_grade_columns T → Num.present (cells_of T s) ≠ [])
    ∧ (scores_in_range T → ∀ a, a ∈ oa → cell_in_range a).
Proof.
  intros H. destruct (transform_data_frame st c st' H)
    as (df & cs & Hdf & Hc & Hne & Hcs & Hstore & Hframe).
  exists (transformed df cs), (overall_average_of cs (nrows df)),
         (letter_grade_of cs (nrows df)).
  split; [done|]. split; [done|]. split.
  { rewrite Hstore. apply lookup_insert_eq. }
  split; [by apply transformed_analyzable|]. split.
  { unfold cells_of. by rewrite transformed_overall_average. }
  split.
  { unfold letter_grade_of. by rewrite length_fmap, overall_average_length. }
  split.
  { intros i. unfold letter_grade_of. by rewrite list_lookup_fmap. }
  split; [by apply transformed_has_values|].
  intros Hrange a [i Hi]%list_elem_of_lookup.
  unfold overall_average_of in Hi. rewrite !list_lookup_fmap in Hi.
  destruct (seq 0 (nrows df) !! i) as [j|]; [|done].
  simpl in Hi. injection Hi as <-.
  apply round1_cell_in_range, nanmean_in_range.
  rewrite (row_at_subject_row df cs j Hcs).
  rewrite <- (subject_row_transformed df cs). by apply subject_row_in_range.
Qed.

(** The cells of a subject column of a frame with scores in range. *)
Lemma cells_of_in_range df col :
  scores_in_range df → col ∈ grade_columns →
  ∀ x, x ∈ cells_of df col → cell_in_range x.
Proof.
  intros Hrange Hcol x [i Hi]%list_elem_of_lookup.
  specialize (Hrange col i Hcol). rewrite score_cells_of in Hrange.
  unfold Num.cell in *. by rewrite Hi in Hrange.
Qed.

(** The values of a group are values of the column that is grouped. *)
Lemma rows_with_values k (ks : list (option label)) (xs : list Num.cell) x :
  x ∈ rows_with k (zip ks xs) → x ∈ xs.
Proof.
  unfold rows_with. intros ([k0 x0] & Hin & Hx)%list_elem_of_omap.
  simpl in Hx. destruct (decide (k0 = Some k)); [|done].
  injection Hx as ->. by apply elem_of_zip_r in Hin.
Qed.

(** An entry of a grouped mean. *)
Lemma groupby_map_entry (ks : Series) (oa : list Num.cell) k :
  (∀ a, a ∈ oa → cell_in_range a) →
  match rows_with k (zip (series_labels ks) oa) with
  | [] => groupby_map ks oa !! k = None
  | v :: vs =>
      ∃ a, groupby_map ks oa !! k = Some a
        ∧ rounded_mean (v :: vs) a ∧ cell_in_range a
  end.
Proof.
  intros Hrange. rewrite groupby_map_lookup.
  destruct (rows_with k (zip (series_labels ks) oa)) as [|v vs] eqn:Hg; [done|].
  eexists. split; [done|]. split; [apply rounded_mean_nanmean|].
  apply round1_cell_in_range, nanmean_in_range.
  intros x Hx. apply Hrange, (rows_with_values k (series_labels ks)).
  by rewrite Hg.
Qed.

(** (X10) The analysis of transformed data reads the data only: whether it
    returns or raises, the store and the references to the raw and the
    cleaned data are as before. *)
Theorem analyze_leaves_data_unchanged st c st' :
  transform_data st = (Returns (Some c), st') →
  store (analyze_data st').2 = store st'
  ∧ raw_data (analyze_data st').2 = raw_data st'
  ∧ cleaned_data (analyze_data st').2 = cleaned_data st'.
Proof.
  intros (T & oa & lg & _ & Hc & HT & _)%transform_data_analyzable.
  destruct (results_only_analyze_data c T st' Hc HT) as [rs ->]. done.
Qed.

(** (X11) On a transformed grade book with a grade level column, whose
    subject columns hold a score each, the analysis returns, and its
    subject averages have one entry for each subject column that exists,
    the mean of the column rounded to one decimal (a tenth nearest to
    the mean, between 0 and 100), and no other entry. *)
Theorem analyze_subject_averages st c st' :
  transform_data st = (Returns (Some c), st') →
  has_column "grade_level" (store st' !!! c) = true →
  scored (store st' !!! c) →
  gradebook (store st' !!! c) →
  ∃ rs m, (analyze_data st').1 = Returns (Some rs)
    ∧ results (analyze_data st').2 = rs
    ∧ subject_averages rs = Some m
    ∧ (∀ col, col ∈ existing_grade_columns (store st' !!! c) →
         ∃ v, m !! col = Some (Some v)
           ∧ rounded_mean (cells_of (store st' !!! c) col) (Some v)
           ∧ in_range v)
    ∧ (∀ col, col ∉ existing_grade_columns (store st' !!! c) → m !! col = None).
Proof.
  intros (T & oa & lg & -> & Hc & HT & Han & _ & _ & _ & Hsc & _)
    %transform_data_analyzable.
  intros [ks Hks]%has_column_true [Hpoa Hpsub]%Hsc
         Hrange%gradebook_scores_in_range.
  rewrite (analyze_data_closed_form st' c T oa _ ks Hc HT Han Hpoa Hpsub Hks).
  eexists _, _. repeat split.
  - intros col Hcol. rewrite subject_averages_of_lookup.
    rewrite decide_True by done. unfold subject_average_of.
    assert (Hr := rounded_mean_nanmean (cells_of T col)).
    assert (Hin : cell_in_range
                    (Num.round1_cell (Num.nanmean (cells_of T col)))).
    { apply round1_cell_in_range, nanmean_in_range, cells_of_in_range;
        [done|by apply existing_subseteq in Hcol]. }
    destruct (nanmean_is_Some _ (Hpsub col Hcol)) as [mu Hmu].
    rewrite Hmu in Hr, Hin |- *. simpl in *.
    exists (Num.round1 mu). split; [done|]. split; [done|]. by apply Hin.
  - intros col Hcol. rewrite subject_averages_of_lookup.
    by rewrite decide_False.
Qed.

(** (X12) On a transformed grade book whose subject columns hold a
    score each, the performance by grade level has an entry exactly for
    the grade levels that occur, and the entry is the mean of the overall
    averages of the records of that level, rounded to one decimal: a
    tenth nearest to the mean, between 0 and 100 (NaN when none of them
    has an average). *)
Theorem analyze_performance_by_grade st c st' ks :
  transform_data st = (Returns (Some c), st') →
  lookup_column "grade_level" (columns (store st' !!! c)) = Some ks →
  scored (store st' !!! c) →
  gradebook (store st' !!! c) →
  ∃ rs pg, (analyze_data st').1 = Returns (Some rs)
    ∧ performance_by_grade rs = Some pg
    ∧ ∀ k, match rows_with k (zip (series_labels ks)
                                (cells_of (store st' !!! c) "overall_average")) with
           | [] => pg !! k = None
           | v :: vs =>
               ∃ a, pg !! k = Some a
                 ∧ rounded_mean (v :: vs) a ∧ cell_in_range a
           end.
Proof.
  intros (T & oa & lg & -> & Hc & HT & Han & <- & _ & _ & Hsc & Hoa)
    %transform_data_analyzable.
  intros Hks [Hpoa Hpsub]%Hsc Hrange%gradebook_scores_in_range.
  rewrite (analyze_data_closed_form st' c T _ _ ks Hc HT Han Hpoa Hpsub Hks).
  eexists _, _. split; [done|]. split; [done|].
  intros k. apply groupby_map_entry. by apply Hoa.
Qed.

(** (X13) On a transformed grade book with a grade level column, whose
    subject columns hold a score each, the gender performance is the
    empty map when there is no gender column; otherwise it has an entry
    exactly for the genders that occur, the mean of the overall averages
    of their records rounded to one decimal: a tenth nearest to the mean,
    between 0 and 100 (NaN when none of them has an average). *)
Theorem analyze_gender_performance st c st' :
  transform_data st = (Returns (Some c), st') →
  has_column "grade_level" (store st' !!! c) = true →
  scored (store st' !!! c) →
  gradebook (store st' !!! c) →
  ∃ rs gp, (analyze_data st').1 = Returns (Some rs)
    ∧ gender_performance rs = Some gp
    ∧ match lookup_column "gender" (columns (store st' !!! c)) with
      | None => gp = ∅
      | Some gs =>
          ∀ k, match rows_with k (zip (series_labels gs)
                                    (cells_of (store st' !!! c)
                                       "overall_average")) with
               | [] => gp !! k = None
               | v :: vs =>
                   ∃ a, gp !! k = Some a
                     ∧ rounded_mean (v :: vs) a ∧ cell_in_range a
               end
      end.
Proof.
  intros (T & oa & lg & -> & Hc & HT & Han & <- & _ & _ & Hsc & Hoa)
    %transform_data_analyzable.
  intros [ks Hks]%has_column_true [Hpoa Hpsub]%Hsc
         Hrange%gradebook_scores_in_range.
  rewrite (analyze_data_closed_form st' c T _ _ ks Hc HT Han Hpoa Hpsub Hks).
  eexists _, _. split; [done|]. split; [done|].
  destruct (lookup_column "gender" (columns T)); [|done].
  intros k. apply groupby_map_entry. by apply Hoa.
Qed.

(** (X14) On transformed data whose subject columns hold a score each,
    the grade distribution has an entry exactly for the letters that
    occur, with the number of records that have the letter: no letter is
    listed with the count 0, and every key is one of A, B, C, D, F. *)
Theorem grade_distribution_observed_letters st c st' letters :
  transform_data st = (Returns (Some c), st') →
  scored (store st' !!! c) →
  lookup_column "letter_grade" (columns (store st' !!! c)) = Some (Object letters) →
  ∃ gd, grade_distribution (results (analyze_data st').2) = Some gd
    ∧ (∀ g, gd !! LStr g
         = match count_string g letters with
           | O => None
           | S n => Some (S n)
           end)
    ∧ ∀ k n, gd !! k = Some n →
        ∃ g, k = LStr g ∧ g ∈ ["A"; "B"; "C"; "D"; "F"].
Proof.
  intros (T & oa & lg & -> & Hc & HT & Han & _ & _ & Hlg & Hsc & _)
    %transform_data_analyzable.
  intros [Hpoa Hpsub]%Hsc Hletters.
  assert (lg = letters) as ->.
  { destruct Han as [_ _ _ H]. congruence. }
  destruct (analyze_data_run st' c T oa _ Hc HT Han Hpoa Hpsub)
    as (rs & _ & Hgd & Hrun).
  exists (value_counts (Object letters)). split.
  { destruct (lookup_column "grade_level" (columns T));
      by destruct Hrun as (-> & _). }
  split.
  - intros g. rewrite value_counts_lookup. simpl.
    by rewrite filter_labels_strings.
  - intros k n. rewrite value_counts_lookup.
    destruct (filter _ _) as [|x l] eqn:Hf; [done|]. intros _.
    assert (x ∈ filter (λ x, x = Some k) (series_labels (Object letters)))
      as [-> Hin]%list_elem_of_filter by (rewrite Hf; by left).
    simpl in Hin. apply list_elem_of_fmap in Hin as ([g|] & Hg & Hin); [|done].
    injection Hg as ->. exists g. split; [done|].
    apply list_elem_of_lookup in Hin as [i Hi]. rewrite Hlg in Hi.
    destruct (oa !! i) as [a|]; [|done]. injection Hi as <-.
    unfold get_letter_grade.
    repeat (destruct (Num.ge a _)); set_solver.
Qed.

(** (X15) [analyze_data] called before [transform_data], on cleaned data that
    has a subject column but no overall average, raises
    KeyError('overall_average') and leaves the analyzer as it was. *)
Theorem analyze_before_transform st c df :
  cleaned_data st = Some c → store st !! c = Some df →
  existing_grade_columns df ≠ [] →
  has_column "overall_average" df = false →
  analyze_data st = (Raises (KeyError "overall_average"), st).
Proof.
  intros Hc Hdf Hne Hoa%has_column_false.
  by apply (analyze_data_untransformed st c df).
Qed.

(** (X16) With no cleaned data, or cleaned data without any subject column,
    [analyze_data] returns [None] and leaves the analyzer, its results
    included, as it was. *)
Theorem analyze_nothing_to_analyze st :
  (cleaned_data st = None
   ∨ ∃ c df, cleaned_data st = Some c ∧ store st !! c = Some df
       ∧ existing_grade_columns df = []) →
  analyze_data st = (Returns None, st).
Proof.
  intros [H|(c & df & Hc & Hdf & He)].
  - by apply analyze_data_idle.
  - by apply (analyze_data_no_subjects st c df).
Qed.

End AnalysisTheorems.

(** ** The basic statistics *)

Section BasicStatistics.
Implicit Types (st : Analyzer) (df : DataFrame) (c : loc) (q : Q).

Lemma Qmaxl_spec q (qs : list Q) :
  Num.Qmaxl q qs ∈ q :: qs ∧ ∀ x, x ∈ q :: qs → (x <= Num.Qmaxl q qs)%Q.
Proof.
  unfold Num.Qmaxl. revert q. induction qs as [|y qs IH]; intros q.
  { simpl. split; [by left|]. intros x ->%list_elem_of_singleton.
    apply Qle_refl. }
  simpl. destruct (Qle_bool y q) eqn:Hle.
  - destruct (IH q) as [Hin Hmax]. split.
    + apply elem_of_cons in Hin as [->|Hin]; [by left|by do 2 right].
    + intros x [->|[->|Hx]%elem_of_cons]%elem_of_cons.
      * apply Hmax. by left.
      * apply Qle_trans with q; [by apply Qle_bool_iff|]. apply Hmax. by left.
      * apply Hmax. by right.
  - destruct (IH y) as [Hin Hmax]. split.
    + by right.
    + intros x [->|[->|Hx]%elem_of_cons]%elem_of_cons.
      * apply Qle_trans with y; [|apply Hmax; by left].
        apply Qlt_le_weak. by apply Qle_bool_false.
      * apply Hmax. by left.
      * apply Hmax. by right.
Qed.

Lemma Qminl_spec q (qs : list Q) :
  Num.Qminl q qs ∈ q :: qs ∧ ∀ x, x ∈ q :: qs → (Num.Qminl q qs <= x)%Q.
Proof.
  unfold Num.Qminl. revert q. induction qs as [|y qs IH]; intros q.
  { simpl. split; [by left|]. intros x ->%list_elem_of_singleton.
    apply Qle_refl. }
  simpl. destruct (Qle_bool q y) eqn:Hle.
  - destruct (IH q) as [Hin Hmin]. split.
    + apply elem_of_cons in Hin as [->|Hin]; [by left|by do 2 right].
    + intros x [->|[->|Hx]%elem_of_cons]%elem_of_cons.
      * apply Hmin. by left.
      * apply Qle_trans with q; [apply Hmin; by left|by apply Qle_bool_iff].
      * apply Hmin. by right.
  - destruct (IH y) as [Hin Hmin]. split.
    + by right.
    + intros x [->|[->|Hx]%elem_of_cons]%elem_of_cons.
      * apply Qle_trans with y; [apply Hmin; by left|].
        apply Qlt_le_weak. by apply Qle_bool_false.
      * apply Hmin. by left.
      * apply Hmin. by right.
Qed.

Lemma elem_of_present (xs : list Num.cell) q :
  q ∈ Num.present xs ↔ Some q ∈ xs.
Proof.
  unfold Num.present. rewrite list_elem_of_omap. split.
  - intros (x & Hx & Hq). simpl in Hq. by subst.
  - intros H. by exists (Some q).
Qed.

Lemma nanmax_spec (xs : list Num.cell) h :
  Num.nanmax xs = Some h →
  Some h ∈ xs ∧ ∀ q, Some q ∈ xs → (q <= h)%Q.
Proof.
  unfold Num.nanmax. destruct (Num.present xs) as [|p ps] eqn:Hp; [done|].
  intros [= <-]. destruct (Qmaxl_spec p ps) as [Hin Hmax].
  rewrite <- Hp in Hin, Hmax. split.
  - by apply elem_of_present.
  - intros q Hq. by apply Hmax, elem_of_present.
Qed.

Lemma nanmin_spec (xs : list Num.cell) l :
  Num.nanmin xs = Some l →
  Some l ∈ xs ∧ ∀ q, Some q ∈ xs → (l <= q)%Q.
Proof.
  unfold Num.nanmin. destruct (Num.present xs) as [|p ps] eqn:Hp; [done|].
  intros [= <-]. destruct (Qminl_spec p ps) as [Hin Hmin].
  rewrite <- Hp in Hin, Hmin. split.
  - by apply elem_of_present.
  - intros q Hq. by apply Hmin, elem_of_present.
Qed.

(** (X17) The basic statistics of transformed data with a grade level
    column, whose subject columns hold a score each: the total is the
    number of records; the highest grade is an overall average that some
    record has and that no record exceeds, and likewise the lowest
    grade. *)
Theorem basic_stats_extremes st c st' :
  transform_data st = (Returns (Some c), st') →
  has_column "grade_level" (store st' !!! c) = true →
  scored (store st' !!! c) →
  ∃ rs b, (analyze_data st').1 = Returns (Some rs)
    ∧ basic_stats rs = Some b
    ∧ total_students b = nrows (store st' !!! c)
    ∧ (∀ h, highest_grade b = Some h →
         Some h ∈ cells_of (store st' !!! c) "overall_average"
         ∧ ∀ q, Some q ∈ cells_of (store st' !!! c) "overall_average" →
             (q <= h)%Q)
    ∧ (∀ l, lowest_grade b = Some l →
         Some l ∈ cells_of (store st' !!! c) "overall_average"
         ∧ ∀ q, Some q ∈ cells_of (store st' !!! c) "overall_average" →
             (l <= q)%Q).
Proof.
  intros (T & oa & lg & -> & Hc & HT & Han & <- & _ & _ & Hsc & _)
    %transform_data_analyzable.
  intros [ks Hks]%has_column_true [Hpoa Hpsub]%Hsc.
  rewrite (analyze_data_closed_form st' c T _ _ ks Hc HT Han Hpoa Hpsub Hks).
  eexists _, _. split; [done|]. split; [done|]. split; [done|]. simpl. split.
  - apply nanmax_spec.
  - apply nanmin_spec.
Qed.

End BasicStatistics.

(** ** The pipeline *)

Section Pipeline.
Variable repr : Q → string.
Implicit Types (st : Analyzer) (df file : DataFrame) (c : loc).

Lemma float_columns_returns cols (cs0 : list (string * Series)) :
  (∀ col, col ∈ cols → ∃ xs, lookup_column col cs0 = Some (Float64 xs)) →
  ∃ cs, float_columns (selection cols cs0) = Returns cs.
Proof.
  induction cols as [|col cols IH]; intros H; [by eexists|].
  destruct (H col) as [xs Hxs]; [by left|].
  destruct IH as [cs Hcs]; [intros; apply H; by right|].
  exists ((col, xs) :: cs). unfold selection. cbn [omap list_omap].
  fold (selection cols cs0). rewrite Hxs. simpl. by rewrite Hcs.
Qed.

(** (X18) Loading, cleaning, transforming and analysing a file that has at
    least one subject column, numeric subject columns with a score in
    each, and a grade level column succeeds: the analysis returns
    results, which count every record of the file once in the total and
    once in the grade distribution. *)
Theorem run_pipeline_succeeds st file :
  numeric_subjects file →
  existing_grade_columns file ≠ [] →
  scored file →
  has_column "grade_level" file = true →
  ∃ rs st' gd, run_pipeline repr file st = (Returns (Some rs), st')
    ∧ results st' = rs
    ∧ total_students <$> basic_stats rs = Some (nrows file)
    ∧ grade_distribution rs = Some gd
    ∧ sum_counts gd = nrows file.
Proof.
  intros Hnum Hne Hsc [ks Hks]%has_column_true. unfold run_pipeline.
  set (l := fresh (dom (store st))).
  set (st0 := mkAnalyzer (<[l := file]> (store st)) (Some l)
                (cleaned_data st) (results st)).
  rewrite (bind_returns (load_data file) _ st l st0 eq_refl).
  destruct (clean_data_contents repr st0 l file) as
    (c & df' & Hclean & Hn & Hnames & Hg & Ht & _); [done| |done|].
  { apply lookup_insert_eq. }
  rewrite (bind_returns _ _ _ _ _ Hclean).
  set (st1 := mkAnalyzer (<[c := df']> (store st0)) (Some l) (Some c)
                (results st0)).
  assert (Hex : existing_grade_columns df' = existing_grade_columns file).
  { apply existing_ext. intros col _. unfold has_column. by rewrite Hnames. }
  destruct (float_columns_returns (existing_grade_columns df') (columns df'))
    as [cs Hcs].
  { rewrite Hex. intros col [Hcol [s Hs]]%elem_of_existing.
    destruct (numeric_subjects_Float64 file col s Hnum Hcol Hs) as [xs ->].
    eexists. by apply Hg. }
  assert (Htrans := transform_data_returns st1 c df' cs eq_refl
                      (lookup_insert_eq _ _ _) ltac:(by rewrite Hex) Hcs).
  rewrite (bind_returns _ _ _ _ _ Htrans).
  set (st2 := set_store (<[c := transformed df' cs]> (store st1)) st1).
  assert (Han := transformed_analyzable df' cs ltac:(by rewrite Hex) Hcs).
  assert (Hsc' : scored (transformed df' cs)).
  { intros col. rewrite transformed_existing, Hex. intros Hcol.
    destruct (Hsc col Hcol) as (i & q & Hi & Hq).
    apply elem_of_existing in Hcol as [Hcol [s Hs]].
    destruct (numeric_subjects_Float64 file col s Hnum Hcol Hs) as [xs ->].
    exists i, (Num.round1 q). split.
    { by rewrite transformed_nrows, Hn. }
    rewrite score_transformed by done.
    unfold score, float_cell in Hq |- *. rewrite Hs in Hq.
    rewrite (Hg col xs Hcol Hs), list_lookup_fmap.
    destruct (xs !! i) as [[x|]|]; [|done..]. simpl in Hq.
    injection Hq as ->. done. }
  destruct (transformed_has_values df' cs ltac:(by rewrite Hex) Hcs Hsc')
    as [Hpoa Hpsub].
  assert (Hlevel : lookup_column "grade_level" (columns (transformed df' cs))
                   = Some (cleaned_text repr "grade_level" ks)).
  { rewrite transformed_other by (unfold derived_columns; set_solver).
    apply Ht; [unfold text_columns; set_solver|done]. }
  rewrite (analyze_data_closed_form st2 c _ _ _ _ eq_refl
             (lookup_insert_eq _ _ _) Han Hpoa Hpsub Hlevel).
  eexists _, _, _. split; [reflexivity|]. split; [done|]. split.
  { simpl. by rewrite Hn. }
  split; [done|]. by rewrite sum_counts_letter_grade.
Qed.

End Pipeline.

(** ** The dashboard's derived columns *)

Section DashboardColumns.
Implicit Types (st : Analyzer) (df : DataFrame) (c : loc) (col : string).

Lemma processed_transformed df cs :
  transformed df cs
  = set_column "worst_subject" (Object (worst_subject_of cs (nrows df)))
      (set_column "best_subject" (Object (best_subject_of cs (nrows df)))
         (processed df cs)).
Proof. reflexivity. Qed.

Lemma processed_lookup df cs col :
  col ∈ dashboard_columns →
  lookup_column col (columns (processed df cs))
  = lookup_column col (columns (transformed df cs)).
Proof.
  intros H. rewrite processed_transformed.
  rewrite !lookup_set_column_ne; [done|..]; intros <-; revert H;
    unfold dashboard_columns; set_solver.
Qed.

Lemma processed_other df cs col :
  col ∉ dashboard_columns →
  lookup_column col (columns (processed df cs)) = lookup_column col (columns df).
Proof.
  intros H. unfold processed. cbv zeta.
  rewrite !lookup_set_column_ne; [done|..]; intros <-; apply H;
    unfold dashboard_columns; set_solver.
Qed.

Lemma process_raw_frame_returns df cs :
  existing_grade_columns df ≠ [] → subject_cells df = Returns cs →
  Dashboard.process_raw_frame df = (Returns tt, processed df cs).
Proof.
  intros Hne Hcs. unfold Dashboard.process_raw_frame.
  rewrite (bind_returns get _ df df df eq_refl). cbv zeta.
  rewrite bool_decide_eq_true_2 by done.
  rewrite (bind_returns _ _ _ _ _ (mean_axis1_existing df cs Hcs)).
  cbv beta. step. step.
  set (df1 := set_column "overall_average" _ df).
  erewrite bind_returns by (apply getitem_Some, lookup_set_column_eq).
  cbv beta. step. step.
  erewrite bind_returns
    by (apply getitem_Some; rewrite lookup_set_column_ne by done;
        apply lookup_set_column_eq).
  cbv beta. step. reflexivity.
Qed.

Lemma process_raw_frame_empty df :
  existing_grade_columns df = [] →
  Dashboard.process_raw_frame df = (Returns tt, df).
Proof.
  intros H. unfold Dashboard.process_raw_frame.
  rewrite (bind_returns get _ df df df eq_refl). by rewrite H.
Qed.

Lemma process_raw_frame_raises df e :
  existing_grade_columns df ≠ [] → subject_cells df = Raises e →
  Dashboard.process_raw_frame df = (Raises e, df).
Proof.
  intros Hne Hcs. unfold Dashboard.process_raw_frame.
  rewrite (bind_returns get _ df df df eq_refl). cbv zeta.
  rewrite bool_decide_eq_true_2 by done.
  apply bind_raises. unfold mean_axis1.
  rewrite (bind_returns _ _ _ _ _ (getitems_existing df df (λ _ _, eq_refl))).
  unfold subject_cells in Hcs. unfold_m. by rewrite Hcs.
Qed.

(** (X19) On the cleaned data, the dashboard's [process_raw_data] derives the
    same overall average, letter grade and performance as
    [transform_data], and nothing else: it has no best and worst
    subject. *)
Theorem process_raw_data_matches_transform st c st' :
  transform_data st = (Returns (Some c), st') →
  ∃ P, Dashboard.process_raw_data (Some (store st !!! c)) = (Returns tt, Some P)
    ∧ (∀ col, col ∈ dashboard_columns →
         lookup_column col (columns P)
         = lookup_column col (columns (store st' !!! c)))
    ∧ (∀ col, col ∉ dashboard_columns →
         lookup_column col (columns P)
         = lookup_column col (columns (store st !!! c))).
Proof.
  intros (df & cs & <- & _ & Hne & Hcs & _ & ->)%transform_data_frame.
  exists (processed (store st !!! c) cs). split.
  { unfold Dashboard.process_raw_data.
    rewrite (bind_returns get _ _ _ _ eq_refl).
    unfold Dashboard.on_data.
    by rewrite (process_raw_frame_returns _ cs Hne Hcs). }
  split.
  - intros col Hcol. by apply processed_lookup.
  - intros col Hcol. by apply processed_other.
Qed.

End DashboardColumns.

Section DashboardEnsure.
Implicit Types (df : DataFrame) (col : string).

Lemma bind_inv {S A B} (m : M S A) (k : A → M S B) s o s' :
  (m ≫= k) s = (o, s') →
  (∃ e, m s = (Raises e, s') ∧ o = Raises e)
  ∨ (∃ a s1, m s = (Returns a, s1) ∧ k a s1 = (o, s')).
Proof.
  unfold mbind, M_bind. destruct (m s) as [[a|e] s1].
  - intros H. right. by exists a, s1.
  - intros [= <- <-]. left. by exists e.
Qed.

Lemma adds_only_refl col df : adds_only col df df.
Proof. by left. Qed.

Lemma adds_only_lookup col df df' c :
  adds_only col df df' → is_Some (lookup_column c (columns df)) →
  lookup_column c (columns df') = lookup_column c (columns df).
Proof.
  intros [->|(Hnone & s & ->)] Hc; [done|].
  apply lookup_set_column_ne. intros ->. rewrite Hnone in Hc.
  by destruct Hc.
Qed.

Lemma adds_only_has col df df' c :
  adds_only col df df' → c ≠ col → has_column c df' = has_column c df.
Proof.
  intros [->|(Hnone & s & ->)] Hc; [done|].
  rewrite has_column_set. by rewrite bool_decide_eq_false_2.
Qed.

Lemma adds_only_has_mono col df df' c :
  adds_only col df df' → has_column c df = true → has_column c df' = true.
Proof.
  intros [->|(Hnone & s & ->)] Hc; [done|].
  rewrite has_column_set, Hc. apply orb_true_r.
Qed.

Lemma adds_only_existing col df df' :
  adds_only col df df' → col ∈ derived_columns →
  existing_grade_columns df' = existing_grade_columns df.
Proof.
  intros H Hd. apply existing_ext. intros c Hc.
  apply (adds_only_has col); [done|]. intros ->.
  by apply (grade_not_derived col).
Qed.

(** The three steps of [ensure_processed_columns], one by one. *)
Lemma ensure_overall_average_spec df :
  ∃ o d, Dashboard.ensure_overall_average df = (o, d)
    ∧ adds_only "overall_average" df d
    ∧ (o = Returns tt →
       has_column "overall_average" d = true
       ∨ (has_column "overall_average" d = false
          ∧ existing_grade_columns d = [])).
Proof.
  unfold Dashboard.ensure_overall_average.
  rewrite (bind_returns get _ df df df eq_refl).
  destruct (has_column "overall_average" df) eqn:Hoa; simpl.
  { exists (Returns tt), df. split; [done|]. split; [by left|]. by left. }
  cbv zeta. case_bool_decide as Hne; simpl.
  2:{ exists (Returns tt), df. split; [done|]. split; [by left|]. by right. }
  destruct (subject_cells df) as [cs|e] eqn:Hcs.
  - rewrite (bind_returns _ _ _ _ _ (mean_axis1_existing df cs Hcs)).
    cbv beta. step. unfold setitem, modify.
    eexists _, _. split; [done|]. split.
    + right. split; [by apply has_column_false|by eexists].
    + intros _. left. rewrite has_column_set. done.
  - exists (Raises e), df. split; [|split; [by left|done]].
    apply bind_raises. unfold mean_axis1.
    rewrite (bind_returns _ _ _ _ _ (getitems_existing df df (λ _ _, eq_refl))).
    unfold subject_cells in Hcs. unfold_m. by rewrite Hcs.
Qed.

Lemma ensure_letter_grade_spec df :
  ∃ o d, Dashboard.ensure_letter_grade df = (o, d)
    ∧ adds_only "letter_grade" df d
    ∧ (o = Returns tt → has_column "overall_average" d = true →
       has_column "letter_grade" d = true).
Proof.
  unfold Dashboard.ensure_letter_grade.
  rewrite (bind_returns get _ df df df eq_refl).
  destruct (has_column "letter_grade" df) eqn:Hlg; simpl.
  { exists (Returns tt), df. split; [done|]. split; [by left|done]. }
  destruct (has_column "overall_average" df) eqn:Hoa; simpl.
  2:{ exists (Returns tt), df. split; [done|]. split; [by left|].
      intros _ H. congruence. }
  apply has_column_true in Hoa as [s Hs].
  rewrite (bind_returns _ _ _ _ _ (getitem_Some _ _ _ Hs)).
  destruct s as [xs|xs]; simpl.
  - step. unfold setitem, modify. eexists _, _. split; [done|]. split.
    + right. split; [by apply has_column_false|by eexists].
    + intros _ _. rewrite has_column_set. done.
  - exists (Raises TypeError), df. split; [done|]. split; [by left|done].
Qed.

Lemma ensure_performance_spec df :
  ∃ o d, Dashboard.ensure_performance df = (o, d)
    ∧ adds_only "performance" df d
    ∧ (o = Returns tt → has_column "overall_average" d = true →
       has_column "performance" d = true).
Proof.
  unfold Dashboard.ensure_performance.
  rewrite (bind_returns get _ df df df eq_refl).
  destruct (has_column "performance" df) eqn:Hlg; simpl.
  { exists (Returns tt), df. split; [done|]. split; [by left|done]. }
  destruct (has_column "overall_average" df) eqn:Hoa; simpl.
  2:{ exists (Returns tt), df. split; [done|]. split; [by left|].
      intros _ H. congruence. }
  apply has_column_true in Hoa as [s Hs].
  rewrite (bind_returns _ _ _ _ _ (getitem_Some _ _ _ Hs)).
  destruct s as [xs|xs]; simpl.
  - step. unfold setitem, modify. eexists _, _. split; [done|]. split.
    + right. split; [by apply has_column_false|by eexists].
    + intros _ _. rewrite has_column_set. done.
  - exists (Raises TypeError), df. split; [done|]. split; [by left|done].
Qed.

(** The frames [ensure_processed_frame] goes through. *)
Lemma ensure_processed_frame_steps df o d :
  Dashboard.ensure_processed_frame df = (o, d) →
  ∃ d1 d2, adds_only "overall_average" df d1
    ∧ adds_only "letter_grade" d1 d2
    ∧ adds_only "performance" d2 d
    ∧ (o = Returns tt → settled d).
Proof.
  unfold Dashboard.ensure_processed_frame. intros H.
  destruct (ensure_overall_average_spec df) as (o1 & d1 & R1 & A1 & P1).
  destruct (ensure_letter_grade_spec d1) as (o2 & d2 & R2 & A2 & P2).
  destruct (ensure_performance_spec d2) as (o3 & d3 & R3 & A3 & P3).
  apply bind_inv in H as [(e & He & ->)|([] & s1 & H1 & H)].
  { rewrite R1 in He. injection He as -> ->.
    exists d, d. by repeat split; try apply adds_only_refl. }
  rewrite R1 in H1. injection H1 as -> <-.
  apply bind_inv in H as [(e & He & ->)|([] & s2 & H2 & H)].
  { rewrite R2 in He. injection He as -> ->.
    exists d1, d. by repeat split; try apply adds_only_refl. }
  rewrite R2 in H2. injection H2 as -> <-.
  rewrite R3 in H. injection H as -> ->.
  exists d1, d2. split; [done|]. split; [done|]. split; [done|].
  intros ->. unfold settled.
  destruct (has_column "overall_average" d) eqn:Hoa.
  - split; [|by apply P3].
    apply (adds_only_has_mono "performance" d2 d); [done|].
    apply P2; [done|].
    by rewrite <- (adds_only_has "performance" d2 d "overall_average").
  - assert (Hpf : "performance" ∈ derived_columns)
      by (unfold derived_columns; set_solver).
    assert (Hlg : "letter_grade" ∈ derived_columns)
      by (unfold derived_columns; set_solver).
    rewrite (adds_only_existing "performance" d2 d A3 Hpf),
            (adds_only_existing "letter_grade" d1 d2 A2 Hlg).
    destruct (P1 eq_refl) as [H1|[_ H1]]; [|done].
    rewrite <- (adds_only_has "letter_grade" d1 d2 "overall_average") in H1;
      [|done|done].
    rewrite <- (adds_only_has "performance" d2 d "overall_average") in H1;
      [|done|done].
    congruence.
Qed.

Lemma ensure_overall_average_skip df :
  has_column "overall_average" df = true ∨ existing_grade_columns df = [] →
  Dashboard.ensure_overall_average df = (Returns tt, df).
Proof.
  intros H. unfold Dashboard.ensure_overall_average.
  rewrite (bind_returns get _ df df df eq_refl).
  destruct (has_column "overall_average" df); [done|].
  destruct H as [? | ->]; done.
Qed.

Lemma ensure_overall_average_set df cs :
  has_column "overall_average" df = false →
  existing_grade_columns df ≠ [] → subject_cells df = Returns cs →
  Dashboard.ensure_overall_average df
  = (Returns tt,
     set_column "overall_average" (Float64 (overall_average_of cs (nrows df))) df).
Proof.
  intros Hoa Hne Hcs. unfold Dashboard.ensure_overall_average.
  rewrite (bind_returns get _ df df df eq_refl), Hoa. simpl. cbv zeta.
  rewrite bool_decide_eq_true_2 by done. simpl.
  rewrite (bind_returns _ _ _ _ _ (mean_axis1_existing df cs Hcs)).
  cbv beta. step. reflexivity.
Qed.

Lemma ensure_overall_average_raises df e :
  has_column "overall_average" df = false →
  existing_grade_columns df ≠ [] → subject_cells df = Raises e →
  Dashboard.ensure_overall_average df = (Raises e, df).
Proof.
  intros Hoa Hne Hcs. unfold Dashboard.ensure_overall_average.
  rewrite (bind_returns get _ df df df eq_refl), Hoa. simpl. cbv zeta.
  rewrite bool_decide_eq_true_2 by done. simpl.
  apply bind_raises. unfold mean_axis1.
  rewrite (bind_returns _ _ _ _ _ (getitems_existing df df (λ _ _, eq_refl))).
  unfold subject_cells in Hcs. unfold_m. by rewrite Hcs.
Qed.

Lemma ensure_letter_grade_skip df :
  has_column "letter_grade" df = true ∨ has_column "overall_average" df = false →
  Dashboard.ensure_letter_grade df = (Returns tt, df).
Proof.
  intros H. unfold Dashboard.ensure_letter_grade.
  rewrite (bind_returns get _ df df df eq_refl).
  destruct H as [-> | ->]; [done|]. by rewrite andb_false_r.
Qed.

Lemma ensure_letter_grade_set df oa :
  has_column "letter_grade" df = false →
  lookup_column "overall_average" (columns df) = Some (Float64 oa) →
  Dashboard.ensure_letter_grade df
  = (Returns tt,
     set_column "letter_grade"
       (Object ((λ a, Some (get_letter_grade a)) <$> oa)) df).
Proof.
  intros Hlg Hoa. unfold Dashboard.ensure_letter_grade.
  rewrite (bind_returns get _ df df df eq_refl), Hlg.
  rewrite (proj2 (has_column_true "overall_average" df)) by by eexists.
  simpl. rewrite (bind_returns _ _ _ _ _ (getitem_Some _ _ _ Hoa)).
  step. reflexivity.
Qed.

Lemma ensure_performance_skip df :
  has_column "performance" df = true ∨ has_column "overall_average" df = false →
  Dashboard.ensure_performance df = (Returns tt, df).
Proof.
  intros H. unfold Dashboard.ensure_performance.
  rewrite (bind_returns get _ df df df eq_refl).
  destruct H as [-> | ->]; [done|]. by rewrite andb_false_r.
Qed.

Lemma ensure_performance_set df oa :
  has_column "performance" df = false →
  lookup_column "overall_average" (columns df) = Some (Float64 oa) →
  Dashboard.ensure_performance df
  = (Returns tt,
     set_column "performance"
       (Object ((λ a, Some (get_performance_category a)) <$> oa)) df).
Proof.
  intros Hlg Hoa. unfold Dashboard.ensure_performance.
  rewrite (bind_returns get _ df df df eq_refl), Hlg.
  rewrite (proj2 (has_column_true "overall_average" df)) by by eexists.
  simpl. rewrite (bind_returns _ _ _ _ _ (getitem_Some _ _ _ Hoa)).
  step. reflexivity.
Qed.

Lemma settled_ensure df :
  settled df → Dashboard.ensure_processed_frame df = (Returns tt, df).
Proof.
  unfold settled, Dashboard.ensure_processed_frame.
  destruct (has_column "overall_average" df) eqn:Hoa.
  - intros [Hlg Hpf].
    rewrite (bind_returns _ _ _ _ _ (ensure_overall_average_skip df (or_introl Hoa))).
    rewrite (bind_returns _ _ _ _ _ (ensure_letter_grade_skip df (or_introl Hlg))).
    by apply ensure_performance_skip; left.
  - intros He.
    rewrite (bind_returns _ _ _ _ _ (ensure_overall_average_skip df (or_intror He))).
    rewrite (bind_returns _ _ _ _ _ (ensure_letter_grade_skip df (or_intror Hoa))).
    by apply ensure_performance_skip; right.
Qed.

Lemma ensure_processed_columns_frame df :
  Dashboard.ensure_processed_columns (Some df)
  = ((Dashboard.ensure_processed_frame df).1,
     Some (Dashboard.ensure_processed_frame df).2).
Proof. reflexivity. Qed.

(** (X20) [ensure_processed_columns] never overwrites: whatever its outcome,
    every column the data had is left as it was, so that an overall
    average, a letter grade or a performance found in the file is kept as
    it is. *)
Theorem ensure_never_overwrites df o d :
  Dashboard.ensure_processed_columns (Some df) = (o, d) →
  ∃ df', d = Some df'
    ∧ ∀ col, is_Some (lookup_column col (columns df)) →
        lookup_column col (columns df') = lookup_column col (columns df).
Proof.
  rewrite ensure_processed_columns_frame.
  destruct (Dashboard.ensure_processed_frame df) as [o' df'] eqn:H.
  intros [= <- <-]. exists df'. split; [done|].
  destruct (ensure_processed_frame_steps df o' df' H)
    as (d1 & d2 & A1 & A2 & A3 & _).
  intros col Hcol.
  assert (H1 := adds_only_lookup _ _ _ col A1 Hcol).
  assert (H2 := adds_only_lookup _ _ _ col A2 ltac:(by rewrite H1)).
  assert (H3 := adds_only_lookup _ _ _ col A3 ltac:(by rewrite H2, H1)).
  congruence.
Qed.

(** (X21) [ensure_processed_columns] is idempotent: once it has returned, a
    second call changes nothing. *)
Theorem ensure_idempotent df d :
  Dashboard.ensure_processed_columns (Some df) = (Returns tt, d) →
  Dashboard.ensure_processed_columns d = (Returns tt, d).
Proof.
  rewrite ensure_processed_columns_frame.
  destruct (Dashboard.ensure_processed_frame df) as [o' df'] eqn:H.
  simpl. intros [= -> <-].
  destruct (ensure_processed_frame_steps df _ df' H) as (_ & _ & _ & _ & _ & Hs).
  rewrite ensure_processed_columns_frame.
  by rewrite (settled_ensure df' (Hs eq_refl)).
Qed.

(** (X22) On data that has none of the three derived columns,
    [ensure_processed_columns] does what [process_raw_data] does. *)
Theorem ensure_matches_process df :
  (∀ col, col ∈ dashboard_columns → has_column col df = false) →
  Dashboard.ensure_processed_columns (Some df)
  = Dashboard.process_raw_data (Some df).
Proof.
  intros Hnone.
  assert (Hoa : has_column "overall_average" df = false)
    by (apply Hnone; unfold dashboard_columns; set_solver).
  assert (Hlg : has_column "letter_grade" df = false)
    by (apply Hnone; unfold dashboard_columns; set_solver).
  assert (Hpf : has_column "performance" df = false)
    by (apply Hnone; unfold dashboard_columns; set_solver).
  rewrite ensure_processed_columns_frame.
  unfold Dashboard.process_raw_data.
  rewrite (bind_returns get _ _ _ _ eq_refl). unfold Dashboard.on_data.
  cbv zeta.
  assert (Dashboard.ensure_processed_frame df = Dashboard.process_raw_frame df)
    as ->; [|done].
  unfold Dashboard.ensure_processed_frame.
  destruct (decide (existing_grade_columns df = [])) as [He|Hne].
  { rewrite (process_raw_frame_empty df He).
    rewrite (bind_returns _ _ _ _ _ (ensure_overall_average_skip df (or_intror He))).
    rewrite (bind_returns _ _ _ _ _ (ensure_letter_grade_skip df (or_intror Hoa))).
    by apply ensure_performance_skip; right. }
  destruct (subject_cells df) as [cs|e] eqn:Hcs.
  - rewrite (process_raw_frame_returns df cs Hne Hcs).
    rewrite (bind_returns _ _ _ _ _ (ensure_overall_average_set df cs Hoa Hne Hcs)).
    set (d1 := set_column "overall_average" _ df).
    erewrite bind_returns.
    2:{ apply (ensure_letter_grade_set d1).
        - unfold d1. by rewrite has_column_set.
        - apply lookup_set_column_eq. }
    set (d2 := set_column "letter_grade" _ d1).
    erewrite (ensure_performance_set d2).
    + reflexivity.
    + unfold d2, d1. by rewrite !has_column_set.
    + unfold d2. rewrite lookup_set_column_ne by done.
      apply lookup_set_column_eq.
  - rewrite (process_raw_frame_raises df e Hne Hcs).
    by apply bind_raises, ensure_overall_average_raises.
Qed.

End DashboardEnsure.

(** ** The filters of the sidebar *)

Section Filters.

Implicit Types (df : DataFrame) (mask : list bool) (s : Series).
Implicit Types (selected : Dashboard.choice).

Lemma select_nil {A} mask : Dashboard.select mask (@nil A) = [].
Proof. by destruct mask. Qed.

Lemma select_fmap {A B} (f : A → B) mask (xs : list A) :
  Dashboard.select mask (f <$> xs) = f <$> Dashboard.select mask xs.
Proof.
  revert xs. induction mask as [|b mask IH]; intros [|x xs]; simpl; try done.
  destruct b; simpl; by rewrite IH.
Qed.

Lemma select_length_ext {A B} mask (xs : list A) (ys : list B) :
  length xs = length ys →
  length (Dashboard.select mask xs) = length (Dashboard.select mask ys).
Proof.
  revert xs ys. induction mask as [|b mask IH]; intros [|x xs] [|y ys] H;
    simpl in *; try done.
  injection H as H. destruct b; simpl; by rewrite (IH xs ys H).
Qed.

Lemma select_length_le {A} mask (xs : list A) :
  (length (Dashboard.select mask xs) ≤ length xs)%nat.
Proof.
  revert xs. induction mask as [|b mask IH]; intros [|x xs]; simpl; try lia.
  specialize (IH xs). destruct b; simpl; lia.
Qed.

Lemma select_select {A} mask mask' (xs : list A) :
  Dashboard.select (Dashboard.select mask mask') (Dashboard.select mask xs)
  = Dashboard.select (zip_with andb mask mask') xs.
Proof.
  revert mask' xs. induction mask as [|b mask IH]; intros mask' xs; [done|].
  destruct mask' as [|c mask']; [by rewrite select_nil|].
  destruct xs as [|x xs]; [by rewrite !select_nil|].
  destruct b; simpl; [|apply IH].
  destruct c; by rewrite IH.
Qed.

Lemma select_repeat_true {A} (xs : list A) n :
  (length xs ≤ n)%nat → Dashboard.select (repeat true n) xs = xs.
Proof.
  revert n. induction xs as [|x xs IH]; intros [|n] H; simpl in *;
    try done; try lia.
  f_equal. apply IH. lia.
Qed.

Lemma select_of_repeat_true mask n :
  Dashboard.select mask (repeat true n)
  = repeat true (length (Dashboard.select mask (seq 0 n))).
Proof.
  assert (∀ k, Dashboard.select mask (repeat true n)
               = repeat true (length (Dashboard.select mask (seq k n)))) as H;
    [|apply H].
  revert n. induction mask as [|b mask IH]; intros [|n] k; simpl; try done.
  destruct b; simpl; by rewrite (IH n (S k)).
Qed.

Lemma zip_with_andb_repeat_true mask n :
  (length mask ≤ n)%nat → zip_with andb mask (repeat true n) = mask.
Proof.
  revert n. induction mask as [|b mask IH]; intros [|n] H; simpl in *;
    try done; try lia.
  rewrite andb_true_r. f_equal. apply IH. lia.
Qed.

Lemma zip_with_andb_true_repeat mask n :
  (length mask ≤ n)%nat → zip_with andb (repeat true n) mask = mask.
Proof.
  revert n. induction mask as [|b mask IH]; intros [|n] H; simpl in *;
    try done; try lia.
  f_equal. apply IH. lia.
Qed.

Lemma select_implied mask mask' :
  (∀ i, mask !! i = Some true → mask' !! i = Some true) →
  Forall (eq true) (Dashboard.select mask mask').
Proof.
  revert mask'. induction mask as [|b mask IH]; intros mask' H; [constructor|].
  destruct mask' as [|c mask']; [constructor|].
  assert (Forall (eq true) (Dashboard.select mask mask')) as Hrest.
  { apply IH. intros i Hi. apply (H (S i) Hi). }
  destruct b; simpl; [|done].
  constructor; [|done].
  specialize (H 0 eq_refl). simpl in H. congruence.
Qed.

Lemma series_eq_select mask s selected :
  Dashboard.series_eq (Dashboard.select_series mask s) selected
  = Dashboard.select mask (Dashboard.series_eq s selected).
Proof. destruct s; simpl; by rewrite select_fmap. Qed.

Lemma series_eq_length s selected :
  length (Dashboard.series_eq s selected) = series_length s.
Proof. destruct s; simpl; by rewrite length_fmap. Qed.

Lemma series_length_select mask s :
  series_length (Dashboard.select_series mask s)
  = length (Dashboard.select mask (seq 0 (series_length s))).
Proof.
  destruct s; simpl; apply select_length_ext; by rewrite length_seq.
Qed.

Lemma lookup_filter_rows col mask df :
  lookup_column col (columns (Dashboard.filter_rows mask df))
  = Dashboard.select_series mask <$> lookup_column col (columns df).
Proof.
  unfold Dashboard.filter_rows. simpl.
  induction (columns df) as [|[name s] cs IH]; simpl; [done|].
  destruct (decide (name = col)); [done|apply IH].
Qed.

Lemma column_names_filter_rows mask df :
  column_names (Dashboard.filter_rows mask df) = column_names df.
Proof.
  unfold column_names, Dashboard.filter_rows. simpl.
  rewrite <- list_fmap_compose. by apply list_fmap_ext.
Qed.

Lemma has_column_filter_rows col mask df :
  has_column col (Dashboard.filter_rows mask df) = has_column col df.
Proof. unfold has_column. by rewrite column_names_filter_rows. Qed.

Lemma nrows_filter_rows_le mask df :
  (nrows (Dashboard.filter_rows mask df) ≤ nrows df)%nat.
Proof.
  unfold Dashboard.filter_rows. simpl.
  etrans; [apply select_length_le|]. by rewrite length_seq.
Qed.

Lemma well_formed_lookup df col s :
  well_formed df → lookup_column col (columns df) = Some s →
  series_length s = nrows df.
Proof.
  unfold well_formed. generalize (nrows df) as n.
  induction (columns df) as [|[name s'] cs IH]; intros n Hwf H; [done|].
  apply Forall_cons in Hwf as [Hs Hwf]. simpl in H.
  destruct (decide (name = col)); [|by apply IH].
  injection H as <-. by destruct s'.
Qed.

Lemma well_formed_filter_rows mask df :
  well_formed df → well_formed (Dashboard.filter_rows mask df).
Proof.
  unfold well_formed, Dashboard.filter_rows. simpl. intros Hwf.
  apply Forall_fmap. eapply Forall_impl; [exact Hwf|].
  intros [name s] Hs. simpl in *.
  destruct s; simpl; apply select_length_ext; by rewrite length_seq.
Qed.

Lemma filter_rows_all df :
  well_formed df → Dashboard.filter_rows (repeat true (nrows df)) df = df.
Proof.
  intros Hwf. unfold Dashboard.filter_rows. destruct df as [n cs].
  unfold well_formed in Hwf. simpl in *. f_equal.
  - rewrite select_repeat_true by by rewrite length_seq.
    by rewrite length_seq.
  - induction Hwf as [|[name s] cs Hs Hwf IH]; [done|].
    rewrite fmap_cons, IH. simpl in *. do 2 f_equal.
    destruct s; simpl; by rewrite select_repeat_true by lia.
Qed.

Lemma filter_rows_filter_rows mask mask' df :
  Dashboard.filter_rows (Dashboard.select mask mask') (Dashboard.filter_rows mask df)
  = Dashboard.filter_rows (zip_with andb mask mask') df.
Proof.
  unfold Dashboard.filter_rows. simpl. f_equal.
  - rewrite <- select_select. apply select_length_ext. by rewrite length_seq.
  - rewrite <- list_fmap_compose. apply list_fmap_ext. intros i [name s] _.
    simpl. destruct s; simpl; by rewrite select_select.
Qed.

Lemma mask_of_length col selected df :
  well_formed df → length (mask_of col selected df) = nrows df.
Proof.
  intros Hwf. unfold mask_of.
  destruct (lookup_column col (columns df)) as [s|] eqn:Hs;
    [|by rewrite repeat_length].
  destruct (Dashboard.chosen selected); [|by rewrite repeat_length].
  rewrite series_eq_length. by apply (well_formed_lookup df col).
Qed.

Lemma mask_of_filter_rows col selected mask df :
  mask_of col selected (Dashboard.filter_rows mask df)
  = Dashboard.select mask (mask_of col selected df).
Proof.
  unfold mask_of. rewrite lookup_filter_rows.
  assert (repeat true (nrows (Dashboard.filter_rows mask df))
          = Dashboard.select mask (repeat true (nrows df))) as Hall.
  { by rewrite select_of_repeat_true. }
  destruct (lookup_column col (columns df)) as [s|]; simpl; [|done].
  destruct (Dashboard.chosen selected); [|done].
  apply series_eq_select.
Qed.

(** One filter keeps the rows of its mask. *)
Lemma filter_step_run col selected df :
  well_formed df →
  Dashboard.filter_step col selected df
  = (Returns tt, Dashboard.filter_rows (mask_of col selected df) df).
Proof.
  intros Hwf. unfold Dashboard.filter_step, mask_of.
  rewrite (bind_returns get _ df df df eq_refl).
  destruct (lookup_column col (columns df)) as [s|] eqn:Hs.
  - rewrite (proj2 (has_column_true col df)) by by eexists.
    rewrite andb_true_r.
    destruct (Dashboard.chosen selected); simpl.
    + by rewrite (bind_returns _ _ _ _ _ (getitem_Some _ _ _ Hs)).
    + by rewrite filter_rows_all.
  - rewrite (proj2 (has_column_false col df)) by done.
    rewrite andb_false_r. simpl. by rewrite filter_rows_all.
Qed.

(** One filter never raises, keeps the columns and adds no row. *)
Lemma filter_step_returns col selected df :
  ∃ df', Dashboard.filter_step col selected df = (Returns tt, df')
         ∧ column_names df' = column_names df ∧ (nrows df' ≤ nrows df)%nat.
Proof.
  unfold Dashboard.filter_step.
  rewrite (bind_returns get _ df df df eq_refl).
  destruct (Dashboard.chosen selected); simpl; [|by exists df].
  destruct (has_column col df) eqn:Hc; simpl; [|by exists df].
  apply has_column_true in Hc as [s Hs].
  rewrite (bind_returns _ _ _ _ _ (getitem_Some _ _ _ Hs)).
  eexists. split; [reflexivity|]. split.
  - apply column_names_filter_rows.
  - apply nrows_filter_rows_le.
Qed.

Lemma apply_filters_run sg sl sp df :
  well_formed df →
  Dashboard.apply_filters sg sl sp df
  = (Returns tt, Dashboard.filter_rows (combined_mask sg sl sp df) df).
Proof.
  intros Hwf. unfold Dashboard.apply_filters, combined_mask.
  rewrite (bind_returns _ _ _ _ _ (filter_step_run "grade_level" sg df Hwf)).
  set (mg := mask_of "grade_level" sg df).
  pose proof (well_formed_filter_rows mg df Hwf) as Hwf1.
  rewrite (bind_returns _ _ _ _ _ (filter_step_run "letter_grade" sl _ Hwf1)).
  rewrite mask_of_filter_rows, filter_rows_filter_rows.
  set (ml := mask_of "letter_grade" sl df).
  pose proof (well_formed_filter_rows (zip_with andb mg ml) df Hwf) as Hwf2.
  rewrite (filter_step_run "performance" sp _ Hwf2).
  by rewrite mask_of_filter_rows, filter_rows_filter_rows.
Qed.

Lemma combined_mask_implies sg sl sp df i :
  combined_mask sg sl sp df !! i = Some true →
  mask_of "grade_level" sg df !! i = Some true
  ∧ mask_of "letter_grade" sl df !! i = Some true
  ∧ mask_of "performance" sp df !! i = Some true.
Proof.
  unfold combined_mask. intros H.
  apply lookup_zip_with_Some in H as (a & p & Hap & Ha & Hp).
  apply lookup_zip_with_Some in Ha as (g & l & Hgl & Hg & Hl).
  symmetry in Hap. apply andb_true_iff in Hap as [-> ->].
  symmetry in Hgl. apply andb_true_iff in Hgl as [-> ->]. done.
Qed.

(** (X23) The filters AND-combine: the filtered data is the data
    restricted to the rows of the combined mask, and a row is in the
    combined mask exactly when it passes the three filters, each taken on
    the unfiltered data. *)
Theorem filters_and_combine sg sl sp df :
  well_formed df →
  Dashboard.apply_filters sg sl sp df
  = (Returns tt, Dashboard.filter_rows (combined_mask sg sl sp df) df)
  ∧ ∀ i, combined_mask sg sl sp df !! i = Some true
         ↔ mask_of "grade_level" sg df !! i = Some true
           ∧ mask_of "letter_grade" sl df !! i = Some true
           ∧ mask_of "performance" sp df !! i = Some true.
Proof.
  intros Hwf. split; [by apply apply_filters_run|].
  intros i. split; [apply combined_mask_implies|].
  intros (Hg & Hl & Hp). unfold combined_mask.
  apply lookup_zip_with_Some. exists true, true.
  split; [done|]. split; [|done].
  apply lookup_zip_with_Some. by exists true, true.
Qed.

(** (X24) Every row that is left has the selected value in a filtered column. *)
Theorem filtered_rows_match sg sl sp df col selected s :
  well_formed df →
  (col, selected) ∈ [("grade_level", sg); ("letter_grade", sl); ("performance", sp)] →
  Dashboard.chosen selected = true →
  lookup_column col (columns df) = Some s →
  ∃ df' s',
    Dashboard.apply_filters sg sl sp df = (Returns tt, df')
    ∧ lookup_column col (columns df') = Some s'
    ∧ Forall (eq true) (Dashboard.series_eq s' selected).
Proof.
  intros Hwf Hin Hch Hs.
  exists (Dashboard.filter_rows (combined_mask sg sl sp df) df),
         (Dashboard.select_series (combined_mask sg sl sp df) s).
  split; [by apply apply_filters_run|]. split.
  { by rewrite lookup_filter_rows, Hs. }
  rewrite series_eq_select. apply select_implied. intros i Hi.
  apply combined_mask_implies in Hi as (Hg & Hl & Hp).
  assert (mask_of col selected df = Dashboard.series_eq s selected) as <-.
  { unfold mask_of. by rewrite Hs, Hch. }
  rewrite !elem_of_cons in Hin.
  destruct Hin as [Hin|[Hin|[Hin|Hin]]];
    [by injection Hin as -> ->..|by apply elem_of_nil in Hin].
Qed.

(** (X25) The filters never raise; they keep the columns and add no row. *)
Theorem filters_never_raise sg sl sp df :
  ∃ df', Dashboard.apply_filters sg sl sp df = (Returns tt, df')
         ∧ column_names df' = column_names df ∧ (nrows df' ≤ nrows df)%nat.
Proof.
  unfold Dashboard.apply_filters.
  destruct (filter_step_returns "grade_level" sg df) as (d1 & H1 & Hc1 & Hn1).
  destruct (filter_step_returns "letter_grade" sl d1) as (d2 & H2 & Hc2 & Hn2).
  destruct (filter_step_returns "performance" sp d2) as (d3 & H3 & Hc3 & Hn3).
  exists d3.
  rewrite (bind_returns _ _ _ _ _ H1), (bind_returns _ _ _ _ _ H2), H3.
  split; [done|]. split; [congruence|lia].
Qed.

End Filters.

(** ** The raw data along the pipeline *)

Section RawData.
Variable repr : Q → string.
Implicit Types (st : Analyzer) (raw : DataFrame) (c r : loc).

Lemma fresh_ne st r raw :
  store st !! r = Some raw → fresh (dom (store st)) ≠ r.
Proof.
  intros Hraw Heq. pose proof (fresh_store_None st) as Hf.
  rewrite Heq in Hf. congruence.
Qed.

(** What [clean_data] does to the store: one new object, the rest as it
    was. *)
Lemma clean_data_store st r raw o st' :
  raw_data st = Some r → store st !! r = Some raw →
  clean_data repr st = (o, st') →
  raw_data st' = Some r
  ∧ cleaned_data st' = Some (fresh (dom (store st)))
  ∧ store st' = <[fresh (dom (store st)) := (clean_frame repr raw).2]> (store st)
  ∧ o = match (clean_frame repr raw).1 with
        | Returns _ => Returns (Some (fresh (dom (store st))))
        | Raises e => Raises e
        end.
Proof.
  intros Hr Hraw. rewrite (clean_data_run repr st r raw Hr Hraw).
  cbv zeta. by intros [= <- <-].
Qed.

(** What [transform_data] does to the store: it updates the cleaned
    frame, or nothing. *)
Lemma transform_data_store st o st' :
  transform_data st = (o, st') →
  raw_data st' = raw_data st
  ∧ cleaned_data st' = cleaned_data st
  ∧ ∀ l, cleaned_data st ≠ Some l → store st' !! l = store st !! l.
Proof.
  destruct (cleaned_data st) as [c|] eqn:Hc.
  - rewrite (transform_data_run st c Hc). cbv zeta. intros [= <- <-]. simpl.
    split; [done|]. split; [done|]. intros l Hl.
    apply lookup_insert_ne. congruence.
  - rewrite (transform_data_idle st Hc). by intros [= <- <-].
Qed.

(** (X26) Cleaning and transforming never change the raw data: whatever the two
    steps return or raise, the analyzer still refers to the same raw
    frame, with the same contents. *)
Theorem pipeline_keeps_raw_data st r raw o st' :
  raw_data st = Some r → store st !! r = Some raw →
  (clean_data repr;; transform_data) st = (o, st') →
  raw_data st' = Some r ∧ store st' !! r = Some raw.
Proof.
  intros Hr Hraw.
  destruct (clean_data repr st) as [o1 st1] eqn:H1.
  destruct (clean_data_store st r raw o1 st1 Hr Hraw H1) as (Hr1 & Hc1 & Hs1 & _).
  assert (Hraw1 : store st1 !! r = Some raw).
  { rewrite Hs1, lookup_insert_ne; [done|]. by apply (fresh_ne st r raw). }
  destruct o1 as [v|e].
  - rewrite (bind_returns _ _ _ _ _ H1). intros H2.
    destruct (transform_data_store st1 o st' H2) as (Hr2 & _ & Hs2).
    split; [congruence|]. rewrite Hs2; [done|].
    rewrite Hc1. intros [= Heq]. by apply (fresh_ne st r raw).
  - rewrite (bind_raises _ _ _ _ _ H1). by intros [= <- <-].
Qed.

(** (X27) Cleaning again after a transformation starts over from the raw data:
    it gives the frame the first cleaning gave, in a new object, and the
    transformed frame stays in the store as it is, no longer referred to
    by the analyzer. *)
Theorem clean_again_starts_over st r raw o1 st1 o2 st2 o3 st3 :
  raw_data st = Some r → store st !! r = Some raw →
  clean_data repr st = (o1, st1) →
  transform_data st1 = (o2, st2) →
  clean_data repr st2 = (o3, st3) →
  ∃ c1 c3, cleaned_data st1 = Some c1 ∧ cleaned_data st3 = Some c3
    ∧ c3 ≠ c1
    ∧ store st3 !! c3 = store st1 !! c1
    ∧ store st3 !! c1 = store st2 !! c1.
Proof.
  intros Hr Hraw H1 H2 H3.
  destruct (clean_data_store st r raw o1 st1 Hr Hraw H1) as (Hr1 & Hc1 & Hs1 & _).
  destruct (transform_data_store st1 o2 st2 H2) as (Hr2 & Hc2 & Hs2).
  assert (Hraw2 : store st2 !! r = Some raw).
  { rewrite Hs2.
    - rewrite Hs1, lookup_insert_ne; [done|]. by apply (fresh_ne st r raw).
    - rewrite Hc1. intros [= Heq]. by apply (fresh_ne st r raw). }
  rewrite Hr1 in Hr2.
  destruct (clean_data_store st2 r raw o3 st3 Hr2 Hraw2 H3) as (_ & Hc3 & Hs3 & _).
  set (c1 := fresh (dom (store st))) in *.
  set (c3 := fresh (dom (store st2))) in *.
  assert (Hne : c3 ≠ c1).
  { intros Heq. pose proof (fresh_store_None st2) as Hf. fold c3 in Hf.
    rewrite Heq in Hf.
    destruct (transform_data st1) as [o2' st2'] eqn:Ht.
    injection H2 as -> ->.
    rewrite Hc1 in Hc2.
    destruct o2 as [[c|]|e].
    - apply transform_data_inv in Ht as (Hc & _ & cs & _ & ->).
      simpl in Hf. rewrite Hc1 in Hc. injection Hc as <-.
      by rewrite lookup_insert_eq in Hf.
    - rewrite (transform_data_run st1 c1 Hc1) in Ht. cbv zeta in Ht.
      injection Ht as _ <-. simpl in Hf. by rewrite lookup_insert_eq in Hf.
    - rewrite (transform_data_run st1 c1 Hc1) in Ht. cbv zeta in Ht.
      injection Ht as _ <-. simpl in Hf. by rewrite lookup_insert_eq in Hf. }
  exists c1, c3. split; [done|]. split; [done|]. split; [done|]. split.
  - by rewrite Hs3, Hs1, !lookup_insert_eq.
  - rewrite Hs3. by apply lookup_insert_ne.
Qed.

(** (X28) Cleaning undoes the noise the sample data is given, for names
    and grade levels that are ASCII strings: a name padded with blanks
    gets its blanks removed, and a grade level whose [th] was upper-cased
    gets it back in lower case. *)
Theorem clean_undoes_sample_noise st r raw :
  raw_data st = Some r → store st !! r = Some raw → numeric_subjects raw →
  ∃ c st', clean_data repr st = (Returns (Some c), st')
    ∧ (∀ ys i x, lookup_column "name" (columns raw) = Some (Object ys) →
         ys !! i = Some (Some (pad_name x)) →
         ascii_only x = true → trimmed x →
         object_cell (store st' !!! c) "name" i = Some (Some x))
    ∧ (∀ ys i x, lookup_column "grade_level" (columns raw) = Some (Object ys) →
         ys !! i = Some (Some (upper_th x)) →
         ascii_only x = true → trimmed x → no_upper x = true →
         object_cell (store st' !!! c) "grade_level" i = Some (Some x)).
Proof.
  intros Hr Hraw Hnum.
  destruct (clean_data_contents repr st r raw Hr Hraw Hnum)
    as (c & df' & Hrun & _ & _ & _ & Ht & _).
  eexists c, _. split; [exact Hrun|]. simpl. rewrite lookup_total_insert_eq.
  split.
  - intros ys i x Hs Hi _ Hx. unfold object_cell.
    rewrite (Ht "name" _ ltac:(unfold text_columns; set_solver) Hs).
    unfold cleaned_text, astype_strings.
    rewrite !list_lookup_fmap, Hi. simpl. by rewrite strip_pad_name.
  - intros ys i x Hs Hi _ Hx Hl. unfold object_cell.
    rewrite (Ht "grade_level" _ ltac:(unfold text_columns; set_solver) Hs).
    unfold cleaned_text, astype_strings.
    rewrite !list_lookup_fmap, Hi. simpl. by rewrite normalize_upper_th.
Qed.

End RawData.

(** (X29) The replacement of [TH] by [th] in step 2 of [clean_data] never finds
    anything to replace, since it comes after the lower-casing: the
    normalised grade level is the stripped level in lower case. *)
Theorem grade_level_replace_is_idle x :
  normalize_level x = Str.lower (Str.strip x).
Proof.
  unfold normalize_level.
  apply replace_TH_no_upper, lower_no_upper.
Qed.

(** ** The properties on the sample data *)

(** Cleaning the sample with one missing Math score. *)
Lemma clean_keeps_shape_witness :
  ∃ c st', clean_data const_repr (loaded math_frame) = (Returns (Some c), st')
    ∧ nrows (store st' !!! c) = nrows math_frame
    ∧ column_names (store st' !!! c) = column_names math_frame
    ∧ ∀ col, col ∉ grade_columns → col ∉ text_columns →
        lookup_column col (columns (store st' !!! c))
        = lookup_column col (columns math_frame).
Proof.
  apply (clean_keeps_shape const_repr (loaded math_frame) 0 math_frame);
    reflexivity.
Defined.

Lemma clean_text_cells_trimmed_witness :
  ∃ c st', clean_data const_repr (loaded math_frame) = (Returns (Some c), st')
    ∧ ∀ col s, col ∈ text_columns →
        lookup_column col (columns math_frame) = Some s →
        ∃ xs, lookup_column col (columns (store st' !!! c)) = Some (Object xs)
          ∧ length xs = series_length s
          ∧ ∀ i cell, xs !! i = Some cell →
              ∃ t, cell = Some t ∧ trimmed t
                ∧ (col = "grade_level" → no_upper t = true).
Proof.
  apply (clean_text_cells_trimmed const_repr (loaded math_frame) 0 math_frame);
    reflexivity.
Defined.

(** Cleaning the sample with a missing name. *)
Lemma clean_missing_text_is_nan_witness :
  ∃ c st',
    clean_data const_repr (loaded missing_name_frame) = (Returns (Some c), st')
    ∧ ∀ col ys i, col ∈ text_columns →
        lookup_column col (columns missing_name_frame) = Some (Object ys) →
        ys !! i = Some None →
        object_cell (store st' !!! c) col i = Some (Some "nan").
Proof.
  apply (clean_missing_text_is_nan const_repr (loaded missing_name_frame) 0
           missing_name_frame); reflexivity.
Defined.

Lemma clean_keeps_scores_in_range_witness :
  ∃ c st', clean_data const_repr (loaded math_frame) = (Returns (Some c), st')
    ∧ scores_in_range (store st' !!! c).
Proof.
  apply (clean_keeps_scores_in_range const_repr (loaded math_frame) 0 math_frame);
    try reflexivity.
  by apply scores_in_range_b_spec.
Defined.

(** The first name of the sample is padded, its first grade level
    upper-cased. *)
Lemma clean_undoes_sample_noise_witness :
  ∃ c st', clean_data const_repr (loaded math_frame) = (Returns (Some c), st')
    ∧ (∀ ys i x, lookup_column "name" (columns math_frame) = Some (Object ys) →
         ys !! i = Some (Some (pad_name x)) →
         ascii_only x = true → trimmed x →
         object_cell (store st' !!! c) "name" i = Some (Some x))
    ∧ (∀ ys i x,
         lookup_column "grade_level" (columns math_frame) = Some (Object ys) →
         ys !! i = Some (Some (upper_th x)) →
         ascii_only x = true → trimmed x → no_upper x = true →
         object_cell (store st' !!! c) "grade_level" i = Some (Some x)).
Proof.
  apply (clean_undoes_sample_noise const_repr (loaded math_frame) 0 math_frame);
    reflexivity.
Defined.

(** The average of the student of the sample whose Math score was
    missing. *)
Lemma overall_average_is_row_mean_witness :
  ∃ a, float_cell (store (transformed_state math_frame) !!! 1)
         "overall_average" 1 = Some a
    ∧ rounded_mean (subject_row (store (transformed_state math_frame) !!! 1) 1).*2 a
    ∧ cell_in_range a.
Proof.
  apply (overall_average_is_row_mean (cleaned math_frame) 1
           (transformed_state math_frame)).
  - by vm_compute.
  - apply gradebook_b_spec. by vm_compute.
  - vm_compute. lia.
Defined.

(** The first student of the sample without scores. *)
Lemma record_without_scores_witness :
  float_cell (store (transformed_state unscored_frame) !!! 1)
    "overall_average" 0 = Some None
  ∧ object_cell (store (transformed_state unscored_frame) !!! 1)
      "letter_grade" 0 = Some (Some "F")
  ∧ object_cell (store (transformed_state unscored_frame) !!! 1)
      "performance" 0 = Some (Some "Needs Improvement")
  ∧ object_cell (store (transformed_state unscored_frame) !!! 1)
      "best_subject" 0 = Some None
  ∧ object_cell (store (transformed_state unscored_frame) !!! 1)
      "worst_subject" 0 = Some None.
Proof.
  apply (record_without_scores (cleaned unscored_frame) 1
           (transformed_state unscored_frame)).
  - by vm_compute.
  - vm_compute. lia.
  - apply Forall_forall. vm_compute. repeat constructor.
Defined.

(** The same average, 90.0, is between 0 and 100. *)
Lemma overall_average_in_range_witness : in_range (900 # 10).
Proof.
  refine (overall_average_in_range (cleaned math_frame) 1
            (transformed_state math_frame) _ _ 1 (900 # 10) _).
  - by vm_compute.
  - by apply scores_in_range_b_spec.
  - by vm_compute.
Defined.

(** The first student of the sample of two has 100 in Math and in
    Science: Math, which comes first, is the best and the worst subject. *)
Lemma best_subject_first_maximum_witness :
  ∃ pre post q,
    existing_grade_columns (store (transformed_state no_gender_frame) !!! 1)
    = pre ++ "Math" :: post
    ∧ score (store (transformed_state no_gender_frame) !!! 1) "Math" 0 = Some q
    ∧ (∀ col q', col ∈ pre →
         score (store (transformed_state no_gender_frame) !!! 1) col 0 = Some q' →
         (q' < q)%Q)
    ∧ (∀ col q', col ∈ post →
         score (store (transformed_state no_gender_frame) !!! 1) col 0 = Some q' →
         (q' <= q)%Q).
Proof.
  apply (best_subject_first_maximum (cleaned no_gender_frame) 1
           (transformed_state no_gender_frame)); by vm_compute.
Defined.

Lemma worst_subject_first_minimum_witness :
  ∃ pre post q,
    existing_grade_columns (store (transformed_state no_gender_frame) !!! 1)
    = pre ++ "Math" :: post
    ∧ score (store (transformed_state no_gender_frame) !!! 1) "Math" 0 = Some q
    ∧ (∀ col q', col ∈ pre →
         score (store (transformed_state no_gender_frame) !!! 1) col 0 = Some q' →
         (q < q')%Q)
    ∧ (∀ col q', col ∈ post →
         score (store (transformed_state no_gender_frame) !!! 1) col 0 = Some q' →
         (q <= q')%Q).
Proof.
  apply (worst_subject_first_minimum (cleaned no_gender_frame) 1
           (transformed_state no_gender_frame)); by vm_compute.
Defined.

(** The analysis of the transformed sample. *)
Lemma analyze_leaves_data_unchanged_witness :
  store (analyze_data (transformed_state math_frame)).2
  = store (transformed_state math_frame)
  ∧ raw_data (analyze_data (transformed_state math_frame)).2
    = raw_data (transformed_state math_frame)
  ∧ cleaned_data (analyze_data (transformed_state math_frame)).2
    = cleaned_data (transformed_state math_frame).
Proof.
  apply (analyze_leaves_data_unchanged (cleaned math_frame) 1
           (transformed_state math_frame)).
  by vm_compute.
Defined.

Lemma analyze_subject_averages_witness :
  ∃ rs m, (analyze_data (transformed_state math_frame)).1 = Returns (Some rs)
    ∧ results (analyze_data (transformed_state math_frame)).2 = rs
    ∧ subject_averages rs = Some m
    ∧ (∀ col,
         col ∈ existing_grade_columns (store (transformed_state math_frame) !!! 1) →
         ∃ v, m !! col = Some (Some v)
           ∧ rounded_mean
               (cells_of (store (transformed_state math_frame) !!! 1) col) (Some v)
           ∧ in_range v)
    ∧ (∀ col,
         col ∉ existing_grade_columns (store (transformed_state math_frame) !!! 1) →
         m !! col = None).
Proof.
  apply (analyze_subject_averages (cleaned math_frame) 1
           (transformed_state math_frame)).
  - by vm_compute.
  - by vm_compute.
  - apply scored_b_spec. by vm_compute.
  - apply gradebook_b_spec. by vm_compute.
Defined.

Lemma analyze_performance_by_grade_witness :
  ∃ rs pg, (analyze_data (transformed_state math_frame)).1 = Returns (Some rs)
    ∧ performance_by_grade rs = Some pg
    ∧ ∀ k, match rows_with k
                   (zip (series_labels (Object [Some "10th"; Some "9th"; Some "9th"]))
                      (cells_of (store (transformed_state math_frame) !!! 1)
                         "overall_average")) with
           | [] => pg !! k = None
           | v :: vs =>
               ∃ a, pg !! k = Some a
                 ∧ rounded_mean (v :: vs) a ∧ cell_in_range a
           end.
Proof.
  apply (analyze_performance_by_grade (cleaned math_frame) 1
           (transformed_state math_frame)).
  - by vm_compute.
  - by vm_compute.
  - apply scored_b_spec. by vm_compute.
  - apply gradebook_b_spec. by vm_compute.
Defined.

Lemma analyze_gender_performance_witness :
  ∃ rs gp, (analyze_data (transformed_state math_frame)).1 = Returns (Some rs)
    ∧ gender_performance rs = Some gp
    ∧ match lookup_column "gender"
              (columns (store (transformed_state math_frame) !!! 1)) with
      | None => gp = ∅
      | Some gs =>
          ∀ k, match rows_with k
                       (zip (series_labels gs)
                          (cells_of (store (transformed_state math_frame) !!! 1)
                             "overall_average")) with
               | [] => gp !! k = None
               | v :: vs =>
                   ∃ a, gp !! k = Some a
                     ∧ rounded_mean (v :: vs) a ∧ cell_in_range a
               end
      end.
Proof.
  apply (analyze_gender_performance (cleaned math_frame) 1
           (transformed_state math_frame)).
  - by vm_compute.
  - by vm_compute.
  - apply scored_b_spec. by vm_compute.
  - apply gradebook_b_spec. by vm_compute.
Defined.

(** The letter grades of the sample are B, A and A. *)
Lemma grade_distribution_observed_letters_witness :
  ∃ gd, grade_distribution (results (analyze_data (transformed_state math_frame)).2)
        = Some gd
    ∧ (∀ g, gd !! LStr g
         = match count_string g [Some "B"; Some "A"; Some "A"] with
           | O => None
           | S n => Some (S n)
           end)
    ∧ ∀ k n, gd !! k = Some n →
        ∃ g, k = LStr g ∧ g ∈ ["A"; "B"; "C"; "D"; "F"].
Proof.
  apply (grade_distribution_observed_letters (cleaned math_frame) 1
           (transformed_state math_frame)).
  - by vm_compute.
  - apply scored_b_spec. by vm_compute.
  - by vm_compute.
Defined.

(** The analysis of the sample that is cleaned and not transformed. *)
Lemma analyze_before_transform_witness :
  analyze_data (cleaned math_frame)
  = (Raises (KeyError "overall_average"), cleaned math_frame).
Proof.
  apply (analyze_before_transform (cleaned math_frame) 1
           (store (cleaned math_frame) !!! 1)); by vm_compute.
Defined.

(** The analysis of the sample that is loaded and not cleaned. *)
Lemma analyze_nothing_to_analyze_witness :
  analyze_data (loaded math_frame) = (Returns None, loaded math_frame).
Proof.
  apply (analyze_nothing_to_analyze (loaded math_frame)). by left.
Defined.

Lemma basic_stats_extremes_witness :
  ∃ rs b, (analyze_data (transformed_state math_frame)).1 = Returns (Some rs)
    ∧ basic_stats rs = Some b
    ∧ total_students b = nrows (store (transformed_state math_frame) !!! 1)
    ∧ (∀ h, highest_grade b = Some h →
         Some h ∈ cells_of (store (transformed_state math_frame) !!! 1)
                    "overall_average"
         ∧ ∀ q, Some q ∈ cells_of (store (transformed_state math_frame) !!! 1)
                           "overall_average" →
             (q <= h)%Q)
    ∧ (∀ l, lowest_grade b = Some l →
         Some l ∈ cells_of (store (transformed_state math_frame) !!! 1)
                    "overall_average"
         ∧ ∀ q, Some q ∈ cells_of (store (transformed_state math_frame) !!! 1)
                           "overall_average" →
             (l <= q)%Q).
Proof.
  apply (basic_stats_extremes (cleaned math_frame) 1
           (transformed_state math_frame)).
  - by vm_compute.
  - by vm_compute.
  - apply scored_b_spec. by vm_compute.
Defined.

(** The whole pipeline on the sample with one missing Math score. *)
Lemma run_pipeline_succeeds_witness :
  ∃ rs st' gd,
    run_pipeline const_repr math_frame (init ∅) = (Returns (Some rs), st')
    ∧ results st' = rs
    ∧ total_students <$> basic_stats rs = Some (nrows math_frame)
    ∧ grade_distribution rs = Some gd
    ∧ sum_counts gd = nrows math_frame.
Proof.
  apply (run_pipeline_succeeds const_repr (init ∅) math_frame).
  - by vm_compute.
  - by vm_compute.
  - apply scored_b_spec. by vm_compute.
  - by vm_compute.
Defined.

(** The dashboard on the cleaned sample. *)
Lemma process_raw_data_matches_transform_witness :
  ∃ P, Dashboard.process_raw_data (Some (store (cleaned math_frame) !!! 1))
       = (Returns tt, Some P)
    ∧ (∀ col, col ∈ dashboard_columns →
         lookup_column col (columns P)
         = lookup_column col (columns (store (transformed_state math_frame) !!! 1)))
    ∧ (∀ col, col ∉ dashboard_columns →
         lookup_column col (columns P)
         = lookup_column col (columns (store (cleaned math_frame) !!! 1))).
Proof.
  apply (process_raw_data_matches_transform (cleaned math_frame) 1
           (transformed_state math_frame)).
  by vm_compute.
Defined.

(** The sample whose overall average is not the mean of its scores keeps
    that average. *)
Lemma ensure_never_overwrites_witness :
  ∃ df', (Dashboard.ensure_processed_columns (Some averaged_frame)).2 = Some df'
    ∧ ∀ col, is_Some (lookup_column col (columns averaged_frame)) →
        lookup_column col (columns df') = lookup_column col (columns averaged_frame).
Proof.
  apply (ensure_never_overwrites averaged_frame
           (Dashboard.ensure_processed_columns (Some averaged_frame)).1
           (Dashboard.ensure_processed_columns (Some averaged_frame)).2).
  reflexivity.
Defined.

Lemma ensure_idempotent_witness :
  Dashboard.ensure_processed_columns
    (Dashboard.ensure_processed_columns (Some averaged_frame)).2
  = (Returns tt, (Dashboard.ensure_processed_columns (Some averaged_frame)).2).
Proof.
  apply (ensure_idempotent averaged_frame). by vm_compute.
Defined.

Lemma ensure_matches_process_witness :
  Dashboard.ensure_processed_columns (Some no_gender_frame)
  = Dashboard.process_raw_data (Some no_gender_frame).
Proof.
  apply (ensure_matches_process no_gender_frame).
  apply Forall_forall. vm_compute. repeat constructor.
Defined.

(** The students of the 9th grade with an A, of the data of the
    dashboard. *)
Lemma filters_and_combine_witness :
  Dashboard.apply_filters (Some (LStr "9th")) (Some (LStr "A")) (Some (LStr "All"))
    dashboard_frame
  = (Returns tt,
     Dashboard.filter_rows
       (combined_mask (Some (LStr "9th")) (Some (LStr "A")) (Some (LStr "All"))
          dashboard_frame)
       dashboard_frame)
  ∧ ∀ i, combined_mask (Some (LStr "9th")) (Some (LStr "A")) (Some (LStr "All"))
           dashboard_frame !! i = Some true
         ↔ mask_of "grade_level" (Some (LStr "9th")) dashboard_frame !! i = Some true
           ∧ mask_of "letter_grade" (Some (LStr "A")) dashboard_frame !! i = Some true
           ∧ mask_of "performance" (Some (LStr "All")) dashboard_frame !! i = Some true.
Proof.
  apply (filters_and_combine (Some (LStr "9th")) (Some (LStr "A"))
           (Some (LStr "All")) dashboard_frame).
  repeat constructor.
Defined.

Lemma filtered_rows_match_witness :
  ∃ df' s',
    Dashboard.apply_filters (Some (LStr "9th")) (Some (LStr "A"))
      (Some (LStr "All")) dashboard_frame
    = (Returns tt, df')
    ∧ lookup_column "letter_grade" (columns df') = Some s'
    ∧ Forall (eq true) (Dashboard.series_eq s' (Some (LStr "A"))).
Proof.
  apply (filtered_rows_match (Some (LStr "9th")) (Some (LStr "A"))
           (Some (LStr "All")) dashboard_frame "letter_grade" (Some (LStr "A"))
           (Object [Some "B"; Some "A"; Some "A"])).
  - repeat constructor.
  - apply list_elem_of_further, list_elem_of_here.
  - reflexivity.
  - reflexivity.
Defined.

(** The raw sample after cleaning and transforming. *)
Lemma pipeline_keeps_raw_data_witness :
  raw_data ((clean_data const_repr;; transform_data) (loaded math_frame)).2 = Some 0
  ∧ store ((clean_data const_repr;; transform_data) (loaded math_frame)).2 !! 0
    = Some math_frame.
Proof.
  apply (pipeline_keeps_raw_data const_repr (loaded math_frame) 0 math_frame
           ((clean_data const_repr;; transform_data) (loaded math_frame)).1);
    reflexivity.
Defined.

(** Cleaning the transformed sample again. *)
Lemma clean_again_starts_over_witness :
  ∃ c1 c3, cleaned_data (cleaned math_frame) = Some c1
    ∧ cleaned_data (clean_data const_repr (transformed_state math_frame)).2 = Some c3
    ∧ c3 ≠ c1
    ∧ store (clean_data const_repr (transformed_state math_frame)).2 !! c3
      = store (cleaned math_frame) !! c1
    ∧ store (clean_data const_repr (transformed_state math_frame)).2 !! c1
      = store (transformed_state math_frame) !! c1.
Proof.
  apply (clean_again_starts_over const_repr (loaded math_frame) 0 math_frame
           (clean_data const_repr (loaded math_frame)).1 (cleaned math_frame)
           (transform_data (cleaned math_frame)).1 (transformed_state math_frame)
           (clean_data const_repr (transformed_state math_frame)).1);
    reflexivity.
Defined.
